(** * Robo AI transcription tool: session store, transcription pipeline
    and the localStorage hook.

    The development embeds the non-rendering logic of [App.tsx] and of the
    Gemini service module ([transcribeAudio], [analyzeTextMetrics]) and
    proves the properties of the session manager, of the transcription
    pipeline and of the [useLocalStorage] hook.

    Conventions of the embedding.
    - A JavaScript string is a [string]; the characters are the code units
      0..255.
    - A handler is a computation in the monad [M]: it threads the mutable
      world (React state, console, requests sent to the remote model,
      released object URLs) and may end in a thrown value, which is how
      [throw], a rejected promise and [try]/[catch]/[finally] are written.
    - A handler reads React state through the closure of the render it was
      created in; that render is the argument [r] of the handler, and the
      setters act on the world.  A handler is run on the world whose state
      is the render it closes over.
    - The platform and the remote model are the fields of [Env]. *)

From Stdlib Require Import String Ascii List Bool Arith Lia.
From stdpp Require Import base option list strings gmap.
Import ListNotations.

Local Open Scope string_scope.

(** ** JavaScript values used by the program *)

Module JS.

(** What a [throw] or a rejected promise carries: an [Error] object with
    its message, or any other value.  [error instanceof Error] is the test
    for the first constructor. *)
Inductive exn : Type :=
| ErrorObj (message : string)
| Thrown (value : string).

Inductive result (A : Type) : Type :=
| Ok (a : A)
| Throw (e : exn).

Arguments Ok {A} a.
Arguments Throw {A} e.

(** The white space and line terminators of ECMAScript among the code
    units 0..255: TAB, LF, VT, FF, CR, SPACE and NBSP. *)
Definition is_whitespace (c : ascii) : bool :=
  match nat_of_ascii c with
  | 9 | 10 | 11 | 12 | 13 | 32 | 160 => true
  | _ => false
  end.

Fixpoint trimStart (s : string) : string :=
  match s with
  | EmptyString => EmptyString
  | String c rest => if is_whitespace c then trimStart rest else s
  end.

Fixpoint trimEnd (s : string) : string :=
  match s with
  | EmptyString => EmptyString
  | String c rest =>
      match trimEnd rest with
      | EmptyString => if is_whitespace c then EmptyString else String c EmptyString
      | kept => String c kept
      end
  end.

(** [String.prototype.trim] *)
Definition trim (s : string) : string := trimEnd (trimStart s).

(** Truthiness of a string: every string but the empty one. *)
Definition truthy (s : string) : bool :=
  match s with
  | EmptyString => false
  | String _ _ => true
  end.

(** The double quote character, for the messages that quote a name. *)
Definition dquote : string := String (ascii_of_nat 34) EmptyString.

(** [s.split(',')]: the pieces between the commas, at least one piece. *)
Fixpoint split_comma (s : string) : list string :=
  match s with
  | EmptyString => [EmptyString]
  | String c rest =>
      if Ascii.eqb c ","%char then EmptyString :: split_comma rest
      else match split_comma rest with
           | piece :: pieces => String c piece :: pieces
           | [] => [String c EmptyString]
           end
  end.

End JS.

Export JS.

(** ** The monad of handlers: a mutable world and thrown values *)

Section Monad.
Context {W : Type}.

Definition M (A : Type) : Type := W -> result A * W.

Definition ret {A} (a : A) : M A := fun w => (Ok a, w).

Definition bind {A B} (m : M A) (k : A -> M B) : M B :=
  fun w =>
    match m w with
    | (Ok a, w1) => k a w1
    | (Throw e, w1) => (Throw e, w1)
    end.

Definition throw {A} (e : exn) : M A := fun w => (Throw e, w).

(** A platform call whose outcome the environment fixes. *)
Definition lift {A} (r : result A) : M A := fun w => (r, w).

Definition modify (f : W -> W) : M unit := fun w => (Ok tt, f w).

(** [try { body } catch (e) { handler e }] *)
Definition try_catch {A} (body : M A) (handler : exn -> M A) : M A :=
  fun w =>
    match body w with
    | (Ok a, w1) => (Ok a, w1)
    | (Throw e, w1) => handler e w1
    end.

(** [try { body } finally { final }]: [final] always runs; what it throws
    replaces the outcome of [body]. *)
Definition try_finally {A} (body : M A) (final : M unit) : M A :=
  fun w =>
    match body w with
    | (r, w1) =>
        match final w1 with
        | (Ok _, w2) => (r, w2)
        | (Throw e, w2) => (Throw e, w2)
        end
    end.

(** [try { body } catch (e) { handler e } finally { final }] *)
Definition try_catch_finally {A} (body : M A) (handler : exn -> M A)
    (final : M unit) : M A :=
  try_finally (try_catch body handler) final.

End Monad.

Arguments M W A : clear implicits.

Notation "x <- m ;; k" := (bind m (fun x => k))
  (at level 100, m at next level, right associativity).
Notation "m ;; k" := (bind m (fun _ => k))
  (at level 100, right associativity).

(** ** Data model of [App.tsx] *)

Module App.

Record Session : Type := {
  id : string;
  name : string;
  text : string;
  date : string
}.

(** A [Blob]: its bytes and its MIME type. *)
Record Blob : Type := {
  bytes : string;
  type : string
}.

Record WordMetrics : Type := {
  wordCount : Z;
  characterCount : Z;
  verbCount : Z;
  nounCount : Z;
  adjectiveCount : Z;
  conjunctionCount : Z;
  profanityCount : Z
}.

(** The [useState] cells of the component that the handlers read or
    write; [null] is [None]. *)
Record AppState : Type := {
  isRecording : bool;
  audioBlob : option Blob;
  audioUrl : string;
  transcribedText : string;
  isTranscribing : bool;
  targetLanguage : string;
  sessionName : string;
  savedSessions : list Session;
  editingSessionId : option string;
  editingSessionName : string;
  metrics : option WordMetrics;
  isAnalyzingMetrics : bool;
  showMetrics : bool;
  error : option string;
  copySuccess : string
}.

(** The initial render: the arguments of the [useState] calls, with the
    session list read from the store. *)
Definition initialState (sessions : list Session) : AppState :=
  {| isRecording := false; audioBlob := None; audioUrl := EmptyString;
     transcribedText := EmptyString; isTranscribing := false;
     targetLanguage := "English"; sessionName := EmptyString;
     savedSessions := sessions; editingSessionId := None;
     editingSessionName := EmptyString; metrics := None;
     isAnalyzingMetrics := false; showMetrics := false; error := None;
     copySuccess := EmptyString |}.

(** A request to [ai.models.generateContent]. *)
Inductive Request : Type :=
| Transcription (model prompt mimeType : string) (data : option string)
| Analysis (model contents : string).

(** [mediaRecorderRef.current] once a recorder was created. *)
Record MediaRecorder : Type := {
  mimeType_of : string;
  stopped : bool
}.

(** The mutable world of the handlers: the React state, the two refs, and
    what went out to the console, to the remote model and to
    [URL.revokeObjectURL]. *)
Record World : Type := {
  app : AppState;
  mediaRecorderRef : option MediaRecorder;
  audioChunksRef : list Blob;
  console : list string;
  requests : list Request;
  revoked : list string
}.

Definition world_of (st : AppState) : World :=
  {| app := st; mediaRecorderRef := None; audioChunksRef := [];
     console := []; requests := []; revoked := [] |}.

(** The platform and the remote model. *)
Record Env : Type := {
  API_KEY : option string;
  generateContent : Request -> result string;
  JSON_parse : string -> result WordMetrics;
  readAsDataURL : Blob -> result string;
  getUserMedia : result unit;
  MediaRecorder_new : result string;
  createObjectURL : Blob -> string;
  Date_now : string;
  toLocaleString : string;
  toISOString : string
}.

(** *** The state setters *)

Definition on_app (f : AppState -> AppState) : M World unit :=
  modify (fun w =>
    {| app := f (app w); mediaRecorderRef := mediaRecorderRef w;
       audioChunksRef := audioChunksRef w; console := console w;
       requests := requests w; revoked := revoked w |}).

Definition setIsRecording (v : bool) : M World unit :=
  on_app (fun st =>
    {| isRecording := v; audioBlob := audioBlob st; audioUrl := audioUrl st;
       transcribedText := transcribedText st; isTranscribing :=
       isTranscribing st; targetLanguage := targetLanguage st;
       sessionName := sessionName st; savedSessions := savedSessions
       st; editingSessionId := editingSessionId st; editingSessionName
       := editingSessionName st; metrics := metrics st;
       isAnalyzingMetrics := isAnalyzingMetrics st; showMetrics :=
       showMetrics st; error := error st; copySuccess := copySuccess
       st |}).

Definition setAudioBlob (v : option Blob) : M World unit :=
  on_app (fun st =>
    {| isRecording := isRecording st; audioBlob := v; audioUrl := audioUrl
       st; transcribedText := transcribedText st; isTranscribing :=
       isTranscribing st; targetLanguage := targetLanguage st;
       sessionName := sessionName st; savedSessions := savedSessions
       st; editingSessionId := editingSessionId st; editingSessionName
       := editingSessionName st; metrics := metrics st;
       isAnalyzingMetrics := isAnalyzingMetrics st; showMetrics :=
       showMetrics st; error := error st; copySuccess := copySuccess
       st |}).

Definition setAudioUrl (v : string) : M World unit :=
  on_app (fun st =>
    {| isRecording := isRecording st; audioBlob := audioBlob st; audioUrl :=
       v; transcribedText := transcribedText st; isTranscribing :=
       isTranscribing st; targetLanguage := targetLanguage st;
       sessionName := sessionName st; savedSessions := savedSessions
       st; editingSessionId := editingSessionId st; editingSessionName
       := editingSessionName st; metrics := metrics st;
       isAnalyzingMetrics := isAnalyzingMetrics st; showMetrics :=
       showMetrics st; error := error st; copySuccess := copySuccess
       st |}).

Definition setTranscribedText (v : string) : M World unit :=
  on_app (fun st =>
    {| isRecording := isRecording st; audioBlob := audioBlob st; audioUrl :=
       audioUrl st; transcribedText := v; isTranscribing :=
       isTranscribing st; targetLanguage := targetLanguage st;
       sessionName := sessionName st; savedSessions := savedSessions
       st; editingSessionId := editingSessionId st; editingSessionName
       := editingSessionName st; metrics := metrics st;
       isAnalyzingMetrics := isAnalyzingMetrics st; showMetrics :=
       showMetrics st; error := error st; copySuccess := copySuccess
       st |}).

Definition setIsTranscribing (v : bool) : M World unit :=
  on_app (fun st =>
    {| isRecording := isRecording st; audioBlob := audioBlob st; audioUrl :=
       audioUrl st; transcribedText := transcribedText st;
       isTranscribing := v; targetLanguage := targetLanguage st;
       sessionName := sessionName st; savedSessions := savedSessions
       st; editingSessionId := editingSessionId st; editingSessionName
       := editingSessionName st; metrics := metrics st;
       isAnalyzingMetrics := isAnalyzingMetrics st; showMetrics :=
       showMetrics st; error := error st; copySuccess := copySuccess
       st |}).

Definition setTargetLanguage (v : string) : M World unit :=
  on_app (fun st =>
    {| isRecording := isRecording st; audioBlob := audioBlob st; audioUrl :=
       audioUrl st; transcribedText := transcribedText st;
       isTranscribing := isTranscribing st; targetLanguage := v;
       sessionName := sessionName st; savedSessions := savedSessions
       st; editingSessionId := editingSessionId st; editingSessionName
       := editingSessionName st; metrics := metrics st;
       isAnalyzingMetrics := isAnalyzingMetrics st; showMetrics :=
       showMetrics st; error := error st; copySuccess := copySuccess
       st |}).

Definition setSessionName (v : string) : M World unit :=
  on_app (fun st =>
    {| isRecording := isRecording st; audioBlob := audioBlob st; audioUrl :=
       audioUrl st; transcribedText := transcribedText st;
       isTranscribing := isTranscribing st; targetLanguage :=
       targetLanguage st; sessionName := v; savedSessions :=
       savedSessions st; editingSessionId := editingSessionId st;
       editingSessionName := editingSessionName st; metrics := metrics
       st; isAnalyzingMetrics := isAnalyzingMetrics st; showMetrics :=
       showMetrics st; error := error st; copySuccess := copySuccess
       st |}).

Definition setSavedSessions (v : list Session) : M World unit :=
  on_app (fun st =>
    {| isRecording := isRecording st; audioBlob := audioBlob st; audioUrl :=
       audioUrl st; transcribedText := transcribedText st;
       isTranscribing := isTranscribing st; targetLanguage :=
       targetLanguage st; sessionName := sessionName st; savedSessions
       := v; editingSessionId := editingSessionId st;
       editingSessionName := editingSessionName st; metrics := metrics
       st; isAnalyzingMetrics := isAnalyzingMetrics st; showMetrics :=
       showMetrics st; error := error st; copySuccess := copySuccess
       st |}).

Definition setEditingSessionId (v : option string) : M World unit :=
  on_app (fun st =>
    {| isRecording := isRecording st; audioBlob := audioBlob st; audioUrl :=
       audioUrl st; transcribedText := transcribedText st;
       isTranscribing := isTranscribing st; targetLanguage :=
       targetLanguage st; sessionName := sessionName st; savedSessions
       := savedSessions st; editingSessionId := v; editingSessionName
       := editingSessionName st; metrics := metrics st;
       isAnalyzingMetrics := isAnalyzingMetrics st; showMetrics :=
       showMetrics st; error := error st; copySuccess := copySuccess
       st |}).

Definition setEditingSessionName (v : string) : M World unit :=
  on_app (fun st =>
    {| isRecording := isRecording st; audioBlob := audioBlob st; audioUrl :=
       audioUrl st; transcribedText := transcribedText st;
       isTranscribing := isTranscribing st; targetLanguage :=
       targetLanguage st; sessionName := sessionName st; savedSessions
       := savedSessions st; editingSessionId := editingSessionId st;
       editingSessionName := v; metrics := metrics st;
       isAnalyzingMetrics := isAnalyzingMetrics st; showMetrics :=
       showMetrics st; error := error st; copySuccess := copySuccess
       st |}).

Definition setMetrics (v : option WordMetrics) : M World unit :=
  on_app (fun st =>
    {| isRecording := isRecording st; audioBlob := audioBlob st; audioUrl :=
       audioUrl st; transcribedText := transcribedText st;
       isTranscribing := isTranscribing st; targetLanguage :=
       targetLanguage st; sessionName := sessionName st; savedSessions
       := savedSessions st; editingSessionId := editingSessionId st;
       editingSessionName := editingSessionName st; metrics := v;
       isAnalyzingMetrics := isAnalyzingMetrics st; showMetrics :=
       showMetrics st; error := error st; copySuccess := copySuccess
       st |}).

Definition setIsAnalyzingMetrics (v : bool) : M World unit :=
  on_app (fun st =>
    {| isRecording := isRecording st; audioBlob := audioBlob st; audioUrl :=
       audioUrl st; transcribedText := transcribedText st;
       isTranscribing := isTranscribing st; targetLanguage :=
       targetLanguage st; sessionName := sessionName st; savedSessions
       := savedSessions st; editingSessionId := editingSessionId st;
       editingSessionName := editingSessionName st; metrics := metrics
       st; isAnalyzingMetrics := v; showMetrics := showMetrics st;
       error := error st; copySuccess := copySuccess st |}).

Definition setShowMetrics (v : bool) : M World unit :=
  on_app (fun st =>
    {| isRecording := isRecording st; audioBlob := audioBlob st; audioUrl :=
       audioUrl st; transcribedText := transcribedText st;
       isTranscribing := isTranscribing st; targetLanguage :=
       targetLanguage st; sessionName := sessionName st; savedSessions
       := savedSessions st; editingSessionId := editingSessionId st;
       editingSessionName := editingSessionName st; metrics := metrics
       st; isAnalyzingMetrics := isAnalyzingMetrics st; showMetrics :=
       v; error := error st; copySuccess := copySuccess st |}).

Definition setError (v : option string) : M World unit :=
  on_app (fun st =>
    {| isRecording := isRecording st; audioBlob := audioBlob st; audioUrl :=
       audioUrl st; transcribedText := transcribedText st;
       isTranscribing := isTranscribing st; targetLanguage :=
       targetLanguage st; sessionName := sessionName st; savedSessions
       := savedSessions st; editingSessionId := editingSessionId st;
       editingSessionName := editingSessionName st; metrics := metrics
       st; isAnalyzingMetrics := isAnalyzingMetrics st; showMetrics :=
       showMetrics st; error := v; copySuccess := copySuccess st |}).

Definition setCopySuccess (v : string) : M World unit :=
  on_app (fun st =>
    {| isRecording := isRecording st; audioBlob := audioBlob st; audioUrl :=
       audioUrl st; transcribedText := transcribedText st;
       isTranscribing := isTranscribing st; targetLanguage :=
       targetLanguage st; sessionName := sessionName st; savedSessions
       := savedSessions st; editingSessionId := editingSessionId st;
       editingSessionName := editingSessionName st; metrics := metrics
       st; isAnalyzingMetrics := isAnalyzingMetrics st; showMetrics :=
       showMetrics st; error := error st; copySuccess := v |}).

(** [setSavedSessions(prev => f(prev))]: the functional form reads the
    state the world holds, not the render's closure. *)
Definition updateSavedSessions (f : list Session -> list Session) : M World unit :=
  on_app (fun st =>
    {| isRecording := isRecording st; audioBlob := audioBlob st;
       audioUrl := audioUrl st; transcribedText := transcribedText st;
       isTranscribing := isTranscribing st;
       targetLanguage := targetLanguage st; sessionName := sessionName st;
       savedSessions := f (savedSessions st);
       editingSessionId := editingSessionId st;
       editingSessionName := editingSessionName st; metrics := metrics st;
       isAnalyzingMetrics := isAnalyzingMetrics st;
       showMetrics := showMetrics st; error := error st;
       copySuccess := copySuccess st |}).

(** *** Effects outside the React state *)

(** [console.error(label, ...)]: the label is recorded. *)
Definition console_error (label : string) : M World unit :=
  modify (fun w =>
    {| app := app w; mediaRecorderRef := mediaRecorderRef w;
       audioChunksRef := audioChunksRef w; console := console w ++ [label];
       requests := requests w; revoked := revoked w |}).

(** [URL.revokeObjectURL(url)] *)
Definition revokeObjectURL (url : string) : M World unit :=
  modify (fun w =>
    {| app := app w; mediaRecorderRef := mediaRecorderRef w;
       audioChunksRef := audioChunksRef w; console := console w;
       requests := requests w; revoked := revoked w ++ [url] |}).

Definition setMediaRecorderRef (rec : option MediaRecorder) : M World unit :=
  modify (fun w =>
    {| app := app w; mediaRecorderRef := rec;
       audioChunksRef := audioChunksRef w; console := console w;
       requests := requests w; revoked := revoked w |}).

Definition setAudioChunksRef (chunks : list Blob) : M World unit :=
  modify (fun w =>
    {| app := app w; mediaRecorderRef := mediaRecorderRef w;
       audioChunksRef := chunks; console := console w;
       requests := requests w; revoked := revoked w |}).

Definition getMediaRecorderRef : M World (option MediaRecorder) :=
  fun w => (Ok (mediaRecorderRef w), w).

Definition getAudioChunksRef : M World (list Blob) :=
  fun w => (Ok (audioChunksRef w), w).

Section Program.
Variable env : Env.

(** [await ai.models.generateContent(request)]: the request goes out, and
    the call resolves to [response.text] or rejects. *)
Definition ai_generateContent (request : Request) : M World string :=
  modify (fun w =>
    {| app := app w; mediaRecorderRef := mediaRecorderRef w;
       audioChunksRef := audioChunksRef w; console := console w;
       requests := requests w ++ [request]; revoked := revoked w |}) ;;
  lift (generateContent env request).

(** [!process.env.API_KEY] *)
Definition API_KEY_missing : bool :=
  match API_KEY env with
  | Some key => negb (truthy key)
  | None => true
  end.

(** ** The Gemini service *)

(** The argument of [generateContent] in [transcribeAudio]: the text part
    and the audio part. *)
Definition transcriptionRequest (base64Audio : option string) (mimeType language : string)
    : Request :=
  Transcription "gemini-2.5-flash"
    ("Please transcribe this audio recording accurately and provide the final text in "
       +:+ language +:+ ".")
    mimeType base64Audio.

(** The argument of [generateContent] in [analyzeTextMetrics]. *)
Definition analysisRequest (text : string) : Request :=
  Analysis "gemini-2.5-flash"
    ("Analyze the following text and provide counts for the specified metrics. Text: "
       +:+ dquote +:+ text +:+ dquote).

(** What [transcribeAudio] resolves to when the call to the model rejects. *)
Definition transcriptionFailureText (error : exn) : string :=
  match error with
  | ErrorObj message => "Transcription failed: " +:+ message
  | Thrown _ => "An unknown error occurred during transcription."
  end.

Definition transcribeAudio (base64Audio : option string) (mimeType language : string)
    : M World string :=
  if API_KEY_missing then
    throw (ErrorObj "API_KEY environment variable not set")
  else
    try_catch
      (response_text <-
         ai_generateContent (transcriptionRequest base64Audio mimeType language) ;;
       ret response_text)
      (fun error =>
         console_error "Error during transcription:" ;;
         ret (transcriptionFailureText error)).

Definition analyzeTextMetrics (text : string) : M World WordMetrics :=
  if API_KEY_missing then
    throw (ErrorObj "API_KEY environment variable not set")
  else
    try_catch
      (response_text <-
         ai_generateContent (analysisRequest text) ;;
       parsed <- lift (JSON_parse env (trim response_text)) ;;
       ret parsed)
      (fun error =>
         console_error "Error analyzing text metrics:" ;;
         match error with
         | ErrorObj message => throw (ErrorObj ("Metrics analysis failed: " +:+ message))
         | Thrown _ => throw (ErrorObj "An unknown error occurred during metrics analysis.")
         end).

(** ** The component's helpers and handlers *)

(** The messages of the transcription pipeline. *)
Definition noAudioMessage : string := "No audio recorded to transcribe.".

Definition transcribeFailedMessage : string :=
  "Failed to transcribe audio. Please try again.".

Definition metricsFailedMessage : string := "Failed to analyze text metrics.".

(** [blobToBase64]: the [FileReader] delivers a data URL, and the promise
    resolves to [split(',')[1]], which is [undefined] ([None]) when the
    URL has no comma; a reader error rejects. *)
Definition blobToBase64 (blob : Blob) : M World (option string) :=
  dataUrl <- lift (readAsDataURL env blob) ;;
  ret (nth_error (split_comma dataUrl) 1).

Definition runMetricsAnalysis (text : string) : M World unit :=
  if negb (truthy (trim text)) then
    setMetrics None ;;
    setShowMetrics false
  else
    setIsAnalyzingMetrics true ;;
    setShowMetrics true ;;
    try_catch_finally
      (result <- analyzeTextMetrics text ;;
       setMetrics (Some result))
      (fun err =>
         console_error "Metrics analysis error:" ;;
         setError (Some metricsFailedMessage) ;;
         setShowMetrics false)
      (setIsAnalyzingMetrics false).

(** *** Recording *)

Definition handleStartRecording (r : AppState) : M World unit :=
  setError None ;;
  setAudioBlob None ;;
  setTranscribedText EmptyString ;;
  setSessionName EmptyString ;;
  setMetrics None ;;
  setShowMetrics false ;;
  (if truthy (audioUrl r) then revokeObjectURL (audioUrl r) else ret tt) ;;
  setAudioUrl EmptyString ;;
  try_catch
    (lift (getUserMedia env) ;;
     mime <- lift (MediaRecorder_new env) ;;
     setMediaRecorderRef (Some {| mimeType_of := mime; stopped := false |}) ;;
     setIsRecording true)
    (fun err =>
       console_error "Error starting recording:" ;;
       setError (Some "Could not start recording. Please grant microphone permissions.")).

(** [mediaRecorderRef.current.ondataavailable] *)
Definition ondataavailable (data : Blob) : M World unit :=
  if Nat.ltb 0 (String.length (bytes data)) then
    chunks <- getAudioChunksRef ;;
    setAudioChunksRef (chunks ++ [data])
  else ret tt.

(** The [type] a [Blob] gets from [new Blob(parts, { type })]: the given
    string in ASCII lower case, or the empty string when it holds a
    character outside U+0020..U+007E. *)
Definition toAsciiLowerCase (c : ascii) : ascii :=
  if Nat.leb 65 (nat_of_ascii c) && Nat.leb (nat_of_ascii c) 90
  then ascii_of_nat (nat_of_ascii c + 32)
  else c.

Fixpoint allPrintable (s : string) : bool :=
  match s with
  | EmptyString => true
  | String c rest =>
      Nat.leb 32 (nat_of_ascii c) && Nat.leb (nat_of_ascii c) 126 && allPrintable rest
  end.

Fixpoint lowerCased (s : string) : string :=
  match s with
  | EmptyString => EmptyString
  | String c rest => String (toAsciiLowerCase c) (lowerCased rest)
  end.

Definition blobType (given : string) : string :=
  if allPrintable given then lowerCased given else EmptyString.

(** [mediaRecorderRef.current.onstop]: the chunks become one blob of the
    recorder's MIME type, as the [Blob] constructor takes it. *)
Definition onstop : M World unit :=
  rec <- getMediaRecorderRef ;;
  chunks <- getAudioChunksRef ;;
  let mimeType :=
    match rec with
    | Some m => if truthy (mimeType_of m) then mimeType_of m else "audio/webm"
    | None => "audio/webm"
    end in
  let newAudioBlob :=
    {| bytes := String.concat EmptyString (List.map bytes chunks);
       type := blobType mimeType |} in
  setAudioBlob (Some newAudioBlob) ;;
  setAudioUrl (createObjectURL env newAudioBlob) ;;
  setAudioChunksRef [].

Definition handleStopRecording (r : AppState) : M World unit :=
  rec <- getMediaRecorderRef ;;
  match rec with
  | Some m =>
      if isRecording r then
        setMediaRecorderRef (Some {| mimeType_of := mimeType_of m; stopped := true |}) ;;
        setIsRecording false
      else ret tt
  | None => ret tt
  end.

(** *** Transcription *)

(** The part of [handleTranscribe] that runs before its first [await]:
    from here on a transcription is in flight. *)
Definition handleTranscribe_begin : M World unit :=
  setIsTranscribing true ;;
  setError None ;;
  setTranscribedText EmptyString ;;
  setCopySuccess EmptyString ;;
  setMetrics None ;;
  setShowMetrics false.

(** The [try]/[catch]/[finally] of [handleTranscribe]. *)
Definition handleTranscribe_resume (r : AppState) (blob : Blob) : M World unit :=
  try_catch_finally
    (base64Audio <- blobToBase64 blob ;;
     result <- transcribeAudio base64Audio (type blob) (targetLanguage r) ;;
     setTranscribedText result ;;
     runMetricsAnalysis result)
    (fun err =>
       console_error "Transcription error:" ;;
       setError (Some transcribeFailedMessage))
    (setIsTranscribing false).

Definition handleTranscribe (r : AppState) : M World unit :=
  match audioBlob r with
  | None => setError (Some noAudioMessage)
  | Some blob =>
      handleTranscribe_begin ;;
      handleTranscribe_resume r blob
  end.

(** The [disabled] attribute of the Transcribe button. *)
Definition transcribeDisabled (r : AppState) : bool :=
  negb (bool_decide (is_Some (audioBlob r))) || isRecording r || isTranscribing r.

(** A click on the Transcribe button: a disabled button dispatches
    nothing. *)
Definition clickTranscribe (r : AppState) : M World unit :=
  if transcribeDisabled r then ret tt else handleTranscribe r.

Definition handleClearText : M World unit :=
  setTranscribedText EmptyString ;;
  setCopySuccess EmptyString ;;
  setMetrics None ;;
  setShowMetrics false.

(** *** Sessions *)

Definition duplicateNameMessage (sessionName : string) : string :=
  "A session named " +:+ dquote +:+ sessionName +:+ dquote
    +:+ " already exists. Please choose a different name.".

Definition noTextMessage : string := "There is no transcribed text to save.".

Definition emptyNameMessage : string := "Session name cannot be empty.".

(** The [newSession] of [handleSaveSession]. *)
Definition newSession (r : AppState) (finalSessionName : string) : Session :=
  {| id := Date_now env;
     name := if truthy finalSessionName then finalSessionName
             else "Session " +:+ toLocaleString env;
     text := transcribedText r;
     date := toISOString env |}.

Definition handleSaveSession (r : AppState) : M World unit :=
  if negb (truthy (trim (transcribedText r))) then
    setError (Some noTextMessage)
  else
    let finalSessionName := trim (sessionName r) in
    if truthy finalSessionName
       && existsb (fun session => String.eqb (name session) finalSessionName)
            (savedSessions r)
    then setError (Some (duplicateNameMessage finalSessionName))
    else
      setError None ;;
      updateSavedSessions (fun prev => newSession r finalSessionName :: prev) ;;
      setSessionName EmptyString ;;
      setAudioBlob None ;;
      if truthy (audioUrl r) then
        revokeObjectURL (audioUrl r) ;;
        setAudioUrl EmptyString
      else ret tt.

Definition handleLoadSession (r : AppState) (id0 : string) : M World unit :=
  match List.find (fun s => String.eqb (id s) id0) (savedSessions r) with
  | Some sessionToLoad =>
      setTranscribedText (text sessionToLoad) ;;
      setSessionName (name sessionToLoad) ;;
      setAudioBlob None ;;
      (if truthy (audioUrl r) then revokeObjectURL (audioUrl r) else ret tt) ;;
      setAudioUrl EmptyString ;;
      setError None ;;
      setCopySuccess EmptyString ;;
      runMetricsAnalysis (text sessionToLoad)
  | None => ret tt
  end.

Definition handleDeleteSession (id0 : string) : M World unit :=
  updateSavedSessions (fun prev =>
    List.filter (fun s => negb (String.eqb (id s) id0)) prev).

Definition handleStartEditingSession (session : Session) : M World unit :=
  setEditingSessionId (Some (id session)) ;;
  setEditingSessionName (name session) ;;
  setError None.

Definition handleCancelEditingSession : M World unit :=
  setEditingSessionId None ;;
  setEditingSessionName EmptyString.

(** [{ ...session, name: newName }] *)
Definition with_name (session : Session) (newName : string) : Session :=
  {| id := id session; name := newName; text := text session;
     date := date session |}.

Definition handleSaveSessionName (r : AppState) (id0 : string) : M World unit :=
  let newName := trim (editingSessionName r) in
  if negb (truthy newName) then
    setError (Some emptyNameMessage)
  else
    if existsb
         (fun session =>
            negb (String.eqb (id session) id0) && String.eqb (name session) newName)
         (savedSessions r)
    then setError (Some (duplicateNameMessage newName))
    else
      updateSavedSessions (fun prev =>
        List.map
          (fun session =>
             if String.eqb (id session) id0 then with_name session newName
             else session)
          prev) ;;
      handleCancelEditingSession ;;
      setError None.

(** A handler invoked in the render [r]: the world holds that render's
    state.  The result is the outcome and the world it leaves. *)
Definition invoke (handler : AppState -> M World unit) (r : AppState)
    : result unit * World :=
  handler r (world_of r).

(** A handler of the latest render, run on the current world: the next
    event after the component re-rendered. *)
Definition dispatch (handler : AppState -> M World unit) : M World unit :=
  fun w => handler (app w) w.

(** The React state a handler leaves, and whether it returned. *)
Definition after (handler : AppState -> M World unit) (r : AppState) : AppState :=
  app (snd (invoke handler r)).

Definition outcome (handler : AppState -> M World unit) (r : AppState) : result unit :=
  fst (invoke handler r).

(** The requests a handler sent to the remote model. *)
Definition sent (handler : AppState -> M World unit) (r : AppState) : list Request :=
  requests (snd (invoke handler r)).

End Program.

End App.

(** ** The [useLocalStorage] hook *)

Module LocalStorage.

(** [window.localStorage]: the stored items, and the two ways the platform
    can refuse: reading may raise (storage access denied), and writing a
    given item may raise (quota exceeded, storage access denied). *)
Record Storage : Type := {
  items : gmap string string;
  getItem_raises : option exn;
  setItem_raises : string -> string -> option exn
}.

(** The world of the hook: the store, the console, and how many times the
    producer of the initial value was called. *)
Record Browser : Type := {
  localStorage : Storage;
  console : list string;
  producerCalls : nat
}.

Definition getItem (key : string) : M Browser (option string) :=
  fun b =>
    match getItem_raises (localStorage b) with
    | Some e => (Throw e, b)
    | None => (Ok (items (localStorage b) !! key), b)
    end.

Definition setItem (key value : string) : M Browser unit :=
  fun b =>
    match setItem_raises (localStorage b) key value with
    | Some e => (Throw e, b)
    | None =>
        (Ok tt,
         {| localStorage :=
              {| items := <[key := value]> (items (localStorage b));
                 getItem_raises := getItem_raises (localStorage b);
                 setItem_raises := setItem_raises (localStorage b) |};
            console := console b;
            producerCalls := producerCalls b |})
    end.

Definition console_error (label : string) : M Browser unit :=
  modify (fun b =>
    {| localStorage := localStorage b; console := console b ++ [label];
       producerCalls := producerCalls b |}).

Definition readErrorLabel (key : string) : string :=
  "Error reading localStorage key " +:+ dquote +:+ key +:+ dquote +:+ ":".

Definition writeErrorLabel (key : string) : string :=
  "Error setting localStorage key " +:+ dquote +:+ key +:+ dquote +:+ ":".

Section Hook.
Context {T : Type}.
Variable JSON_parse : string -> result T.
Variable JSON_stringify : T -> result string.

(** [initialValue: T | (() => T)]: a producer, when called, returns a
    value or throws. *)
Inductive InitialValue : Type :=
| Value (v : T)
| Producer (f : unit -> result T).

(** A call [initialValue()], counted; what the producer throws is thrown
    by the call. *)
Definition call (f : unit -> result T) : M Browser T :=
  fun b =>
    (f tt,
     {| localStorage := localStorage b; console := console b;
        producerCalls := S (producerCalls b) |}).

(** [initialValue instanceof Function ? initialValue() : initialValue] *)
Definition resolveInitial (initialValue : InitialValue) : M Browser T :=
  match initialValue with
  | Producer f => call f
  | Value v => ret v
  end.

(** The initializer passed to [useState]. *)
Definition readStored (key : string) (initialValue : InitialValue) : M Browser T :=
  try_catch
    (item <- getItem key ;;
     match item with
     | Some stored =>
         if truthy stored then lift (JSON_parse stored)
         else resolveInitial initialValue
     | None => resolveInitial initialValue
     end)
    (fun error =>
       console_error (readErrorLabel key) ;;
       resolveInitial initialValue).

(** The body of the [useEffect]. *)
Definition writeStored (key : string) (storedValue : T) : M Browser unit :=
  try_catch
    (encoded <- lift (JSON_stringify storedValue) ;;
     setItem key encoded)
    (fun error => console_error (writeErrorLabel key)).

(** First render: the state is initialised, then the effect runs; the
    component holds the value returned. *)
Definition useLocalStorage_mount (key : string) (initialValue : InitialValue)
    : M Browser T :=
  storedValue <- readStored key initialValue ;;
  writeStored key storedValue ;;
  ret storedValue.

(** [setStoredValue(v)] and the render it causes: the cell holds [v], then
    the effect runs. *)
Definition useLocalStorage_set (key : string) (v : T) : M Browser T :=
  writeStored key v ;;
  ret v.

(** The value the caller supplied as default: the plain value, or what
    the producer returns or throws. *)
Definition suppliedDefault (initialValue : InitialValue) : result T :=
  match initialValue with
  | Producer f => f tt
  | Value v => Ok v
  end.

(** How many producer calls yield the default: one for a producer, none
    for a plain value. *)
Definition producerCost (initialValue : InitialValue) : nat :=
  match initialValue with
  | Producer _ => 1
  | Value _ => 0
  end.

(** The stored item cannot be read: the store refuses the read, the item
    is missing, or it does not deserialize. *)
Definition unreadable (b : Browser) (key : string) : Prop :=
  match getItem_raises (localStorage b) with
  | Some _ => True
  | None =>
      match items (localStorage b) !! key with
      | None => True
      | Some stored => exists e, JSON_parse stored = Throw e
      end
  end.

(** The value cannot be written: it does not serialize, or the store
    refuses the item. *)
Definition unwritable (b : Browser) (key : string) (v : T) : Prop :=
  match JSON_stringify v with
  | Throw _ => True
  | Ok encoded => setItem_raises (localStorage b) key encoded <> None
  end.

End Hook.

End LocalStorage.

(** ** Concrete scenarios

    The inputs at which the theorems below are instantiated. *)

Module Scenario.
Import App.

(** A platform where everything works: the model answers every audio
    request with a fixed transcript and every analysis request with a
    fixed JSON text. *)
Definition someMetrics : WordMetrics :=
  {| wordCount := 2; characterCount := 11; verbCount := 0; nounCount := 1;
     adjectiveCount := 0; conjunctionCount := 0; profanityCount := 0 |}.

Definition online : Env :=
  {| API_KEY := Some "key";
     generateContent := fun request =>
       match request with
       | Transcription _ _ _ _ => Ok "hello world"
       | Analysis _ _ => Ok "{...}"
       end;
     JSON_parse := fun _ => Ok someMetrics;
     readAsDataURL := fun blob =>
       Ok ("data:" +:+ type blob +:+ ";base64," +:+ bytes blob);
     getUserMedia := Ok tt;
     MediaRecorder_new := Ok "audio/webm";
     createObjectURL := fun _ => "blob:recording";
     Date_now := "1700000000000";
     toLocaleString := "11/14/2023, 10:13:20 PM";
     toISOString := "2023-11-14T22:13:20.000Z" |}.

(** The same platform with the network down: every call to the model
    rejects with an [Error]. *)
Definition offline : Env :=
  {| API_KEY := API_KEY online;
     generateContent := fun _ => Throw (ErrorObj "Failed to fetch");
     JSON_parse := JSON_parse online;
     readAsDataURL := readAsDataURL online;
     getUserMedia := getUserMedia online;
     MediaRecorder_new := MediaRecorder_new online;
     createObjectURL := createObjectURL online;
     Date_now := Date_now online;
     toLocaleString := toLocaleString online;
     toISOString := toISOString online |}.

(** The platform on which only the transcription requests fail; the text
    analysis still answers. *)
Definition transcriptionDown : Env :=
  {| API_KEY := API_KEY online;
     generateContent := fun request =>
       match request with
       | Transcription _ _ _ _ => Throw (ErrorObj "Failed to fetch")
       | Analysis _ _ => Ok "{...}"
       end;
     JSON_parse := JSON_parse online;
     readAsDataURL := readAsDataURL online;
     getUserMedia := getUserMedia online;
     MediaRecorder_new := MediaRecorder_new online;
     createObjectURL := createObjectURL online;
     Date_now := Date_now online;
     toLocaleString := toLocaleString online;
     toISOString := toISOString online |}.

Definition sessionA : Session :=
  {| id := "1"; name := "A"; text := "first"; date := "2023-01-01T00:00:00.000Z" |}.

Definition sessionB : Session :=
  {| id := "2"; name := "B"; text := "second"; date := "2023-01-02T00:00:00.000Z" |}.

(** A session whose stored name starts with a space, as a store written
    by other means can hold. *)
Definition sessionPadded : Session :=
  {| id := "3"; name := " A"; text := "third"; date := "2023-01-03T00:00:00.000Z" |}.

(** A render with the given transcript, requested name and sessions. *)
Definition editing (transcript requested : string) (sessions : list Session)
    : AppState :=
  {| isRecording := false; audioBlob := None; audioUrl := EmptyString;
     transcribedText := transcript; isTranscribing := false;
     targetLanguage := "English"; sessionName := requested;
     savedSessions := sessions; editingSessionId := None;
     editingSessionName := EmptyString; metrics := None;
     isAnalyzingMetrics := false; showMetrics := false; error := None;
     copySuccess := EmptyString |}.

(** A render in which the session [id0] is being renamed to [typed]. *)
Definition renaming (id0 typed : string) (sessions : list Session) : AppState :=
  {| isRecording := false; audioBlob := None; audioUrl := EmptyString;
     transcribedText := EmptyString; isTranscribing := false;
     targetLanguage := "English"; sessionName := EmptyString;
     savedSessions := sessions; editingSessionId := Some id0;
     editingSessionName := typed; metrics := None;
     isAnalyzingMetrics := false; showMetrics := false; error := None;
     copySuccess := EmptyString |}.

Definition clip : Blob := {| bytes := "QUJD"; type := "audio/webm" |}.

(** The world after one full recording: start, one chunk, stop, and the
    recorder's [onstop]. *)
Definition recorded : World :=
  snd ((dispatch (handleStartRecording online) ;;
        ondataavailable clip ;;
        dispatch handleStopRecording ;;
        onstop online) (world_of (initialState []))).

(** The render in which a transcription of that recording is in flight:
    [handleTranscribe] ran up to its first [await]. *)
Definition inFlight : AppState :=
  app (snd (handleTranscribe_begin recorded)).

(** A render with a finalized clip while the recording flag is up. *)
Definition recordingWithClip : AppState :=
  {| isRecording := true; audioBlob := Some clip; audioUrl := "blob:recording";
     transcribedText := EmptyString; isTranscribing := false;
     targetLanguage := "English"; sessionName := EmptyString;
     savedSessions := []; editingSessionId := None;
     editingSessionName := EmptyString; metrics := None;
     isAnalyzingMetrics := false; showMetrics := false; error := None;
     copySuccess := EmptyString |}.

(** A store holding a theme that parses and a session list that does
    not, and refusing every write. *)
Definition fullStore : LocalStorage.Storage :=
  {| LocalStorage.items :=
       <["robo-ai-theme" := "dark-quoted"]>
         (<["robo-ai-transcription-sessions" := "[{"]> ∅);
     LocalStorage.getItem_raises := None;
     LocalStorage.setItem_raises := fun _ _ => Some (ErrorObj "QuotaExceededError") |}.

Definition browser0 : LocalStorage.Browser :=
  {| LocalStorage.localStorage := fullStore;
     LocalStorage.console := [];
     LocalStorage.producerCalls := 0 |}.

(** A [JSON.parse] for theme strings: it knows the two encoded themes. *)
Definition parseTheme (encoded : string) : result string :=
  if String.eqb encoded "dark-quoted" then Ok "dark"
  else if String.eqb encoded "light-quoted" then Ok "light"
  else Throw (ErrorObj "Unexpected token").

Definition stringifyTheme (theme : string) : result string :=
  Ok (theme +:+ "-quoted").

(** The producer of the default theme on a platform that prefers light. *)
Definition ambientTheme (_ : unit) : result string := Ok "light".

End Scenario.

(** ** Event sequences and the remaining attributes of [App.tsx] *)

Module Flows.
Import App.

(** The [disabled] attribute of the Save Session button. *)
Definition saveDisabled (r : AppState) : bool :=
  negb (truthy (trim (transcribedText r))).

(** The recorder emitting the given chunks, one [dataavailable] event
    each, in order. *)
Fixpoint deliver (chunks : list Blob) : M World unit :=
  match chunks with
  | [] => ret tt
  | chunk :: rest => ondataavailable chunk ;; deliver rest
  end.

(** One recording from the click on Record to the recorder's [stop]
    event: each handler is the one of the render current at its event. *)
Definition recordOnce (env : Env) (chunks : list Blob) : M World unit :=
  dispatch (handleStartRecording env) ;;
  deliver chunks ;;
  dispatch handleStopRecording ;;
  onstop env.

(** Two events in a row, the second handled by the render that follows
    the first. *)
Definition andThen (first second : AppState -> M World unit) (r : AppState)
    : M World unit :=
  first r ;; dispatch second.

(** The render [st] with another error message. *)
Definition withError (v : option string) (st : AppState) : AppState :=
  {| isRecording := isRecording st; audioBlob := audioBlob st;
     audioUrl := audioUrl st; transcribedText := transcribedText st;
     isTranscribing := isTranscribing st;
     targetLanguage := targetLanguage st; sessionName := sessionName st;
     savedSessions := savedSessions st;
     editingSessionId := editingSessionId st;
     editingSessionName := editingSessionName st; metrics := metrics st;
     isAnalyzingMetrics := isAnalyzingMetrics st;
     showMetrics := showMetrics st; error := v;
     copySuccess := copySuccess st |}.

End Flows.

(** ** Theme and metrics display *)

Module Display.
Import App.

(** The updater of [toggleTheme]. *)
Definition toggleTheme (prevTheme : string) : string :=
  if String.eqb prevTheme "light" then "dark" else "light".

(** The theme effect on [document.documentElement.classList]. *)
Definition applyTheme (theme : string) (classList : gset string) : gset string :=
  if String.eqb theme "dark" then classList ∪ {["dark"]}
  else classList ∖ {["dark"]}.

(** An entry of [posData]. *)
Record Slice : Type := {
  label : string;
  value : Z
}.

Definition posData (m : WordMetrics) : list Slice :=
  List.filter (fun item => Z.ltb 0 (value item))
    [ {| label := "Verbs"; value := verbCount m |};
      {| label := "Nouns"; value := nounCount m |};
      {| label := "Adjectives"; value := adjectiveCount m |};
      {| label := "Conjunctions"; value := conjunctionCount m |} ].

Definition COLORS : list string :=
  ["#8884d8"; "#82ca9d"; "#FFBB28"; "#FF8042"; "#AF19FF"].

(** [COLORS[index % COLORS.length]]; [None] is [undefined]. *)
Definition cellFill (index : nat) : option string :=
  nth_error COLORS (index mod length COLORS).

(** The [fill] of the cells of the pie, one per entry of [posData]. *)
Definition cellFills (m : WordMetrics) : list (option string) :=
  List.map cellFill (seq 0 (length (posData m))).

(** The chart is rendered when [posData.length > 0]. *)
Definition pieShown (m : WordMetrics) : bool :=
  Nat.ltb 0 (length (posData m)).

End Display.

(** ** Sharing and copying *)

Module Share.
Import App.

(** ['audio' | 'text'] *)
Inductive ShareType : Type :=
| Audio
| Text.

Record File : Type := {
  fileName : string;
  fileType : string;
  content : Blob
}.

(** The argument of [navigator.share] and [navigator.canShare]; an absent
    [files] is the empty list. *)
Record ShareData : Type := {
  files : list File;
  title : option string;
  text : option string
}.

(** What a rejected platform promise carries: an [Error] with its [name],
    or a value that is not an [Error]. *)
Inductive Rejection : Type :=
| NamedError (name : string)
| NotAnError.

Inductive Settled : Type :=
| Fulfilled
| Rejected (err : Rejection).

(** The platform: [navigator.share] and [navigator.canShare] may be
    absent. *)
Record Navigator : Type := {
  share : option (ShareData -> Settled);
  canShare : option (ShareData -> bool);
  clipboard_writeText : string -> Settled;
  createObjectURL : Blob -> string;
  Date_now : string
}.

(** The callbacks given to [setTimeout]. *)
Inductive Callback : Type :=
| ClearError
| ClearCopySuccess.

(** The world of the two handlers: the two state cells they set, and what
    went to the console, the timers, the share sheet, the clipboard, the
    downloads and the object URLs. *)
Record World : Type := {
  error : option string;
  copySuccess : string;
  console : list string;
  timers : list (nat * Callback);
  shared : list ShareData;
  clipboard : list string;
  downloads : list (string * string);
  created : list string;
  revoked : list string
}.

Definition world_of (r : AppState) : World :=
  {| error := App.error r; copySuccess := App.copySuccess r; console := [];
     timers := []; shared := []; clipboard := []; downloads := [];
     created := []; revoked := [] |}.

Definition setError (v : option string) : M World unit :=
  modify (fun w =>
    {| error := v; copySuccess := copySuccess w; console := console w;
       timers := timers w; shared := shared w; clipboard := clipboard w;
       downloads := downloads w; created := created w; revoked := revoked w |}).

Definition setCopySuccess (v : string) : M World unit :=
  modify (fun w =>
    {| error := error w; copySuccess := v; console := console w;
       timers := timers w; shared := shared w; clipboard := clipboard w;
       downloads := downloads w; created := created w; revoked := revoked w |}).

Definition console_error (what : string) : M World unit :=
  modify (fun w =>
    {| error := error w; copySuccess := copySuccess w;
       console := console w ++ [what];
       timers := timers w; shared := shared w; clipboard := clipboard w;
       downloads := downloads w; created := created w; revoked := revoked w |}).

(** [setTimeout(callback, delay)] *)
Definition setTimeout (callback : Callback) (delay : nat) : M World unit :=
  modify (fun w =>
    {| error := error w; copySuccess := copySuccess w; console := console w;
       timers := timers w ++ [(delay, callback)];
       shared := shared w; clipboard := clipboard w;
       downloads := downloads w; created := created w; revoked := revoked w |}).

(** A timer firing. *)
Definition fire (callback : Callback) : M World unit :=
  match callback with
  | ClearError => setError None
  | ClearCopySuccess => setCopySuccess EmptyString
  end.

(** The anchor with the given [download] name and [href], clicked. *)
Definition anchor_click (download href : string) : M World unit :=
  modify (fun w =>
    {| error := error w; copySuccess := copySuccess w; console := console w;
       timers := timers w; shared := shared w; clipboard := clipboard w;
       downloads := downloads w ++ [(download, href)];
       created := created w; revoked := revoked w |}).

Definition URL_revokeObjectURL (url : string) : M World unit :=
  modify (fun w =>
    {| error := error w; copySuccess := copySuccess w; console := console w;
       timers := timers w; shared := shared w; clipboard := clipboard w;
       downloads := downloads w; created := created w;
       revoked := revoked w ++ [url] |}).

Section Handlers.
Variable nav : Navigator.

Definition URL_createObjectURL (blob : Blob) : M World string :=
  fun w =>
    (Ok (createObjectURL nav blob),
     {| error := error w; copySuccess := copySuccess w; console := console w;
        timers := timers w; shared := shared w; clipboard := clipboard w;
        downloads := downloads w;
        created := created w ++ [createObjectURL nav blob];
        revoked := revoked w |}).

(** [await navigator.share(data)], with the [share] found present. *)
Definition navigator_share (present : ShareData -> Settled) (data : ShareData)
    : M World Settled :=
  fun w =>
    (Ok (present data),
     {| error := error w; copySuccess := copySuccess w; console := console w;
        timers := timers w; shared := shared w ++ [data];
        clipboard := clipboard w; downloads := downloads w;
        created := created w; revoked := revoked w |}).

Definition navigator_clipboard_writeText (data : string) : M World Settled :=
  fun w =>
    (Ok (clipboard_writeText nav data),
     {| error := error w; copySuccess := copySuccess w; console := console w;
        timers := timers w; shared := shared w;
        clipboard := clipboard w ++ [data]; downloads := downloads w;
        created := created w; revoked := revoked w |}).

Definition unsupportedMessage : string :=
  "Sharing is not supported on this browser.".

Definition fallbackMessage : string :=
  "Audio sharing not available, downloading file instead.".

Definition recordingFileName : string :=
  "recording-" +:+ Date_now nav +:+ ".webm".

Definition downloadAudioFallback (r : AppState) (message : option string)
    : M World unit :=
  match audioBlob r with
  | None => ret tt
  | Some blob =>
      setError (Some (match message with
                      | Some given => if truthy given then given else fallbackMessage
                      | None => fallbackMessage
                      end)) ;;
      url <- URL_createObjectURL blob ;;
      anchor_click recordingFileName url ;;
      URL_revokeObjectURL url ;;
      setTimeout ClearError 5000
  end.

(** [navigator.canShare && navigator.canShare({ files: [audioFile] })] *)
Definition canShareFile (audioFile : File) : bool :=
  match canShare nav with
  | Some can => can {| files := [audioFile]; title := None; text := None |}
  | None => false
  end.

Definition handleShare (r : AppState) (type : ShareType) : M World unit :=
  match share nav with
  | None =>
      setError (Some unsupportedMessage) ;;
      setTimeout ClearError 3000
  | Some present =>
      match type with
      | Audio =>
          match audioBlob r with
          | None => ret tt
          | Some blob =>
              let audioFile :=
                {| fileName := recordingFileName; fileType := App.type blob;
                   content := blob |} in
              if canShareFile audioFile then
                settled <- navigator_share present
                             {| files := [audioFile];
                                title := Some "Audio Recording";
                                text := Some "Listen to my audio recording." |} ;;
                match settled with
                | Rejected (NamedError name) =>
                    if negb (String.eqb name "AbortError") then
                      console_error "Error sharing audio:" ;;
                      if String.eqb name "NotAllowedError" then
                        downloadAudioFallback r
                          (Some "Sharing permission denied. Downloading file instead.")
                      else
                        downloadAudioFallback r
                          (Some "Could not share audio. Downloading file instead.")
                    else ret tt
                | Rejected NotAnError => ret tt
                | Fulfilled => ret tt
                end
              else downloadAudioFallback r None
          end
      | Text =>
          if negb (truthy (transcribedText r)) then ret tt
          else
            settled <- navigator_share present
                         {| files := []; title := Some "Transcription";
                            text := Some (transcribedText r) |} ;;
            match settled with
            | Rejected (NamedError name) =>
                if negb (String.eqb name "AbortError") then
                  console_error "Error sharing text:" ;;
                  (if String.eqb name "NotAllowedError" then
                     setError (Some "Sharing permission denied. You can copy the text instead.")
                   else
                     setError (Some "An error occurred while sharing text.")) ;;
                  setTimeout ClearError 4000
                else ret tt
            | Rejected NotAnError => ret tt
            | Fulfilled => ret tt
            end
      end
  end.

Definition handleCopyText (r : AppState) : M World unit :=
  if truthy (transcribedText r) then
    settled <- navigator_clipboard_writeText (transcribedText r) ;;
    match settled with
    | Fulfilled =>
        setCopySuccess "Copied!" ;;
        setTimeout ClearCopySuccess 2000
    | Rejected _ =>
        console_error "Failed to copy text: " ;;
        setCopySuccess "Failed" ;;
        setTimeout ClearCopySuccess 2000
    end
  else ret tt.

End Handlers.

End Share.

(** ** Further scenarios *)

Module Cases.
Import App Scenario.

(** The world after the recording was transcribed on the working
    platform: a transcript, its metrics, and the recording still there. *)
Definition transcribed : World :=
  snd (dispatch (handleTranscribe online) recorded).

(** A platform on which the microphone is refused. *)
Definition micDenied : Env :=
  {| API_KEY := API_KEY online;
     generateContent := generateContent online;
     JSON_parse := JSON_parse online;
     readAsDataURL := readAsDataURL online;
     getUserMedia := Throw (ErrorObj "Permission denied");
     MediaRecorder_new := MediaRecorder_new online;
     createObjectURL := createObjectURL online;
     Date_now := Date_now online;
     toLocaleString := toLocaleString online;
     toISOString := toISOString online |}.

(** The working platform without an API key. *)
Definition noKey : Env :=
  {| API_KEY := None;
     generateContent := generateContent online;
     JSON_parse := JSON_parse online;
     readAsDataURL := readAsDataURL online;
     getUserMedia := getUserMedia online;
     MediaRecorder_new := MediaRecorder_new online;
     createObjectURL := createObjectURL online;
     Date_now := Date_now online;
     toLocaleString := toLocaleString online;
     toISOString := toISOString online |}.

(** A platform whose model answers the analysis with text that is not
    JSON. *)
Definition badJson : Env :=
  {| API_KEY := API_KEY online;
     generateContent := generateContent online;
     JSON_parse := fun _ => Throw (ErrorObj "Unexpected token");
     readAsDataURL := readAsDataURL online;
     getUserMedia := getUserMedia online;
     MediaRecorder_new := MediaRecorder_new online;
     createObjectURL := createObjectURL online;
     Date_now := Date_now online;
     toLocaleString := toLocaleString online;
     toISOString := toISOString online |}.

Definition emptyChunk : Blob := {| bytes := EmptyString; type := "audio/webm" |}.

Definition clip2 : Blob := {| bytes := "REVG"; type := "audio/webm" |}.

(** A browser with the share sheet, which accepts files and whose user
    cancels every share. *)
Definition cancelling : Share.Navigator :=
  {| Share.share := Some (fun _ => Share.Rejected (Share.NamedError "AbortError"));
     Share.canShare := Some (fun _ => true);
     Share.clipboard_writeText := fun _ => Share.Fulfilled;
     Share.createObjectURL := fun _ => "blob:download";
     Share.Date_now := "1700000000000" |}.

(** A browser with the share sheet that refuses permission. *)
Definition refusing : Share.Navigator :=
  {| Share.share := Some (fun _ => Share.Rejected (Share.NamedError "NotAllowedError"));
     Share.canShare := Some (fun _ => true);
     Share.clipboard_writeText := fun _ => Share.Rejected Share.NotAnError;
     Share.createObjectURL := fun _ => "blob:download";
     Share.Date_now := "1700000000000" |}.

(** A browser without [navigator.share]. *)
Definition shareless : Share.Navigator :=
  {| Share.share := None;
     Share.canShare := None;
     Share.clipboard_writeText := fun _ => Share.Fulfilled;
     Share.createObjectURL := fun _ => "blob:download";
     Share.Date_now := "1700000000000" |}.

(** A browser that shares text but has no [navigator.canShare]. *)
Definition textOnly : Share.Navigator :=
  {| Share.share := Some (fun _ => Share.Fulfilled);
     Share.canShare := None;
     Share.clipboard_writeText := fun _ => Share.Fulfilled;
     Share.createObjectURL := fun _ => "blob:download";
     Share.Date_now := "1700000000000" |}.

(** A platform whose model hears nothing: the transcription is blank. *)
Definition silence : Env :=
  {| API_KEY := API_KEY online;
     generateContent := fun request =>
       match request with
       | Transcription _ _ _ _ => Ok "  "
       | Analysis _ _ => Ok "{...}"
       end;
     JSON_parse := JSON_parse online;
     readAsDataURL := readAsDataURL online;
     getUserMedia := getUserMedia online;
     MediaRecorder_new := MediaRecorder_new online;
     createObjectURL := createObjectURL online;
     Date_now := Date_now online;
     toLocaleString := toLocaleString online;
     toISOString := toISOString online |}.

(** An empty store that accepts every read and write. *)
Definition emptyStore : LocalStorage.Storage :=
  {| LocalStorage.items := ∅;
     LocalStorage.getItem_raises := None;
     LocalStorage.setItem_raises := fun _ _ => None |}.

Definition freshBrowser : LocalStorage.Browser :=
  {| LocalStorage.localStorage := emptyStore;
     LocalStorage.console := [];
     LocalStorage.producerCalls := 0 |}.

(** The producer of the default theme on a platform without
    [window.matchMedia]: the call throws. *)
Definition brokenMatchMedia (_ : unit) : result string :=
  Throw (ErrorObj "window.matchMedia is not a function").

(** The working platform with a recorder that reports its MIME type in
    mixed case. *)
Definition mixedCase : Env :=
  {| API_KEY := API_KEY online;
     generateContent := generateContent online;
     JSON_parse := JSON_parse online;
     readAsDataURL := readAsDataURL online;
     getUserMedia := getUserMedia online;
     MediaRecorder_new := Ok "Audio/WebM;codecs=Opus";
     createObjectURL := createObjectURL online;
     Date_now := Date_now online;
     toLocaleString := toLocaleString online;
     toISOString := toISOString online |}.

(** A render with a recording, a draft, a message and a copy feedback
    showing, over two stored sessions. *)
Definition busy : AppState :=
  {| isRecording := false; audioBlob := Some clip; audioUrl := "blob:recording";
     transcribedText := "draft"; isTranscribing := false;
     targetLanguage := "English"; sessionName := "A";
     savedSessions := [sessionA; sessionB]; editingSessionId := None;
     editingSessionName := EmptyString; metrics := None;
     isAnalyzingMetrics := false; showMetrics := false;
     error := Some metricsFailedMessage; copySuccess := "Copied!" |}.

Definition verbsAndNouns : WordMetrics :=
  {| wordCount := 5; characterCount := 20; verbCount := 2; nounCount := 3;
     adjectiveCount := 0; conjunctionCount := (-1); profanityCount := 0 |}.

End Cases.

(** * Properties *)

Import App Scenario Cases.

(** The monad operations and the setters unfold under [simpl] once they
    are applied to a world, so that [simpl] runs a handler up to the next
    test on the environment. *)
Arguments bind {W A B} m k w /.
Arguments ret {W A} a w /.
Arguments modify {W} f w /.
Arguments lift {W A} r w /.
Arguments throw {W A} e w /.
Arguments try_catch {W A} body handler w /.
Arguments try_finally {W A} body final w /.
Arguments try_catch_finally {W A} body handler final w /.
Arguments on_app f w /.
Arguments world_of st /.
Arguments revokeObjectURL url w /.
Arguments App.console_error label w /.
Arguments setIsRecording v w /.
Arguments setAudioBlob v w /.
Arguments setAudioUrl v w /.
Arguments setTranscribedText v w /.
Arguments setIsTranscribing v w /.
Arguments setTargetLanguage v w /.
Arguments setSessionName v w /.
Arguments setSavedSessions v w /.
Arguments setEditingSessionId v w /.
Arguments setEditingSessionName v w /.
Arguments setMetrics v w /.
Arguments setIsAnalyzingMetrics v w /.
Arguments setShowMetrics v w /.
Arguments setError v w /.
Arguments setCopySuccess v w /.
Arguments updateSavedSessions f w /.
Arguments runMetricsAnalysis : simpl never.

(** ** Strings *)

Lemma truthy_true (s : string) : truthy s = true <-> s <> EmptyString.
Proof. destruct s; simpl; split; intros H; congruence. Qed.

Lemma truthy_false (s : string) : truthy s = false <-> s = EmptyString.
Proof. destruct s; simpl; split; intros H; congruence. Qed.

Example trim_both_ends :
  trim (String (ascii_of_nat 9) "  a b " ) = "a b" /\ trim "   " = EmptyString.
Proof. split; reflexivity. Qed.

Example split_comma_data_url :
  nth_error (split_comma "data:audio/webm;base64,QUJD") 1 = Some "QUJD" /\
  nth_error (split_comma "no comma") 1 = None.
Proof. split; reflexivity. Qed.

Lemma name_taken_spec (n : string) (sessions : list Session) :
  existsb (fun session => String.eqb (name session) n) sessions = true <->
  exists s, In s sessions /\ name s = n.
Proof.
  rewrite existsb_exists. split; intros (s & Hin & Heq); exists s; split; trivial.
  - now apply String.eqb_eq.
  - now apply String.eqb_eq.
Qed.

Lemma name_taken_elsewhere_spec (id0 n : string) (sessions : list Session) :
  existsb
    (fun session => negb (String.eqb (id session) id0) && String.eqb (name session) n)
    sessions = false <->
  forall s, In s sessions -> id s <> id0 -> name s <> n.
Proof.
  induction sessions as [|s0 rest IH]; simpl.
  - split; [intros _ s [] | reflexivity].
  - rewrite orb_false_iff, IH, andb_false_iff, negb_false_iff.
    rewrite String.eqb_eq, String.eqb_neq. split.
    + intros [Hhead Hrest] s [<- | Hin] Hid; [tauto | now apply Hrest].
    + intros H. split.
      * destruct (String.eqb_spec (id s0) id0) as [Heq | Hne]; [now left | right].
        apply H; auto.
      * intros s Hin. apply H. now right.
Qed.

(** ** Saving a session *)

Section Save.
Variable env : Env.
Variable r : AppState.

Lemma save_returns : outcome (handleSaveSession env) r = Ok tt.
Proof.
  unfold outcome, invoke, handleSaveSession.
  destruct (truthy (trim (transcribedText r))); simpl; [|reflexivity].
  destruct (truthy (trim (sessionName r)) && existsb _ _); simpl; [reflexivity|].
  destruct (truthy (audioUrl r)); reflexivity.
Qed.

Lemma save_blank_text :
  trim (transcribedText r) = EmptyString ->
  error (after (handleSaveSession env) r) = Some noTextMessage /\
  savedSessions (after (handleSaveSession env) r) = savedSessions r.
Proof.
  intros Hblank. unfold after, invoke, handleSaveSession.
  rewrite Hblank. simpl. split; reflexivity.
Qed.

Lemma save_duplicate (s : Session) :
  trim (transcribedText r) <> EmptyString ->
  trim (sessionName r) <> EmptyString ->
  In s (savedSessions r) -> name s = trim (sessionName r) ->
  error (after (handleSaveSession env) r)
    = Some (duplicateNameMessage (trim (sessionName r))) /\
  savedSessions (after (handleSaveSession env) r) = savedSessions r.
Proof.
  intros Htext Hname Hin Heq. unfold after, invoke, handleSaveSession.
  apply truthy_true in Htext. rewrite Htext.
  apply truthy_true in Hname. rewrite Hname.
  assert (Htaken : existsb (fun session => String.eqb (name session) (trim (sessionName r)))
                     (savedSessions r) = true)
    by (apply name_taken_spec; eauto).
  rewrite Htaken. simpl. split; reflexivity.
Qed.

(** Every failing path leaves a message; the path that stores the session
    clears it.  So a save succeeded exactly when no message is left. *)
Lemma save_success_inv :
  error (after (handleSaveSession env) r) = None ->
  trim (transcribedText r) <> EmptyString /\
  (trim (sessionName r) <> EmptyString ->
   forall s, In s (savedSessions r) -> name s <> trim (sessionName r)) /\
  savedSessions (after (handleSaveSession env) r)
    = newSession env r (trim (sessionName r)) :: savedSessions r.
Proof.
  unfold after, invoke, handleSaveSession.
  destruct (truthy (trim (transcribedText r))) eqn:Htext; [|simpl; discriminate].
  destruct (truthy (trim (sessionName r))) eqn:Hname.
  - destruct (existsb (fun session => String.eqb (name session) (trim (sessionName r)))
                (savedSessions r)) eqn:Htaken; [simpl; discriminate|].
    intros _. split; [now apply truthy_true|]. split.
    + intros _ s Hin Heq.
      assert (existsb (fun session => String.eqb (name session) (trim (sessionName r)))
                (savedSessions r) = true) by (apply name_taken_spec; eauto).
      congruence.
    + simpl. destruct (truthy (audioUrl r)); reflexivity.
  - intros _. split; [now apply truthy_true|]. split.
    + intros Hne. apply truthy_true in Hne. congruence.
    + simpl. destruct (truthy (audioUrl r)); reflexivity.
Qed.

End Save.

(** C2 (as amended): whenever the transcript is not blank and the requested
    name, once trimmed, is non-empty and is exactly the name of a stored
    session, [handleSaveSession] returns, leaves the duplicate-name message
    for the trimmed name, and leaves the session collection as it was. *)
Theorem save_duplicate_name_rejected (env : Env) (r : AppState) (s : Session) :
  trim (transcribedText r) <> EmptyString ->
  trim (sessionName r) <> EmptyString ->
  In s (savedSessions r) ->
  name s = trim (sessionName r) ->
  outcome (handleSaveSession env) r = Ok tt /\
  error (after (handleSaveSession env) r)
    = Some (duplicateNameMessage (trim (sessionName r))) /\
  savedSessions (after (handleSaveSession env) r) = savedSessions r.
Proof.
  intros Htext Hname Hin Heq. split.
  - apply save_returns.
  - now apply save_duplicate with (s := s).
Qed.

Lemma save_duplicate_name_rejected_witness :
  outcome (handleSaveSession online) (editing "hello" " A " [sessionB; sessionA]) = Ok tt /\
  error (after (handleSaveSession online) (editing "hello" " A " [sessionB; sessionA]))
    = Some (duplicateNameMessage "A") /\
  savedSessions (after (handleSaveSession online) (editing "hello" " A " [sessionB; sessionA]))
    = [sessionB; sessionA].
Proof.
  apply (save_duplicate_name_rejected online
           (editing "hello" " A " [sessionB; sessionA]) sessionA).
  - vm_compute. discriminate.
  - vm_compute. discriminate.
  - simpl. right. left. reflexivity.
  - reflexivity.
Defined.

(** C2 as stated fails at two inputs.  With the requested name [" A"]
    equal to the stored name [" A"], the save goes through, because the
    comparison is made with the trimmed name ["A"].  With a blank
    transcript and the requested name ["A"] equal to a stored name, the save
    is refused with the no-text message, not the duplicate-name one. *)
Lemma save_duplicate_name_not_always_rejected :
  (sessionName (editing "hello" " A" [sessionPadded]) <> EmptyString /\
   In sessionPadded (savedSessions (editing "hello" " A" [sessionPadded])) /\
   name sessionPadded = sessionName (editing "hello" " A" [sessionPadded]) /\
   error (after (handleSaveSession online) (editing "hello" " A" [sessionPadded])) = None /\
   savedSessions (after (handleSaveSession online) (editing "hello" " A" [sessionPadded]))
     <> savedSessions (editing "hello" " A" [sessionPadded])) /\
  (sessionName (editing EmptyString "A" [sessionA]) <> EmptyString /\
   In sessionA (savedSessions (editing EmptyString "A" [sessionA])) /\
   name sessionA = sessionName (editing EmptyString "A" [sessionA]) /\
   error (after (handleSaveSession online) (editing EmptyString "A" [sessionA]))
     = Some noTextMessage /\
   error (after (handleSaveSession online) (editing EmptyString "A" [sessionA]))
     <> Some (duplicateNameMessage "A")).
Proof.
  split.
  - split; [discriminate|]. split; [now left|]. split; [reflexivity|].
    split; [reflexivity|]. vm_compute. discriminate.
  - split; [discriminate|]. split; [now left|]. split; [reflexivity|].
    split; [reflexivity|]. vm_compute. discriminate.
Qed.

(** C3: a save that succeeds (it leaves no error message) puts exactly one
    new session in front of the collection; the new session carries the
    trimmed requested name when that is non-empty and the name
    [Session <timestamp>] when it is empty, and its text is the transcript
    text as it is. *)
Theorem save_success_prepends (env : Env) (r : AppState) :
  error (after (handleSaveSession env) r) = None ->
  exists s : Session,
    savedSessions (after (handleSaveSession env) r) = s :: savedSessions r /\
    (trim (sessionName r) <> EmptyString -> name s = trim (sessionName r)) /\
    (trim (sessionName r) = EmptyString ->
     name s = "Session " +:+ toLocaleString env) /\
    text s = transcribedText r.
Proof.
  intros Hok. destruct (save_success_inv env r Hok) as (_ & _ & Hsaved).
  exists (newSession env r (trim (sessionName r))). split; [exact Hsaved|].
  unfold newSession; simpl. split; [|split; [|reflexivity]].
  - intros Hne. apply truthy_true in Hne. now rewrite Hne.
  - intros Hempty. now rewrite Hempty.
Qed.

Lemma save_success_prepends_witness :
  exists s : Session,
    savedSessions (after (handleSaveSession online) (editing "hello" EmptyString [sessionA]))
      = s :: [sessionA] /\
    (trim EmptyString <> EmptyString -> name s = trim EmptyString) /\
    (trim EmptyString = EmptyString ->
     name s = "Session " +:+ toLocaleString online) /\
    text s = "hello".
Proof.
  apply (save_success_prepends online (editing "hello" EmptyString [sessionA])).
  reflexivity.
Defined.

(** C10 (as amended): a save with a blank transcript is refused with the
    no-text message and the collection is unchanged; a save that succeeds
    stores the transcript text as it is, and stores the trimmed requested
    name whenever that trimmed name is non-empty. *)
Theorem save_blank_refused_name_trimmed (env : Env) (r : AppState) :
  (trim (transcribedText r) = EmptyString ->
   error (after (handleSaveSession env) r) = Some noTextMessage /\
   savedSessions (after (handleSaveSession env) r) = savedSessions r) /\
  (error (after (handleSaveSession env) r) = None ->
   exists s : Session,
     savedSessions (after (handleSaveSession env) r) = s :: savedSessions r /\
     text s = transcribedText r /\
     (trim (sessionName r) <> EmptyString -> name s = trim (sessionName r))).
Proof.
  split.
  - apply save_blank_text.
  - intros Hok. destruct (save_success_inv env r Hok) as (_ & _ & Hsaved).
    exists (newSession env r (trim (sessionName r))). split; [exact Hsaved|].
    split; [reflexivity|].
    intros Hne. apply truthy_true in Hne. unfold newSession; simpl. now rewrite Hne.
Qed.

Lemma save_blank_refused_name_trimmed_witness :
  (error (after (handleSaveSession online) (editing "  " "A" [sessionB])) = Some noTextMessage /\
   savedSessions (after (handleSaveSession online) (editing "  " "A" [sessionB])) = [sessionB]) /\
  (exists s : Session,
     savedSessions (after (handleSaveSession online) (editing " hello " " A " [sessionB]))
       = s :: [sessionB] /\
     text s = " hello " /\
     (trim " A " <> EmptyString -> name s = trim " A ")).
Proof.
  split.
  - apply (proj1 (save_blank_refused_name_trimmed online (editing "  " "A" [sessionB]))).
    reflexivity.
  - apply (proj2 (save_blank_refused_name_trimmed online
                    (editing " hello " " A " [sessionB]))).
    reflexivity.
Defined.

(** C10 as stated fails for an empty requested name: the save succeeds and
    the stored name is the synthesized one, not the (empty) trimmed
    requested name. *)
Lemma save_empty_name_is_synthesized :
  error (after (handleSaveSession online) (editing "hello" EmptyString [])) = None /\
  List.map name (savedSessions (after (handleSaveSession online) (editing "hello" EmptyString [])))
    = ["Session 11/14/2023, 10:13:20 PM"] /\
  List.map name (savedSessions (after (handleSaveSession online) (editing "hello" EmptyString [])))
    <> [trim (sessionName (editing "hello" EmptyString []))].
Proof.
  split; [reflexivity|]. split; [reflexivity|]. vm_compute. discriminate.
Qed.

(** ** Renaming a session *)


Section Rename.
Variable r : AppState.
Variable id0 : string.

Lemma rename_returns :
  outcome (fun r0 => handleSaveSessionName r0 id0) r = Ok tt.
Proof.
  unfold outcome, invoke, handleSaveSessionName.
  destruct (truthy (trim (editingSessionName r))); [|reflexivity].
  destruct (existsb _ _); reflexivity.
Qed.

Lemma rename_empty_name :
  trim (editingSessionName r) = EmptyString ->
  error (after (fun r0 => handleSaveSessionName r0 id0) r) = Some emptyNameMessage /\
  savedSessions (after (fun r0 => handleSaveSessionName r0 id0) r) = savedSessions r.
Proof.
  intros Hempty. unfold after, invoke, handleSaveSessionName.
  rewrite Hempty. split; reflexivity.
Qed.

Lemma rename_taken_elsewhere :
  trim (editingSessionName r) <> EmptyString ->
  existsb
    (fun session =>
       negb (String.eqb (id session) id0)
       && String.eqb (name session) (trim (editingSessionName r)))
    (savedSessions r) = true ->
  error (after (fun r0 => handleSaveSessionName r0 id0) r)
    = Some (duplicateNameMessage (trim (editingSessionName r))) /\
  savedSessions (after (fun r0 => handleSaveSessionName r0 id0) r) = savedSessions r.
Proof.
  intros Hname Htaken. unfold after, invoke, handleSaveSessionName.
  apply truthy_true in Hname. rewrite Hname, Htaken. split; reflexivity.
Qed.

Lemma rename_free :
  trim (editingSessionName r) <> EmptyString ->
  existsb
    (fun session =>
       negb (String.eqb (id session) id0)
       && String.eqb (name session) (trim (editingSessionName r)))
    (savedSessions r) = false ->
  error (after (fun r0 => handleSaveSessionName r0 id0) r) = None /\
  savedSessions (after (fun r0 => handleSaveSessionName r0 id0) r)
    = List.map
        (fun session =>
           if String.eqb (id session) id0
           then with_name session (trim (editingSessionName r))
           else session)
        (savedSessions r).
Proof.
  intros Hname Hfree. unfold after, invoke, handleSaveSessionName.
  apply truthy_true in Hname. rewrite Hname, Hfree. split; reflexivity.
Qed.

(** The three paths of [handleSaveSessionName], told apart by the message
    they leave. *)
Lemma rename_cases :
  (error (after (fun r0 => handleSaveSessionName r0 id0) r) <> None /\
   savedSessions (after (fun r0 => handleSaveSessionName r0 id0) r) = savedSessions r /\
   ~ (trim (editingSessionName r) <> EmptyString /\
      forall s, In s (savedSessions r) -> id s <> id0 ->
                name s <> trim (editingSessionName r)))
  \/
  (error (after (fun r0 => handleSaveSessionName r0 id0) r) = None /\
   savedSessions (after (fun r0 => handleSaveSessionName r0 id0) r)
     = List.map
         (fun session =>
            if String.eqb (id session) id0
            then with_name session (trim (editingSessionName r))
            else session)
         (savedSessions r) /\
   trim (editingSessionName r) <> EmptyString /\
   forall s, In s (savedSessions r) -> id s <> id0 ->
             name s <> trim (editingSessionName r)).
Proof.
  destruct (truthy (trim (editingSessionName r))) eqn:Hname.
  - apply truthy_true in Hname.
    destruct (existsb
                (fun session =>
                   negb (String.eqb (id session) id0)
                   && String.eqb (name session) (trim (editingSessionName r)))
                (savedSessions r)) eqn:Htaken.
    + left. destruct (rename_taken_elsewhere Hname Htaken) as [Herr Hsame].
      split; [rewrite Herr; discriminate|]. split; [exact Hsame|].
      intros [_ Hfree]. apply name_taken_elsewhere_spec in Hfree. congruence.
    + right. destruct (rename_free Hname Htaken) as [Herr Hmap].
      split; [exact Herr|]. split; [exact Hmap|]. split; [exact Hname|].
      now apply name_taken_elsewhere_spec.
  - apply truthy_false in Hname. left.
    destruct (rename_empty_name Hname) as [Herr Hsame].
    split; [rewrite Herr; discriminate|]. split; [exact Hsame|].
    intros [Hne _]. contradiction.
Qed.

End Rename.



(** ** Deleting a session *)

Lemma filter_other_ids (id0 : string) (sessions : list Session) :
  List.filter (fun s => negb (String.eqb (id s) id0)) sessions
  = filter (fun s => id s <> id0) sessions.
Proof.
  induction sessions as [|s rest IH]; [reflexivity|].
  simpl. rewrite filter_cons, <- IH.
  destruct (String.eqb_spec (id s) id0) as [Heq | Hne]; simpl.
  - rewrite decide_False; [reflexivity | intros H; contradiction].
  - rewrite decide_True; [reflexivity | assumption].
Qed.

Lemma filter_nothing_to_remove (id0 : string) (sessions : list Session) :
  (forall s, In s sessions -> id s <> id0) ->
  List.filter (fun s => negb (String.eqb (id s) id0)) sessions = sessions.
Proof.
  induction sessions as [|s rest IH]; intros Habsent; [reflexivity|].
  simpl. destruct (String.eqb_spec (id s) id0) as [Heq | Hne]; simpl.
  - exfalso. apply (Habsent s); [now left | exact Heq].
  - f_equal. apply IH. intros s' Hin. apply Habsent. now right.
Qed.

Lemma delete_saved (r : AppState) (id0 : string) :
  savedSessions (after (fun _ => handleDeleteSession id0) r)
  = List.filter (fun s => negb (String.eqb (id s) id0)) (savedSessions r).
Proof. reflexivity. Qed.

(** C9: [handleDeleteSession] returns and keeps, in order, exactly the
    sessions whose id differs from the given one; when no session has that
    id, the whole world is left as it was: the collection is unchanged and
    no error message is set. *)
Theorem delete_removes_exactly_matching (r : AppState) (id0 : string) :
  outcome (fun _ => handleDeleteSession id0) r = Ok tt /\
  savedSessions (after (fun _ => handleDeleteSession id0) r)
    = filter (fun s => id s <> id0) (savedSessions r) /\
  (forall s : Session,
     In s (savedSessions (after (fun _ => handleDeleteSession id0) r)) <->
     In s (savedSessions r) /\ id s <> id0) /\
  ((forall s : Session, In s (savedSessions r) -> id s <> id0) ->
   invoke (fun _ => handleDeleteSession id0) r = (Ok tt, world_of r)).
Proof.
  split; [reflexivity|]. split; [|split].
  - rewrite delete_saved. apply filter_other_ids.
  - intros s. rewrite delete_saved, filter_In, negb_true_iff, String.eqb_neq.
    reflexivity.
  - intros Habsent. unfold invoke, handleDeleteSession, updateSavedSessions,
      on_app, modify, world_of. simpl.
    rewrite (filter_nothing_to_remove id0 (savedSessions r) Habsent).
    destruct r; reflexivity.
Qed.

Lemma delete_removes_exactly_matching_witness :
  invoke (fun _ => handleDeleteSession "7") (editing "hello" "A" [sessionA; sessionB])
  = (Ok tt, world_of (editing "hello" "A" [sessionA; sessionB])).
Proof.
  apply (proj2 (proj2 (proj2 (delete_removes_exactly_matching
                                (editing "hello" "A" [sessionA; sessionB]) "7")))).
  intros s [<- | [<- | []]]; vm_compute; discriminate.
Defined.

(** ** Metrics analysis *)

Section Metrics.
Variable env : Env.

(** Whatever the remote model does, [runMetricsAnalysis] returns, sends at
    most the one analysis request for its text, and touches none of the
    transcript, the requested name, the sessions or the recording. *)
Lemma runMetricsAnalysis_frame (text0 : string) (w : World) :
  fst (runMetricsAnalysis env text0 w) = Ok tt /\
  (requests (snd (runMetricsAnalysis env text0 w)) = requests w \/
   requests (snd (runMetricsAnalysis env text0 w))
     = (requests w ++ [analysisRequest text0])%list) /\
  savedSessions (app (snd (runMetricsAnalysis env text0 w))) = savedSessions (app w) /\
  transcribedText (app (snd (runMetricsAnalysis env text0 w))) = transcribedText (app w) /\
  sessionName (app (snd (runMetricsAnalysis env text0 w))) = sessionName (app w) /\
  (error (app (snd (runMetricsAnalysis env text0 w))) = error (app w) \/
   error (app (snd (runMetricsAnalysis env text0 w))) = Some metricsFailedMessage).
Proof.
  unfold runMetricsAnalysis, analyzeTextMetrics, ai_generateContent.
  destruct (truthy (trim text0)); simpl; [|tauto].
  destruct API_KEY_missing; simpl; [tauto|].
  unfold try_catch_finally, try_finally, try_catch, bind, lift, modify; simpl.
  destruct (generateContent env (analysisRequest text0)) as [response | [message | value]];
    simpl; [|tauto|tauto].
  destruct (JSON_parse env (trim response)) as [parsed | [message | value]];
    simpl; tauto.
Qed.

Lemma runMetricsAnalysis_blank (text0 : string) (w : World) :
  trim text0 = EmptyString ->
  fst (runMetricsAnalysis env text0 w) = Ok tt /\
  requests (snd (runMetricsAnalysis env text0 w)) = requests w /\
  metrics (app (snd (runMetricsAnalysis env text0 w))) = None /\
  showMetrics (app (snd (runMetricsAnalysis env text0 w))) = false /\
  error (app (snd (runMetricsAnalysis env text0 w))) = error (app w) /\
  console (snd (runMetricsAnalysis env text0 w)) = console w.
Proof.
  intros Hblank. unfold runMetricsAnalysis. rewrite Hblank. simpl. tauto.
Qed.

End Metrics.

(** C7: on a text that is empty after trimming, [runMetricsAnalysis] sends
    nothing to the remote model, sets the metrics to [null] and hides them,
    and returns without raising or setting an error; and a run that did
    send a request was given a text that is non-empty after trimming. *)
Theorem metrics_blank_text_no_call (env : Env) (text0 : string) (w : World) :
  (trim text0 = EmptyString ->
   fst (runMetricsAnalysis env text0 w) = Ok tt /\
   requests (snd (runMetricsAnalysis env text0 w)) = requests w /\
   metrics (app (snd (runMetricsAnalysis env text0 w))) = None /\
   showMetrics (app (snd (runMetricsAnalysis env text0 w))) = false /\
   error (app (snd (runMetricsAnalysis env text0 w))) = error (app w) /\
   console (snd (runMetricsAnalysis env text0 w)) = console w) /\
  (requests (snd (runMetricsAnalysis env text0 w)) <> requests w ->
   trim text0 <> EmptyString).
Proof.
  split.
  - apply runMetricsAnalysis_blank.
  - intros Hsent Hblank.
    destruct (runMetricsAnalysis_blank env text0 w Hblank) as (_ & Hsame & _).
    contradiction.
Qed.

Lemma metrics_blank_text_no_call_witness :
  fst (runMetricsAnalysis offline "   " (world_of (editing "   " "A" [sessionA]))) = Ok tt /\
  requests (snd (runMetricsAnalysis offline "   " (world_of (editing "   " "A" [sessionA])))) = [] /\
  metrics (app (snd (runMetricsAnalysis offline "   " (world_of (editing "   " "A" [sessionA]))))) = None /\
  showMetrics (app (snd (runMetricsAnalysis offline "   " (world_of (editing "   " "A" [sessionA]))))) = false /\
  error (app (snd (runMetricsAnalysis offline "   " (world_of (editing "   " "A" [sessionA]))))) = None /\
  console (snd (runMetricsAnalysis offline "   " (world_of (editing "   " "A" [sessionA])))) = [].
Proof.
  apply (proj1 (metrics_blank_text_no_call offline "   "
                  (world_of (editing "   " "A" [sessionA])))).
  reflexivity.
Defined.

(** ** Loading a session *)

Section Load.
Variable env : Env.
Variable r : AppState.
Variable id0 : string.

Lemma load_absent :
  List.find (fun s => String.eqb (id s) id0) (savedSessions r) = None ->
  invoke (fun r0 => handleLoadSession env r0 id0) r = (Ok tt, world_of r).
Proof.
  intros Hfind. unfold invoke, handleLoadSession. rewrite Hfind. reflexivity.
Qed.

Lemma load_present (s0 : Session) :
  List.find (fun s => String.eqb (id s) id0) (savedSessions r) = Some s0 ->
  outcome (fun r0 => handleLoadSession env r0 id0) r = Ok tt /\
  savedSessions (after (fun r0 => handleLoadSession env r0 id0) r) = savedSessions r /\
  transcribedText (after (fun r0 => handleLoadSession env r0 id0) r) = text s0 /\
  sessionName (after (fun r0 => handleLoadSession env r0 id0) r) = name s0 /\
  (sent (fun r0 => handleLoadSession env r0 id0) r = [] \/
   sent (fun r0 => handleLoadSession env r0 id0) r = [analysisRequest (text s0)]).
Proof.
  intros Hfind. unfold outcome, after, sent, invoke, handleLoadSession.
  rewrite Hfind.
  destruct (truthy (audioUrl r)); simpl;
    match goal with
    | |- context [runMetricsAnalysis env ?t ?w] =>
        destruct (runMetricsAnalysis_frame env t w)
          as (Hret & Hsent & Hsaved & Htext & Hname & _)
    end;
    (split; [exact Hret|]); (split; [exact Hsaved|]); (split; [exact Htext|]);
    (split; [exact Hname|]); exact Hsent.
Qed.

End Load.

Lemma find_first_with_id (id0 : string) (s0 : Session) (before behind : list Session) :
  id s0 = id0 ->
  (forall s, In s before -> id s <> id0) ->
  List.find (fun s => String.eqb (id s) id0) (before ++ s0 :: behind) = Some s0.
Proof.
  intros Hid. induction before as [|s rest IH]; intros Hfirst; simpl.
  - rewrite Hid, String.eqb_refl. reflexivity.
  - destruct (String.eqb_spec (id s) id0) as [Heq | Hne].
    + exfalso. apply (Hfirst s); [now left | exact Heq].
    + apply IH. intros s' Hin. apply Hfirst. now right.
Qed.

(** Everything [handleLoadSession] does when it finds the session. *)
Lemma load_present_in_full (env : Env) (r : AppState) (id0 : string) (s0 : Session) :
  List.find (fun s => String.eqb (id s) id0) (savedSessions r) = Some s0 ->
  (transcribedText (after (fun r0 => handleLoadSession env r0 id0) r) = text s0 /\
   sessionName (after (fun r0 => handleLoadSession env r0 id0) r) = name s0) /\
  (audioBlob (after (fun r0 => handleLoadSession env r0 id0) r) = None /\
   audioUrl (after (fun r0 => handleLoadSession env r0 id0) r) = EmptyString /\
   copySuccess (after (fun r0 => handleLoadSession env r0 id0) r) = EmptyString /\
   revoked (snd (invoke (fun r0 => handleLoadSession env r0 id0) r))
   = (if truthy (audioUrl r) then [audioUrl r] else [])) /\
  (isRecording (after (fun r0 => handleLoadSession env r0 id0) r) = isRecording r /\
   isTranscribing (after (fun r0 => handleLoadSession env r0 id0) r) = isTranscribing r /\
   targetLanguage (after (fun r0 => handleLoadSession env r0 id0) r) = targetLanguage r /\
   editingSessionId (after (fun r0 => handleLoadSession env r0 id0) r) = editingSessionId r /\
   editingSessionName (after (fun r0 => handleLoadSession env r0 id0) r)
   = editingSessionName r) /\
  (trim (text s0) = EmptyString ->
   sent (fun r0 => handleLoadSession env r0 id0) r = [] /\
   metrics (after (fun r0 => handleLoadSession env r0 id0) r) = None /\
   showMetrics (after (fun r0 => handleLoadSession env r0 id0) r) = false /\
   error (after (fun r0 => handleLoadSession env r0 id0) r) = None) /\
  (trim (text s0) <> EmptyString ->
   API_KEY_missing env = true ->
   sent (fun r0 => handleLoadSession env r0 id0) r = [] /\
   metrics (after (fun r0 => handleLoadSession env r0 id0) r) = metrics r /\
   showMetrics (after (fun r0 => handleLoadSession env r0 id0) r) = false /\
   error (after (fun r0 => handleLoadSession env r0 id0) r) = Some metricsFailedMessage) /\
  (trim (text s0) <> EmptyString ->
   API_KEY_missing env = false ->
   sent (fun r0 => handleLoadSession env r0 id0) r = [analysisRequest (text s0)] /\
   isAnalyzingMetrics (after (fun r0 => handleLoadSession env r0 id0) r) = false /\
   match generateContent env (analysisRequest (text s0)) with
   | Ok response =>
       match JSON_parse env (trim response) with
       | Ok parsed =>
           metrics (after (fun r0 => handleLoadSession env r0 id0) r) = Some parsed /\
           showMetrics (after (fun r0 => handleLoadSession env r0 id0) r) = true /\
           error (after (fun r0 => handleLoadSession env r0 id0) r) = None
       | Throw _ =>
           metrics (after (fun r0 => handleLoadSession env r0 id0) r) = metrics r /\
           showMetrics (after (fun r0 => handleLoadSession env r0 id0) r) = false /\
           error (after (fun r0 => handleLoadSession env r0 id0) r)
           = Some metricsFailedMessage
       end
   | Throw _ =>
       metrics (after (fun r0 => handleLoadSession env r0 id0) r) = metrics r /\
       showMetrics (after (fun r0 => handleLoadSession env r0 id0) r) = false /\
       error (after (fun r0 => handleLoadSession env r0 id0) r) = Some metricsFailedMessage
   end).
Proof.
  intros Hfind. unfold after, sent, invoke, handleLoadSession. rewrite Hfind.
  unfold runMetricsAnalysis, analyzeTextMetrics, ai_generateContent.
  destruct (truthy (audioUrl r)); simpl;
    (destruct (truthy (trim (text s0))) eqn:Htext;
     [apply truthy_true in Htext | apply truthy_false in Htext]); simpl;
    try (destruct (API_KEY_missing env) eqn:Hkey; simpl);
    try (destruct (generateContent env (analysisRequest (text s0)))
           as [response | [message | value]]; simpl);
    try (destruct (JSON_parse env (trim response)) as [parsed | [message | value]]; simpl);
    repeat split; intros; try reflexivity; try congruence.
Qed.

(** C8 (as amended): for every id, [handleLoadSession] returns and leaves
    the stored collection, hence every stored session's id, name, text and
    date, as it was, and with no session of that id it does nothing at all.
    With a session of that id, it copies the text and the name of the first
    such session into the transcript and the requested name, and runs the
    metrics analysis on that text: nothing is sent for a blank text or
    without an API key, and otherwise exactly the analysis request for that
    text is sent and its outcome decides the metrics shown.  Besides that it
    drops the recording, releasing its playback URL when there is one, and
    clears the error message and the copy feedback; the flags, the language
    and the editor are left alone. *)
Theorem load_copies_session_and_analyzes (env : Env) (r : AppState) (id0 : string) :
  outcome (fun r0 => handleLoadSession env r0 id0) r = Ok tt /\
  savedSessions (after (fun r0 => handleLoadSession env r0 id0) r) = savedSessions r /\
  ((forall s : Session, In s (savedSessions r) -> id s <> id0) ->
   invoke (fun r0 => handleLoadSession env r0 id0) r = (Ok tt, world_of r)) /\
  (forall (s0 : Session) (before behind : list Session),
     savedSessions r = (before ++ s0 :: behind)%list ->
     id s0 = id0 ->
     (forall s : Session, In s before -> id s <> id0) ->
     (transcribedText (after (fun r0 => handleLoadSession env r0 id0) r) = text s0 /\
      sessionName (after (fun r0 => handleLoadSession env r0 id0) r) = name s0) /\
     (audioBlob (after (fun r0 => handleLoadSession env r0 id0) r) = None /\
      audioUrl (after (fun r0 => handleLoadSession env r0 id0) r) = EmptyString /\
      copySuccess (after (fun r0 => handleLoadSession env r0 id0) r) = EmptyString /\
      revoked (snd (invoke (fun r0 => handleLoadSession env r0 id0) r))
      = (if truthy (audioUrl r) then [audioUrl r] else [])) /\
     (isRecording (after (fun r0 => handleLoadSession env r0 id0) r) = isRecording r /\
      isTranscribing (after (fun r0 => handleLoadSession env r0 id0) r) = isTranscribing r /\
      targetLanguage (after (fun r0 => handleLoadSession env r0 id0) r) = targetLanguage r /\
      editingSessionId (after (fun r0 => handleLoadSession env r0 id0) r)
      = editingSessionId r /\
      editingSessionName (after (fun r0 => handleLoadSession env r0 id0) r)
      = editingSessionName r) /\
     (trim (text s0) = EmptyString ->
      sent (fun r0 => handleLoadSession env r0 id0) r = [] /\
      metrics (after (fun r0 => handleLoadSession env r0 id0) r) = None /\
      showMetrics (after (fun r0 => handleLoadSession env r0 id0) r) = false /\
      error (after (fun r0 => handleLoadSession env r0 id0) r) = None) /\
     (trim (text s0) <> EmptyString ->
      API_KEY_missing env = true ->
      sent (fun r0 => handleLoadSession env r0 id0) r = [] /\
      metrics (after (fun r0 => handleLoadSession env r0 id0) r) = metrics r /\
      showMetrics (after (fun r0 => handleLoadSession env r0 id0) r) = false /\
      error (after (fun r0 => handleLoadSession env r0 id0) r)
      = Some metricsFailedMessage) /\
     (trim (text s0) <> EmptyString ->
      API_KEY_missing env = false ->
      sent (fun r0 => handleLoadSession env r0 id0) r = [analysisRequest (text s0)] /\
      isAnalyzingMetrics (after (fun r0 => handleLoadSession env r0 id0) r) = false /\
      match generateContent env (analysisRequest (text s0)) with
      | Ok response =>
          match JSON_parse env (trim response) with
          | Ok parsed =>
              metrics (after (fun r0 => handleLoadSession env r0 id0) r) = Some parsed /\
              showMetrics (after (fun r0 => handleLoadSession env r0 id0) r) = true /\
              error (after (fun r0 => handleLoadSession env r0 id0) r) = None
          | Throw _ =>
              metrics (after (fun r0 => handleLoadSession env r0 id0) r) = metrics r /\
              showMetrics (after (fun r0 => handleLoadSession env r0 id0) r) = false /\
              error (after (fun r0 => handleLoadSession env r0 id0) r)
              = Some metricsFailedMessage
          end
      | Throw _ =>
          metrics (after (fun r0 => handleLoadSession env r0 id0) r) = metrics r /\
          showMetrics (after (fun r0 => handleLoadSession env r0 id0) r) = false /\
          error (after (fun r0 => handleLoadSession env r0 id0) r)
          = Some metricsFailedMessage
      end)).
Proof.
  assert (Hframe : outcome (fun r0 => handleLoadSession env r0 id0) r = Ok tt /\
                   savedSessions (after (fun r0 => handleLoadSession env r0 id0) r)
                   = savedSessions r).
  { destruct (List.find (fun s => String.eqb (id s) id0) (savedSessions r))
      as [s0|] eqn:Hfind.
    - destruct (load_present env r id0 s0 Hfind) as (Hret & Hsaved & _). tauto.
    - unfold outcome, after. rewrite (load_absent env r id0 Hfind). tauto. }
  destruct Hframe as [Hret Hsaved].
  split; [exact Hret|]. split; [exact Hsaved|]. split.
  - intros Habsent. apply load_absent.
    destruct (List.find _ _) as [s0|] eqn:Hfind; [|reflexivity].
    apply find_some in Hfind. destruct Hfind as [Hin Heq].
    apply String.eqb_eq in Heq. exfalso. exact (Habsent s0 Hin Heq).
  - intros s0 before behind Hsplit Hid Hfirst.
    apply load_present_in_full. rewrite Hsplit.
    now apply find_first_with_id.
Qed.

Lemma load_copies_session_and_analyzes_witness :
  (transcribedText (after (fun r0 => handleLoadSession online r0 "2") busy) = text sessionB /\
   sessionName (after (fun r0 => handleLoadSession online r0 "2") busy) = name sessionB) /\
  (audioBlob (after (fun r0 => handleLoadSession online r0 "2") busy) = None /\
   audioUrl (after (fun r0 => handleLoadSession online r0 "2") busy) = EmptyString /\
   copySuccess (after (fun r0 => handleLoadSession online r0 "2") busy) = EmptyString /\
   revoked (snd (invoke (fun r0 => handleLoadSession online r0 "2") busy))
   = (if truthy (audioUrl busy) then [audioUrl busy] else [])) /\
  (isRecording (after (fun r0 => handleLoadSession online r0 "2") busy) = isRecording busy /\
   isTranscribing (after (fun r0 => handleLoadSession online r0 "2") busy)
   = isTranscribing busy /\
   targetLanguage (after (fun r0 => handleLoadSession online r0 "2") busy)
   = targetLanguage busy /\
   editingSessionId (after (fun r0 => handleLoadSession online r0 "2") busy)
   = editingSessionId busy /\
   editingSessionName (after (fun r0 => handleLoadSession online r0 "2") busy)
   = editingSessionName busy) /\
  (trim (text sessionB) = EmptyString ->
   sent (fun r0 => handleLoadSession online r0 "2") busy = [] /\
   metrics (after (fun r0 => handleLoadSession online r0 "2") busy) = None /\
   showMetrics (after (fun r0 => handleLoadSession online r0 "2") busy) = false /\
   error (after (fun r0 => handleLoadSession online r0 "2") busy) = None) /\
  (trim (text sessionB) <> EmptyString ->
   API_KEY_missing online = true ->
   sent (fun r0 => handleLoadSession online r0 "2") busy = [] /\
   metrics (after (fun r0 => handleLoadSession online r0 "2") busy) = metrics busy /\
   showMetrics (after (fun r0 => handleLoadSession online r0 "2") busy) = false /\
   error (after (fun r0 => handleLoadSession online r0 "2") busy)
   = Some metricsFailedMessage) /\
  (trim (text sessionB) <> EmptyString ->
   API_KEY_missing online = false ->
   sent (fun r0 => handleLoadSession online r0 "2") busy = [analysisRequest (text sessionB)] /\
   isAnalyzingMetrics (after (fun r0 => handleLoadSession online r0 "2") busy) = false /\
   match generateContent online (analysisRequest (text sessionB)) with
   | Ok response =>
       match JSON_parse online (trim response) with
       | Ok parsed =>
           metrics (after (fun r0 => handleLoadSession online r0 "2") busy) = Some parsed /\
           showMetrics (after (fun r0 => handleLoadSession online r0 "2") busy) = true /\
           error (after (fun r0 => handleLoadSession online r0 "2") busy) = None
       | Throw _ =>
           metrics (after (fun r0 => handleLoadSession online r0 "2") busy) = metrics busy /\
           showMetrics (after (fun r0 => handleLoadSession online r0 "2") busy) = false /\
           error (after (fun r0 => handleLoadSession online r0 "2") busy)
           = Some metricsFailedMessage
       end
   | Throw _ =>
       metrics (after (fun r0 => handleLoadSession online r0 "2") busy) = metrics busy /\
       showMetrics (after (fun r0 => handleLoadSession online r0 "2") busy) = false /\
       error (after (fun r0 => handleLoadSession online r0 "2") busy)
       = Some metricsFailedMessage
   end).
Proof.
  apply (proj2 (proj2 (proj2 (load_copies_session_and_analyzes online busy "2")))
           sessionB [sessionA] []).
  - reflexivity.
  - reflexivity.
  - intros s [<- | []]. vm_compute. discriminate.
Defined.

(** C8 as stated fails: loading a session does more to the editing state
    than copying the text and the name and analysing the text.  With a
    recording, a message and a copy feedback showing, loading the stored
    session 2 drops the recording, releases its URL and clears the message
    and the feedback. *)
Lemma load_also_drops_recording :
  In sessionB (savedSessions busy) /\
  id sessionB = "2" /\
  audioBlob busy = Some clip /\
  audioBlob (after (fun r0 => handleLoadSession online r0 "2") busy) = None /\
  audioUrl busy = "blob:recording" /\
  audioUrl (after (fun r0 => handleLoadSession online r0 "2") busy) = EmptyString /\
  revoked (snd (invoke (fun r0 => handleLoadSession online r0 "2") busy))
  = ["blob:recording"] /\
  error busy = Some metricsFailedMessage /\
  error (after (fun r0 => handleLoadSession online r0 "2") busy) = None /\
  copySuccess busy = "Copied!" /\
  copySuccess (after (fun r0 => handleLoadSession online r0 "2") busy) = EmptyString /\
  savedSessions (after (fun r0 => handleLoadSession online r0 "2") busy) = savedSessions busy.
Proof.
  split; [right; now left|]. vm_compute. repeat split.
Qed.

(** ** Transcription *)

Section Transcribe.
Variable env : Env.
Variable r : AppState.
Variable blob : Blob.
Variable dataUrl : string.
Hypothesis Hblob : audioBlob r = Some blob.
Hypothesis Hkey : API_KEY_missing env = false.
Hypothesis Hread : readAsDataURL env blob = Ok dataUrl.

#[local] Arguments nth_error : simpl never.
#[local] Arguments transcriptionRequest : simpl never.
#[local] Arguments analysisRequest : simpl never.

(** With a recording, an API key and a reader that works,
    [handleTranscribe] sends the transcription request whatever the
    recording and transcribing flags are, and puts in the transcript what
    [transcribeAudio] resolved to: the model's text, or the failure text
    when the call rejected.  The only message it can leave is the one of
    the metrics analysis. *)
Lemma handleTranscribe_runs :
  outcome (handleTranscribe env) r = Ok tt /\
  transcribedText (after (handleTranscribe env) r)
    = match generateContent env
              (transcriptionRequest (nth_error (split_comma dataUrl) 1)
                 (type blob) (targetLanguage r)) with
      | Ok response => response
      | Throw e => transcriptionFailureText e
      end /\
  (exists rest : list Request,
     sent (handleTranscribe env) r
     = transcriptionRequest (nth_error (split_comma dataUrl) 1)
         (type blob) (targetLanguage r) :: rest) /\
  (error (after (handleTranscribe env) r) = None \/
   error (after (handleTranscribe env) r) = Some metricsFailedMessage).
Proof.
  unfold outcome, after, sent, invoke, handleTranscribe. rewrite Hblob.
  unfold handleTranscribe_begin, handleTranscribe_resume, blobToBase64,
    transcribeAudio, ai_generateContent.
  rewrite Hkey. simpl. rewrite Hread. simpl.
  destruct (generateContent env _) as [response | e]; simpl;
    match goal with
    | |- context [runMetricsAnalysis env ?t ?w] =>
        pose proof (runMetricsAnalysis_frame env t w) as Hframe;
        destruct (runMetricsAnalysis env t w) as [res w']
    end;
    simpl in Hframe; destruct Hframe as (-> & Hsent & _ & Htext & _ & Herr);
    simpl; (split; [reflexivity|]); (split; [exact Htext|]); split.
  - destruct Hsent as [-> | ->]; eexists; reflexivity.
  - exact Herr.
  - destruct Hsent as [-> | ->]; eexists; reflexivity.
  - exact Herr.
Qed.

End Transcribe.

Lemma transcriptionFailureText_not_empty (e : exn) :
  transcriptionFailureText e <> EmptyString.
Proof. destruct e; discriminate. Qed.

(** C1 (as amended): when the remote transcription call rejects,
    [transcribeAudio] does not raise: it resolves to a descriptive failure
    text, which is never empty, and [handleTranscribe] returns with that
    text as the transcript and without the generic transcription failure
    message. *)
Theorem transcribe_rejection_becomes_transcript
    (env : Env) (r : AppState) (blob : Blob) (dataUrl : string) (e : exn) :
  audioBlob r = Some blob ->
  API_KEY_missing env = false ->
  readAsDataURL env blob = Ok dataUrl ->
  generateContent env
    (transcriptionRequest (nth_error (split_comma dataUrl) 1)
       (type blob) (targetLanguage r)) = Throw e ->
  (forall w : World,
     fst (transcribeAudio env (nth_error (split_comma dataUrl) 1)
            (type blob) (targetLanguage r) w)
     = Ok (transcriptionFailureText e)) /\
  outcome (handleTranscribe env) r = Ok tt /\
  transcribedText (after (handleTranscribe env) r) = transcriptionFailureText e /\
  transcribedText (after (handleTranscribe env) r) <> EmptyString /\
  error (after (handleTranscribe env) r) <> Some transcribeFailedMessage.
Proof.
  intros Hblob Hkey Hread Hfail.
  destruct (handleTranscribe_runs env r blob dataUrl Hblob Hkey Hread)
    as (Hret & Htext & _ & Herr).
  rewrite Hfail in Htext. split; [|split; [exact Hret|split; [exact Htext|split]]].
  - intros w. unfold transcribeAudio, ai_generateContent. rewrite Hkey.
    unfold try_catch, bind, lift, modify. rewrite Hfail. reflexivity.
  - rewrite Htext. apply transcriptionFailureText_not_empty.
  - destruct Herr as [-> | ->]; discriminate.
Qed.

Lemma transcribe_rejection_becomes_transcript_witness :
  (forall w : World,
     fst (transcribeAudio offline (nth_error (split_comma "data:audio/webm;base64,QUJD") 1)
            (type clip) (targetLanguage (app recorded)) w)
     = Ok (transcriptionFailureText (ErrorObj "Failed to fetch"))) /\
  outcome (handleTranscribe offline) (app recorded) = Ok tt /\
  transcribedText (after (handleTranscribe offline) (app recorded))
    = transcriptionFailureText (ErrorObj "Failed to fetch") /\
  transcribedText (after (handleTranscribe offline) (app recorded)) <> EmptyString /\
  error (after (handleTranscribe offline) (app recorded)) <> Some transcribeFailedMessage.
Proof.
  apply (transcribe_rejection_becomes_transcript offline (app recorded) clip
           "data:audio/webm;base64,QUJD" (ErrorObj "Failed to fetch")); reflexivity.
Defined.

(** C1 as stated fails: with the network down, [handleTranscribe] on a
    finalized recording returns with the failure text of [transcribeAudio]
    as the transcript, not an empty one; the text then goes to the metrics
    analysis, and the only message shown is the one of that analysis, not
    the generic transcription failure.  When only the transcription request
    fails no message is shown at all, and metrics of the failure text are
    displayed. *)
Theorem transcribe_failure_fills_transcript :
  outcome (handleTranscribe offline) (app recorded) = Ok tt /\
  transcribedText (after (handleTranscribe offline) (app recorded))
    = "Transcription failed: Failed to fetch" /\
  error (after (handleTranscribe offline) (app recorded)) = Some metricsFailedMessage /\
  sent (handleTranscribe offline) (app recorded)
    = [transcriptionRequest (Some "QUJD") "audio/webm" "English";
       analysisRequest "Transcription failed: Failed to fetch"] /\
  transcribedText (after (handleTranscribe transcriptionDown) (app recorded))
    = "Transcription failed: Failed to fetch" /\
  error (after (handleTranscribe transcriptionDown) (app recorded)) = None /\
  metrics (after (handleTranscribe transcriptionDown) (app recorded)) = Some someMetrics /\
  transcribedText (after (handleTranscribe offline) (app recorded)) <> EmptyString /\
  error (after (handleTranscribe offline) (app recorded)) <> Some transcribeFailedMessage.
Proof. vm_compute. repeat split; discriminate. Qed.

(** Starting a recording clears the previous recording, so in the render
    that follows it the handler refuses to transcribe. *)
Lemma start_recording_then_transcribe_rejected (env : Env) (r : AppState) :
  audioBlob (after (handleStartRecording env) r) = None /\
  sent (handleTranscribe env) (after (handleStartRecording env) r) = [].
Proof.
  assert (Hnone : audioBlob (after (handleStartRecording env) r) = None).
  { unfold after, invoke, handleStartRecording.
    destruct (truthy (audioUrl r)); simpl;
      destruct (getUserMedia env) as [[] | e]; simpl;
      try destruct (MediaRecorder_new env) as [mime | e]; reflexivity. }
  split; [exact Hnone|].
  unfold sent, invoke, handleTranscribe. rewrite Hnone. reflexivity.
Qed.

(** C5 (as amended): [handleTranscribe] itself requires a finalized
    recording: without one it sends nothing and leaves the no-audio
    message, the transcript and the transcribing flag as they were; this is
    the case in the render that follows [handleStartRecording].  The
    exclusion with a recording in progress and with a transcription in
    flight is otherwise the Transcribe button's: when there is no recording,
    or a recording is in progress, or a transcription is in flight, a click
    does nothing at all. *)
Theorem transcribe_needs_recording_button_excludes (env : Env) (r : AppState) :
  (audioBlob r = None ->
   outcome (handleTranscribe env) r = Ok tt /\
   sent (handleTranscribe env) r = [] /\
   error (after (handleTranscribe env) r) = Some noAudioMessage /\
   transcribedText (after (handleTranscribe env) r) = transcribedText r /\
   isTranscribing (after (handleTranscribe env) r) = isTranscribing r) /\
  (audioBlob (after (handleStartRecording env) r) = None /\
   sent (handleTranscribe env) (after (handleStartRecording env) r) = []) /\
  (audioBlob r = None \/ isRecording r = true \/ isTranscribing r = true ->
   invoke (clickTranscribe env) r = (Ok tt, world_of r)).
Proof.
  split; [|split].
  - intros Hnone. unfold outcome, sent, after, invoke, handleTranscribe.
    rewrite Hnone. simpl. repeat split.
  - apply start_recording_then_transcribe_rejected.
  - intros Hbusy. unfold invoke, clickTranscribe.
    assert (Hdisabled : transcribeDisabled r = true).
    { unfold transcribeDisabled.
      destruct Hbusy as [Hnone | [Hrec | Htrans]].
      - rewrite Hnone. rewrite bool_decide_eq_false_2; [reflexivity|].
        intros [blob Hblob]. discriminate.
      - rewrite Hrec. now rewrite orb_true_r.
      - rewrite Htrans. now rewrite orb_true_r. }
    rewrite Hdisabled. reflexivity.
Qed.

Lemma transcribe_needs_recording_button_excludes_witness :
  (outcome (handleTranscribe online) (editing "draft" "A" [sessionA]) = Ok tt /\
   sent (handleTranscribe online) (editing "draft" "A" [sessionA]) = [] /\
   error (after (handleTranscribe online) (editing "draft" "A" [sessionA]))
     = Some noAudioMessage /\
   transcribedText (after (handleTranscribe online) (editing "draft" "A" [sessionA]))
     = "draft" /\
   isTranscribing (after (handleTranscribe online) (editing "draft" "A" [sessionA]))
     = false) /\
  invoke (clickTranscribe online) inFlight = (Ok tt, world_of inFlight).
Proof.
  split.
  - apply (proj1 (transcribe_needs_recording_button_excludes online
                    (editing "draft" "A" [sessionA]))).
    reflexivity.
  - apply (proj2 (proj2 (transcribe_needs_recording_button_excludes online inFlight))).
    right. right. reflexivity.
Defined.

(** C5 as stated fails: [handleTranscribe] does not look at the two flags.
    In the render where a transcription of the recording is already in
    flight, and in a render where the recording flag is up, invoking it
    sends a new transcription request. *)
Lemma transcribe_handler_ignores_flags :
  (isTranscribing inFlight = true /\
   sent (handleTranscribe online) inFlight
     = [transcriptionRequest (Some "QUJD") "audio/webm" "English";
        analysisRequest "hello world"]) /\
  (isRecording recordingWithClip = true /\
   sent (handleTranscribe online) recordingWithClip
     = [transcriptionRequest (Some "QUJD") "audio/webm" "English";
        analysisRequest "hello world"]).
Proof. vm_compute. repeat split. Qed.

(** ** The [useLocalStorage] hook *)

Section HookProofs.
Import LocalStorage.
Context {T : Type}.
Variable JSON_parse : string -> result T.
Variable JSON_stringify : T -> result string.
Variable key : string.

(** With a default that is supplied without throwing, the read returns. *)
Lemma readStored_returns (initialValue : InitialValue) (d : T) (b : Browser) :
  suppliedDefault initialValue = Ok d ->
  exists (v : T) (b' : Browser),
    readStored JSON_parse key initialValue b = (Ok v, b') /\
    localStorage b' = localStorage b /\
    producerCalls b' <= producerCalls b + producerCost initialValue.
Proof.
  intros Hdefault. unfold readStored, getItem, try_catch, bind.
  destruct (getItem_raises (localStorage b)) as [e|]; simpl.
  - destruct initialValue; simpl in *; unfold call; rewrite ?Hdefault;
      eexists _, _; (split; [reflexivity | simpl; split; [reflexivity | lia]]).
  - destruct (items (localStorage b) !! key) as [stored|]; simpl.
    + destruct (truthy stored); simpl.
      * destruct (JSON_parse stored) as [v | e]; simpl.
        -- eexists _, _; split; [reflexivity | split; [reflexivity | lia]].
        -- destruct initialValue; simpl in *; unfold call; rewrite ?Hdefault;
             eexists _, _; (split; [reflexivity | simpl; split; [reflexivity | lia]]).
      * destruct initialValue; simpl in *; unfold call; rewrite ?Hdefault;
          eexists _, _; (split; [reflexivity | simpl; split; [reflexivity | lia]]).
    + destruct initialValue; simpl in *; unfold call; rewrite ?Hdefault;
        eexists _, _; (split; [reflexivity | simpl; split; [reflexivity | lia]]).
Qed.

Lemma readStored_default (initialValue : InitialValue) (d : T) (b : Browser) :
  suppliedDefault initialValue = Ok d ->
  unreadable JSON_parse b key ->
  exists b' : Browser,
    readStored JSON_parse key initialValue b = (Ok d, b') /\
    producerCalls b' = producerCalls b + producerCost initialValue /\
    localStorage b' = localStorage b.
Proof.
  intros Hdefault. unfold unreadable, readStored, getItem, try_catch, bind.
  destruct (getItem_raises (localStorage b)) as [e|]; simpl.
  - intros _. destruct initialValue; simpl in *; unfold call; rewrite Hdefault;
      eexists; (split; [reflexivity | simpl; split; [lia | reflexivity]]).
  - destruct (items (localStorage b) !! key) as [stored|]; simpl.
    + intros [e Hparse]. destruct (truthy stored); simpl.
      * rewrite Hparse. simpl.
        destruct initialValue; simpl in *; unfold call; rewrite Hdefault;
          eexists; (split; [reflexivity | simpl; split; [lia | reflexivity]]).
      * destruct initialValue; simpl in *; unfold call; rewrite Hdefault;
          eexists; (split; [reflexivity | simpl; split; [lia | reflexivity]]).
    + intros _. destruct initialValue; simpl in *; unfold call; rewrite Hdefault;
        eexists; (split; [reflexivity | simpl; split; [lia | reflexivity]]).
Qed.

Lemma readStored_stored (initialValue : InitialValue) (b : Browser)
    (stored : string) (v : T) :
  getItem_raises (localStorage b) = None ->
  items (localStorage b) !! key = Some stored ->
  truthy stored = true ->
  JSON_parse stored = Ok v ->
  readStored JSON_parse key initialValue b = (Ok v, b).
Proof.
  intros Hget Hitem Htruthy Hparse.
  unfold readStored, getItem, try_catch, bind.
  rewrite Hget, Hitem, Htruthy. simpl. rewrite Hparse. reflexivity.
Qed.

(** Whatever the read does, it leaves the store as it was. *)
Lemma readStored_keeps_store (initialValue : InitialValue) (b : Browser) :
  localStorage (snd (readStored JSON_parse key initialValue b)) = localStorage b.
Proof.
  unfold readStored, getItem, try_catch, bind.
  destruct (getItem_raises (localStorage b)); simpl.
  - destruct initialValue as [v | f]; simpl; [reflexivity|].
    unfold call. destruct (f tt); reflexivity.
  - destruct (items (localStorage b) !! key) as [stored|]; simpl.
    + destruct (truthy stored); simpl.
      * destruct (JSON_parse stored); simpl; [reflexivity|].
        destruct initialValue as [v | f]; simpl; [reflexivity|].
        unfold call. destruct (f tt); reflexivity.
      * destruct initialValue as [v | f]; simpl; [reflexivity|].
        unfold call. destruct (f tt); simpl; [reflexivity|].
        destruct (f tt); reflexivity.
    + destruct initialValue as [v | f]; simpl; [reflexivity|].
      unfold call. destruct (f tt); simpl; [reflexivity|].
      destruct (f tt); reflexivity.
Qed.

(** A producer that throws on a missing item: it is called in the [try],
    again in the [catch], and what it throws leaves the read. *)
Lemma readStored_producer_throws (f : unit -> result T) (e : exn) (b : Browser) :
  f tt = Throw e ->
  getItem_raises (localStorage b) = None ->
  items (localStorage b) !! key = None ->
  readStored JSON_parse key (Producer f) b
  = (Throw e,
     {| localStorage := localStorage b;
        console := (console b ++ [readErrorLabel key])%list;
        producerCalls := S (S (producerCalls b)) |}).
Proof.
  intros Hthrow Hget Hitem. unfold readStored, getItem, try_catch, bind.
  rewrite Hget, Hitem. simpl. unfold call. rewrite Hthrow. simpl.
  rewrite ?Hthrow. reflexivity.
Qed.

Lemma writeStored_returns (v : T) (b : Browser) :
  exists b' : Browser,
    writeStored JSON_stringify key v b = (Ok tt, b') /\
    useLocalStorage_set JSON_stringify key v b = (Ok v, b') /\
    producerCalls b' = producerCalls b /\
    (unwritable JSON_stringify b key v ->
     localStorage b' = localStorage b /\
     console b' = (console b ++ [writeErrorLabel key])%list).
Proof.
  unfold unwritable, useLocalStorage_set, writeStored, setItem, try_catch, bind.
  destruct (JSON_stringify v) as [encoded | e]; simpl.
  - destruct (setItem_raises (localStorage b) key encoded) as [e|]; simpl.
    + eexists. do 3 (split; [reflexivity|]). intros _. split; reflexivity.
    + eexists. do 3 (split; [reflexivity|]). intros Hnone. contradiction.
  - eexists. do 3 (split; [reflexivity|]). intros _. split; reflexivity.
Qed.

End HookProofs.

Lemma mount_returns {T : Type} (JSON_parse : string -> result T)
    (JSON_stringify : T -> result string) (key : string)
    (initialValue : LocalStorage.InitialValue) (d : T) (b : LocalStorage.Browser) :
  LocalStorage.suppliedDefault initialValue = Ok d ->
  exists (v : T) (b' : LocalStorage.Browser),
    LocalStorage.useLocalStorage_mount JSON_parse JSON_stringify key initialValue b
    = (Ok v, b').
Proof.
  intros Hdefault.
  destruct (readStored_returns JSON_parse key initialValue d b Hdefault)
    as (v & b1 & Hread & _).
  destruct (writeStored_returns JSON_stringify key v b1) as (b2 & Hwrite & _).
  exists v, b2. unfold LocalStorage.useLocalStorage_mount. simpl.
  rewrite Hread, Hwrite. reflexivity.
Qed.

(** C6 (as amended): for a default that is a plain value, or a producer
    that returns, reading the store never raises; when the stored item
    cannot be read (the read is refused, the item is missing, or it does
    not deserialize) the result is the supplied default, a plain default
    costing no producer call and the producer being called exactly once;
    when the item can be read no producer is called at all; and writing
    never raises and hands back the value it was given: when the value
    cannot be written the store is left as it was and the failure goes to
    the console. *)
Theorem useLocalStorage_defaults_and_swallows {T : Type}
    (JSON_parse : string -> result T) (JSON_stringify : T -> result string)
    (key : string) (b : LocalStorage.Browser) (v0 d : T) (f : unit -> result T) :
  ((exists (v : T) (b' : LocalStorage.Browser),
      LocalStorage.readStored JSON_parse key (LocalStorage.Value v0) b = (Ok v, b')) /\
   (exists (v : T) (b' : LocalStorage.Browser),
      LocalStorage.useLocalStorage_mount JSON_parse JSON_stringify key
        (LocalStorage.Value v0) b = (Ok v, b'))) /\
  (f tt = Ok d ->
   (exists (v : T) (b' : LocalStorage.Browser),
      LocalStorage.readStored JSON_parse key (LocalStorage.Producer f) b = (Ok v, b')) /\
   (exists (v : T) (b' : LocalStorage.Browser),
      LocalStorage.useLocalStorage_mount JSON_parse JSON_stringify key
        (LocalStorage.Producer f) b = (Ok v, b'))) /\
  (LocalStorage.unreadable JSON_parse b key ->
   (exists b' : LocalStorage.Browser,
      LocalStorage.readStored JSON_parse key (LocalStorage.Value v0) b = (Ok v0, b') /\
      LocalStorage.producerCalls b' = LocalStorage.producerCalls b) /\
   (f tt = Ok d ->
    exists b' : LocalStorage.Browser,
      LocalStorage.readStored JSON_parse key (LocalStorage.Producer f) b = (Ok d, b') /\
      LocalStorage.producerCalls b' = S (LocalStorage.producerCalls b))) /\
  (forall (stored : string) (v : T),
     LocalStorage.getItem_raises (LocalStorage.localStorage b) = None ->
     LocalStorage.items (LocalStorage.localStorage b) !! key = Some stored ->
     truthy stored = true ->
     JSON_parse stored = Ok v ->
     LocalStorage.readStored JSON_parse key (LocalStorage.Producer f) b = (Ok v, b)) /\
  (forall v : T,
     exists b' : LocalStorage.Browser,
       LocalStorage.writeStored JSON_stringify key v b = (Ok tt, b') /\
       LocalStorage.useLocalStorage_set JSON_stringify key v b = (Ok v, b') /\
       (LocalStorage.unwritable JSON_stringify b key v ->
        LocalStorage.localStorage b' = LocalStorage.localStorage b /\
        LocalStorage.console b'
        = (LocalStorage.console b ++ [LocalStorage.writeErrorLabel key])%list)).
Proof.
  split; [|split; [|split; [|split]]].
  - split.
    + destruct (readStored_returns JSON_parse key (LocalStorage.Value v0) v0 b eq_refl)
        as (v & b' & Hread & _).
      eauto.
    + now apply mount_returns with (d := v0).
  - intros Hf. split.
    + destruct (readStored_returns JSON_parse key (LocalStorage.Producer f) d b Hf)
        as (v & b' & Hread & _).
      eauto.
    + now apply mount_returns with (d := d).
  - intros Hbad. split.
    + destruct (readStored_default JSON_parse key (LocalStorage.Value v0) v0 b eq_refl Hbad)
        as (b' & Hread & Hcalls & _).
      exists b'. split; [exact Hread|]. simpl in Hcalls. lia.
    + intros Hf.
      destruct (readStored_default JSON_parse key (LocalStorage.Producer f) d b Hf Hbad)
        as (b' & Hread & Hcalls & _).
      exists b'. split; [exact Hread|]. simpl in Hcalls. lia.
  - intros stored v. apply readStored_stored.
  - intros v. destruct (writeStored_returns JSON_stringify key v b)
      as (b' & Hwrite & Hset & _ & Hfail).
    exists b'. auto.
Qed.

Lemma useLocalStorage_defaults_and_swallows_witness :
  ((exists b' : LocalStorage.Browser,
      LocalStorage.readStored parseTheme "robo-ai-transcription-sessions"
        (LocalStorage.Value "dark") browser0 = (Ok "dark", b') /\
      LocalStorage.producerCalls b' = LocalStorage.producerCalls browser0) /\
   (ambientTheme tt = Ok "light" ->
    exists b' : LocalStorage.Browser,
      LocalStorage.readStored parseTheme "robo-ai-transcription-sessions"
        (LocalStorage.Producer ambientTheme) browser0 = (Ok "light", b') /\
      LocalStorage.producerCalls b' = S (LocalStorage.producerCalls browser0))) /\
  ((exists (v : string) (b' : LocalStorage.Browser),
      LocalStorage.readStored parseTheme "robo-ai-transcription-sessions"
        (LocalStorage.Producer ambientTheme) browser0 = (Ok v, b')) /\
   (exists (v : string) (b' : LocalStorage.Browser),
      LocalStorage.useLocalStorage_mount parseTheme stringifyTheme
        "robo-ai-transcription-sessions" (LocalStorage.Producer ambientTheme) browser0
      = (Ok v, b'))) /\
  LocalStorage.readStored parseTheme "robo-ai-theme"
    (LocalStorage.Producer ambientTheme) browser0 = (Ok "dark", browser0) /\
  (exists b' : LocalStorage.Browser,
     LocalStorage.writeStored stringifyTheme "robo-ai-theme" "light" browser0 = (Ok tt, b') /\
     LocalStorage.localStorage b' = LocalStorage.localStorage browser0 /\
     LocalStorage.console b'
     = (LocalStorage.console browser0 ++ [LocalStorage.writeErrorLabel "robo-ai-theme"])%list).
Proof.
  split; [|split; [|split]].
  - apply (proj1 (proj2 (proj2 (useLocalStorage_defaults_and_swallows parseTheme
                                  stringifyTheme "robo-ai-transcription-sessions"
                                  browser0 "dark" "light" ambientTheme)))).
    vm_compute. eexists. reflexivity.
  - apply (proj1 (proj2 (useLocalStorage_defaults_and_swallows parseTheme stringifyTheme
                           "robo-ai-transcription-sessions" browser0 "dark" "light"
                           ambientTheme))).
    reflexivity.
  - apply (proj1 (proj2 (proj2 (proj2 (useLocalStorage_defaults_and_swallows parseTheme
                                         stringifyTheme "robo-ai-theme" browser0 "dark"
                                         "light" ambientTheme)))) "dark-quoted" "dark");
      reflexivity.
  - destruct (proj2 (proj2 (proj2 (proj2 (useLocalStorage_defaults_and_swallows parseTheme
                                            stringifyTheme "robo-ai-theme" browser0 "dark"
                                            "light" ambientTheme)))) "light")
      as (b' & Hwrite & _ & Hfail).
    exists b'. split; [exact Hwrite|]. apply Hfail. vm_compute. discriminate.
Defined.

(** C6 as stated fails for a default given as a producer that throws: on a
    store without the item the producer is called in the [try] and again in
    the [catch], and what it throws leaves the read. *)
Lemma useLocalStorage_throwing_producer_escapes :
  LocalStorage.items (LocalStorage.localStorage freshBrowser) !! "robo-ai-theme" = None /\
  fst (LocalStorage.readStored parseTheme "robo-ai-theme"
         (LocalStorage.Producer brokenMatchMedia) freshBrowser)
  = Throw (ErrorObj "window.matchMedia is not a function") /\
  LocalStorage.producerCalls
    (snd (LocalStorage.readStored parseTheme "robo-ai-theme"
            (LocalStorage.Producer brokenMatchMedia) freshBrowser))
  = 2 /\
  fst (LocalStorage.useLocalStorage_mount parseTheme stringifyTheme "robo-ai-theme"
         (LocalStorage.Producer brokenMatchMedia) freshBrowser)
  = Throw (ErrorObj "window.matchMedia is not a function").
Proof.
  assert (Hread : LocalStorage.readStored parseTheme "robo-ai-theme"
                    (LocalStorage.Producer brokenMatchMedia) freshBrowser
                  = (Throw (ErrorObj "window.matchMedia is not a function"),
                     {| LocalStorage.localStorage := LocalStorage.localStorage freshBrowser;
                        LocalStorage.console :=
                          (LocalStorage.console freshBrowser
                             ++ [LocalStorage.readErrorLabel "robo-ai-theme"])%list;
                        LocalStorage.producerCalls :=
                          S (S (LocalStorage.producerCalls freshBrowser)) |}))
    by (apply readStored_producer_throws; reflexivity).
  split; [reflexivity|]. rewrite Hread. split; [reflexivity|]. split; [reflexivity|].
  unfold LocalStorage.useLocalStorage_mount. simpl. now rewrite Hread.
Qed.

(** * Further properties of the session manager *)

Section SaveMore.
Variable env : Env.
Variable r : AppState.

(** The path of [handleSaveSession] that stores the session. *)
Lemma save_succeeds :
  trim (transcribedText r) <> EmptyString ->
  (trim (sessionName r) = EmptyString \/
   forall s, In s (savedSessions r) -> name s <> trim (sessionName r)) ->
  invoke (handleSaveSession env) r
  = (Ok tt,
     {| app :=
          {| isRecording := isRecording r; audioBlob := None;
             audioUrl := EmptyString; transcribedText := transcribedText r;
             isTranscribing := isTranscribing r;
             targetLanguage := targetLanguage r; sessionName := EmptyString;
             savedSessions := newSession env r (trim (sessionName r)) :: savedSessions r;
             editingSessionId := editingSessionId r;
             editingSessionName := editingSessionName r; metrics := metrics r;
             isAnalyzingMetrics := isAnalyzingMetrics r;
             showMetrics := showMetrics r; error := None;
             copySuccess := copySuccess r |};
        mediaRecorderRef := None; audioChunksRef := []; console := [];
        requests := [];
        revoked := if truthy (audioUrl r) then [audioUrl r] else [] |}).
Proof.
  intros Htext Hfree. unfold invoke, handleSaveSession.
  apply truthy_true in Htext. rewrite Htext.
  assert (Hguard : truthy (trim (sessionName r))
                   && existsb (fun session => String.eqb (name session) (trim (sessionName r)))
                        (savedSessions r) = false).
  { destruct Hfree as [Hempty | Hfree].
    - rewrite Hempty. reflexivity.
    - apply andb_false_iff. right.
      destruct (existsb _ _) eqn:Htaken; [|reflexivity].
      apply name_taken_spec in Htaken. destruct Htaken as (s & Hin & Heq).
      exfalso. exact (Hfree s Hin Heq). }
  rewrite Hguard. simpl.
  destruct (truthy (audioUrl r)) eqn:Hurl; simpl.
  - reflexivity.
  - apply truthy_false in Hurl. rewrite Hurl. reflexivity.
Qed.

(** The paths of [handleSaveSession] that refuse: only the message
    changes. *)
Lemma save_refused :
  error (after (handleSaveSession env) r) <> None ->
  invoke (handleSaveSession env) r
  = (Ok tt, world_of (Flows.withError (error (after (handleSaveSession env) r)) r)).
Proof.
  unfold after, invoke, handleSaveSession.
  destruct (truthy (trim (transcribedText r))); simpl; [|reflexivity].
  destruct (truthy (trim (sessionName r)) && existsb _ _); simpl; [reflexivity|].
  destruct (truthy (audioUrl r)); simpl; intros H; congruence.
Qed.

End SaveMore.

(** X1: once a save under a non-empty name has succeeded, a later save
    whose requested name trims to the same name is refused as a duplicate
    and leaves the collection alone, whatever else the user did to the
    transcript in between, as long as it is not blank. *)
Theorem save_again_same_name_refused (env : Env) (r1 r2 : AppState) :
  error (after (handleSaveSession env) r1) = None ->
  trim (sessionName r1) <> EmptyString ->
  savedSessions r2 = savedSessions (after (handleSaveSession env) r1) ->
  trim (sessionName r2) = trim (sessionName r1) ->
  trim (transcribedText r2) <> EmptyString ->
  error (after (handleSaveSession env) r2)
    = Some (duplicateNameMessage (trim (sessionName r1))) /\
  savedSessions (after (handleSaveSession env) r2) = savedSessions r2 /\
  length (savedSessions (after (handleSaveSession env) r2))
    = S (length (savedSessions r1)).
Proof.
  intros Hok Hname Hsaved Hsame Htext.
  destruct (save_success_inv env r1 Hok) as (_ & _ & Hnew).
  assert (Hin : In (newSession env r1 (trim (sessionName r1))) (savedSessions r2))
    by (rewrite Hsaved, Hnew; now left).
  assert (Heq : name (newSession env r1 (trim (sessionName r1))) = trim (sessionName r2)).
  { rewrite Hsame. unfold newSession; simpl.
    apply truthy_true in Hname. now rewrite Hname. }
  assert (Hname2 : trim (sessionName r2) <> EmptyString) by now rewrite Hsame.
  destruct (save_duplicate env r2 _ Htext Hname2 Hin Heq) as [Herr Hkept].
  rewrite Hsame in Herr. split; [exact Herr|]. split; [exact Hkept|].
  rewrite Hkept, Hsaved, Hnew. reflexivity.
Qed.

Lemma save_again_same_name_refused_witness :
  error (after (handleSaveSession online) (editing "again" "A " [
           {| id := "1700000000000"; name := "A"; text := "hello";
              date := "2023-11-14T22:13:20.000Z" |}]))
    = Some (duplicateNameMessage (trim (sessionName (editing "hello" " A" [])))) /\
  savedSessions (after (handleSaveSession online) (editing "again" "A " [
           {| id := "1700000000000"; name := "A"; text := "hello";
              date := "2023-11-14T22:13:20.000Z" |}]))
    = savedSessions (editing "again" "A " [
           {| id := "1700000000000"; name := "A"; text := "hello";
              date := "2023-11-14T22:13:20.000Z" |}]) /\
  length (savedSessions (after (handleSaveSession online) (editing "again" "A " [
           {| id := "1700000000000"; name := "A"; text := "hello";
              date := "2023-11-14T22:13:20.000Z" |}])))
    = S (length (savedSessions (editing "hello" " A" []))).
Proof.
  apply (save_again_same_name_refused online (editing "hello" " A" [])
           (editing "again" "A " [
              {| id := "1700000000000"; name := "A"; text := "hello";
                 date := "2023-11-14T22:13:20.000Z" |}])).
  - reflexivity.
  - vm_compute. discriminate.
  - reflexivity.
  - reflexivity.
  - vm_compute. discriminate.
Defined.

(** X2: a save under a name that is non-empty after trimming keeps the
    stored names pairwise distinct. *)
Theorem save_keeps_names_distinct (env : Env) (r : AppState) :
  trim (sessionName r) <> EmptyString ->
  NoDup (List.map name (savedSessions r)) ->
  NoDup (List.map name (savedSessions (after (handleSaveSession env) r))).
Proof.
  intros Hname Hnodup.
  destruct (error (after (handleSaveSession env) r)) as [message|] eqn:Herr.
  - assert (Hrefused : error (after (handleSaveSession env) r) <> None)
      by (rewrite Herr; discriminate).
    unfold after at 1. rewrite (save_refused env r Hrefused). simpl. exact Hnodup.
  - destruct (save_success_inv env r Herr) as (_ & Hfree & Hnew).
    rewrite Hnew. simpl. apply truthy_true in Hname as Htruthy. rewrite Htruthy.
    apply NoDup_cons_2; [|exact Hnodup].
    rewrite list_elem_of_In, in_map_iff. intros (s & Heq & Hin).
    exact (Hfree Hname s Hin Heq).
Qed.

Lemma save_keeps_names_distinct_witness :
  NoDup (List.map name
           (savedSessions (after (handleSaveSession online)
                             (editing "hello" "C" [sessionA; sessionB])))).
Proof.
  apply (save_keeps_names_distinct online (editing "hello" "C" [sessionA; sessionB])).
  - vm_compute. discriminate.
  - simpl. apply NoDup_cons_2; [|apply NoDup_singleton].
    rewrite list_elem_of_In. simpl. intros [H | []]. discriminate.
Defined.

(** X3: the synthesized name is not compared with the stored names: a save
    with an empty requested name succeeds even when a session already
    carries the name it synthesizes, and two sessions then share a name. *)
Theorem save_synthesized_name_unchecked (env : Env) (r : AppState) (s : Session) :
  trim (transcribedText r) <> EmptyString ->
  trim (sessionName r) = EmptyString ->
  In s (savedSessions r) ->
  name s = "Session " +:+ toLocaleString env ->
  error (after (handleSaveSession env) r) = None /\
  ~ NoDup (List.map name (savedSessions (after (handleSaveSession env) r))).
Proof.
  intros Htext Hempty Hin Hname.
  unfold after. rewrite (save_succeeds env r Htext (or_introl Hempty)). simpl.
  split; [reflexivity|]. rewrite Hempty. simpl.
  intros Hnodup. apply NoDup_cons_1_1 in Hnodup. apply Hnodup.
  rewrite list_elem_of_In, in_map_iff. exists s. split; [exact Hname | exact Hin].
Qed.

Lemma save_synthesized_name_unchecked_witness :
  error (after (handleSaveSession online)
           (editing "again" EmptyString
              [ {| id := "1699999999999"; name := "Session 11/14/2023, 10:13:20 PM";
                   text := "hello"; date := "2023-11-14T22:13:20.000Z" |} ])) = None /\
  ~ NoDup (List.map name
             (savedSessions (after (handleSaveSession online)
                (editing "again" EmptyString
                   [ {| id := "1699999999999"; name := "Session 11/14/2023, 10:13:20 PM";
                        text := "hello"; date := "2023-11-14T22:13:20.000Z" |} ])))).
Proof.
  apply (save_synthesized_name_unchecked online
           (editing "again" EmptyString
              [ {| id := "1699999999999"; name := "Session 11/14/2023, 10:13:20 PM";
                   text := "hello"; date := "2023-11-14T22:13:20.000Z" |} ])
           {| id := "1699999999999"; name := "Session 11/14/2023, 10:13:20 PM";
              text := "hello"; date := "2023-11-14T22:13:20.000Z" |}).
  - vm_compute. discriminate.
  - reflexivity.
  - now left.
  - reflexivity.
Defined.

Lemma rename_map_names_distinct (id0 n : string) (sessions : list Session) :
  NoDup (List.map id sessions) ->
  NoDup (List.map name sessions) ->
  (forall s, In s sessions -> id s <> id0 -> name s <> n) ->
  NoDup (List.map name
           (List.map (fun session =>
                        if String.eqb (id session) id0 then with_name session n
                        else session) sessions)).
Proof.
  induction sessions as [|s rest IH]; intros Hids Hnames Hfree;
    simpl in Hids, Hnames |- *.
  - apply NoDup_nil_2.
  - apply NoDup_cons in Hids. destruct Hids as [Hid_fresh Hids].
    apply NoDup_cons in Hnames. destruct Hnames as [Hname_fresh Hnames].
    assert (Hfree_rest : forall s', In s' rest -> id s' <> id0 -> name s' <> n)
      by (intros s' Hin; apply Hfree; now right).
    apply NoDup_cons_2; [|now apply IH].
    rewrite list_elem_of_In, in_map_iff. intros (s1 & Heq & Hin1).
    apply in_map_iff in Hin1. destruct Hin1 as (s' & Hs1 & Hin').
    subst s1.
    destruct (String.eqb_spec (id s) id0) as [Hs | Hs];
      destruct (String.eqb_spec (id s') id0) as [Hs' | Hs']; simpl in Heq.
    + apply Hid_fresh. rewrite list_elem_of_In, in_map_iff.
      exists s'. split; [congruence | exact Hin'].
    + exact (Hfree_rest s' Hin' Hs' Heq).
    + apply (Hfree s); [now left | exact Hs | congruence].
    + apply Hname_fresh. rewrite list_elem_of_In, in_map_iff.
      exists s'. split; [exact Heq | exact Hin'].
Qed.

(** X4: on a collection whose ids are pairwise distinct,
    [handleSaveSessionName] keeps the stored names pairwise distinct,
    whether it renames or refuses. *)
Theorem rename_keeps_names_distinct (r : AppState) (id0 : string) :
  NoDup (List.map id (savedSessions r)) ->
  NoDup (List.map name (savedSessions r)) ->
  NoDup (List.map name
           (savedSessions (after (fun r0 => handleSaveSessionName r0 id0) r))).
Proof.
  intros Hids Hnames.
  destruct (rename_cases r id0) as [(_ & Hsame & _) | (_ & Hmap & _ & Hfree)].
  - rewrite Hsame. exact Hnames.
  - rewrite Hmap. now apply rename_map_names_distinct.
Qed.

Lemma rename_keeps_names_distinct_witness :
  NoDup (List.map name
           (savedSessions (after (fun r0 => handleSaveSessionName r0 "1")
                             (renaming "1" " C " [sessionA; sessionB])))).
Proof.
  apply (rename_keeps_names_distinct (renaming "1" " C " [sessionA; sessionB]) "1").
  - simpl. apply NoDup_cons_2; [|apply NoDup_singleton].
    rewrite list_elem_of_In. simpl. intros [H | []]. discriminate.
  - simpl. apply NoDup_cons_2; [|apply NoDup_singleton].
    rewrite list_elem_of_In. simpl. intros [H | []]. discriminate.
Defined.

(** X5: renaming an id that no session has reports success, closes the
    editor and leaves the collection as it was, provided the new name is
    valid and free. *)
Theorem rename_absent_id_succeeds_unchanged (r : AppState) (id0 : string) :
  (forall s, In s (savedSessions r) -> id s <> id0) ->
  trim (editingSessionName r) <> EmptyString ->
  (forall s, In s (savedSessions r) -> name s <> trim (editingSessionName r)) ->
  error (after (fun r0 => handleSaveSessionName r0 id0) r) = None /\
  savedSessions (after (fun r0 => handleSaveSessionName r0 id0) r) = savedSessions r /\
  editingSessionId (after (fun r0 => handleSaveSessionName r0 id0) r) = None.
Proof.
  intros Habsent Hname Hfree.
  assert (Hguard : existsb
            (fun session =>
               negb (String.eqb (id session) id0)
               && String.eqb (name session) (trim (editingSessionName r)))
            (savedSessions r) = false).
  { apply name_taken_elsewhere_spec. intros s Hin _. now apply Hfree. }
  unfold after, invoke, handleSaveSessionName.
  apply truthy_true in Hname. rewrite Hname, Hguard. simpl.
  split; [reflexivity|]. split; [|reflexivity].
  clear Hguard Hfree. induction (savedSessions r) as [|s rest IH]; [reflexivity|].
  simpl. destruct (String.eqb_spec (id s) id0) as [Heq | Hne].
  - exfalso. apply (Habsent s); [now left | exact Heq].
  - f_equal. apply IH. intros s' Hin. apply Habsent. now right.
Qed.

Lemma rename_absent_id_succeeds_unchanged_witness :
  error (after (fun r0 => handleSaveSessionName r0 "9")
           (renaming "9" "C" [sessionA; sessionB])) = None /\
  savedSessions (after (fun r0 => handleSaveSessionName r0 "9")
                   (renaming "9" "C" [sessionA; sessionB])) = [sessionA; sessionB] /\
  editingSessionId (after (fun r0 => handleSaveSessionName r0 "9")
                      (renaming "9" "C" [sessionA; sessionB])) = None.
Proof.
  apply (rename_absent_id_succeeds_unchanged (renaming "9" "C" [sessionA; sessionB]) "9").
  - intros s [<- | [<- | []]]; vm_compute; discriminate.
  - vm_compute. discriminate.
  - intros s [<- | [<- | []]]; vm_compute; discriminate.
Defined.

(** X6: a refused save and a refused rename change nothing but the error
    message: the transcript, the requested name, the recording and the
    name being edited are all kept, and nothing is logged, sent or
    released. *)
Theorem refused_save_or_rename_changes_only_message (env : Env) (r : AppState)
    (id0 : string) :
  (error (after (handleSaveSession env) r) <> None ->
   invoke (handleSaveSession env) r
   = (Ok tt, world_of (Flows.withError (error (after (handleSaveSession env) r)) r))) /\
  (error (after (fun r0 => handleSaveSessionName r0 id0) r) <> None ->
   invoke (fun r0 => handleSaveSessionName r0 id0) r
   = (Ok tt,
      world_of (Flows.withError
                  (error (after (fun r0 => handleSaveSessionName r0 id0) r)) r))).
Proof.
  split; [apply save_refused|].
  unfold after, invoke, handleSaveSessionName.
  destruct (truthy (trim (editingSessionName r))); simpl; [|reflexivity].
  destruct (existsb _ _); simpl; [reflexivity|]. intros H. congruence.
Qed.

Lemma refused_save_or_rename_changes_only_message_witness :
  invoke (handleSaveSession online) (editing "hello" "A" [sessionA])
  = (Ok tt, world_of (Flows.withError (Some (duplicateNameMessage "A"))
                        (editing "hello" "A" [sessionA]))) /\
  invoke (fun r0 => handleSaveSessionName r0 "1") (renaming "1" "B" [sessionA; sessionB])
  = (Ok tt, world_of (Flows.withError (Some (duplicateNameMessage "B"))
                        (renaming "1" "B" [sessionA; sessionB]))).
Proof.
  split.
  - apply (proj1 (refused_save_or_rename_changes_only_message online
                    (editing "hello" "A" [sessionA]) "1")).
    vm_compute. discriminate.
  - apply (proj2 (refused_save_or_rename_changes_only_message online
                    (renaming "1" "B" [sessionA; sessionB]) "1")).
    vm_compute. discriminate.
Defined.

(** X7: a save that succeeds keeps the transcript and the metrics, empties
    the requested name, drops the recording, and releases the recording's
    object URL exactly when there was one; it sends nothing to the remote
    model. *)
Theorem save_success_clears_recording (env : Env) (r : AppState) :
  error (after (handleSaveSession env) r) = None ->
  transcribedText (after (handleSaveSession env) r) = transcribedText r /\
  metrics (after (handleSaveSession env) r) = metrics r /\
  sessionName (after (handleSaveSession env) r) = EmptyString /\
  audioBlob (after (handleSaveSession env) r) = None /\
  audioUrl (after (handleSaveSession env) r) = EmptyString /\
  revoked (snd (invoke (handleSaveSession env) r))
    = (if truthy (audioUrl r) then [audioUrl r] else []) /\
  sent (handleSaveSession env) r = [].
Proof.
  intros Hok. destruct (save_success_inv env r Hok) as (Htext & Hfree & _).
  assert (Hcase : trim (sessionName r) = EmptyString \/
                  forall s, In s (savedSessions r) -> name s <> trim (sessionName r)).
  { destruct (truthy (trim (sessionName r))) eqn:Hname.
    - right. apply Hfree. now apply truthy_true.
    - left. now apply truthy_false. }
  unfold after, sent. rewrite (save_succeeds env r Htext Hcase). simpl.
  repeat split.
Qed.

Lemma save_success_clears_recording_witness :
  transcribedText (after (handleSaveSession online) (app transcribed)) = "hello world" /\
  metrics (after (handleSaveSession online) (app transcribed)) = Some someMetrics /\
  sessionName (after (handleSaveSession online) (app transcribed)) = EmptyString /\
  audioBlob (after (handleSaveSession online) (app transcribed)) = None /\
  audioUrl (after (handleSaveSession online) (app transcribed)) = EmptyString /\
  revoked (snd (invoke (handleSaveSession online) (app transcribed))) = ["blob:recording"] /\
  sent (handleSaveSession online) (app transcribed) = [].
Proof.
  apply (save_success_clears_recording online (app transcribed)).
  reflexivity.
Defined.

(** X8: after [handleDeleteSession] no session has the id; deleting the
    same id again changes nothing; and two deletions give the same
    collection in either order. *)
Theorem delete_is_idempotent_and_commutes (r : AppState) (id1 id2 : string) :
  (forall s : Session,
     In s (savedSessions (after (fun _ => handleDeleteSession id1) r)) -> id s <> id1) /\
  savedSessions
    (after (Flows.andThen (fun _ => handleDeleteSession id1)
              (fun _ => handleDeleteSession id1)) r)
  = savedSessions (after (fun _ => handleDeleteSession id1) r) /\
  savedSessions
    (after (Flows.andThen (fun _ => handleDeleteSession id1)
              (fun _ => handleDeleteSession id2)) r)
  = savedSessions
      (after (Flows.andThen (fun _ => handleDeleteSession id2)
                (fun _ => handleDeleteSession id1)) r).
Proof.
  split; [|split].
  - intros s Hin. apply (delete_removes_exactly_matching r id1) in Hin. tauto.
  - unfold after, invoke, Flows.andThen, dispatch, handleDeleteSession. simpl.
    apply filter_nothing_to_remove. intros s Hin.
    apply filter_In in Hin. destruct Hin as [_ Hne].
    apply negb_true_iff in Hne. now apply String.eqb_neq.
  - unfold after, invoke, Flows.andThen, dispatch, handleDeleteSession. simpl.
    induction (savedSessions r) as [|s rest IH]; [reflexivity|].
    simpl. destruct (String.eqb (id s) id1) eqn:H1, (String.eqb (id s) id2) eqn:H2;
      simpl; rewrite ?H1, ?H2; simpl; rewrite IH; reflexivity.
Qed.

(** X9: when no stored session has the id that [Date.now()] gives, saving
    and then deleting that id gives back the collection as it was before
    the save, whether the save went through or was refused. *)
Theorem save_then_delete_restores (env : Env) (r : AppState) :
  (forall s : Session, In s (savedSessions r) -> id s <> Date_now env) ->
  savedSessions
    (after (Flows.andThen (handleSaveSession env)
              (fun _ => handleDeleteSession (Date_now env))) r)
  = savedSessions r.
Proof.
  intros Hfresh.
  unfold after, invoke, Flows.andThen, dispatch, handleDeleteSession, handleSaveSession.
  destruct (truthy (trim (transcribedText r))); simpl.
  - destruct (truthy (trim (sessionName r)) && existsb _ _); simpl.
    + now apply filter_nothing_to_remove.
    + destruct (truthy (audioUrl r)); simpl; rewrite String.eqb_refl; simpl;
        now apply filter_nothing_to_remove.
  - now apply filter_nothing_to_remove.
Qed.

Lemma save_then_delete_restores_witness :
  savedSessions
    (after (Flows.andThen (handleSaveSession online)
              (fun _ => handleDeleteSession (Date_now online)))
       (editing "hello" "C" [sessionA; sessionB]))
  = [sessionA; sessionB].
Proof.
  apply (save_then_delete_restores online (editing "hello" "C" [sessionA; sessionB])).
  intros s [<- | [<- | []]]; vm_compute; discriminate.
Defined.

(** X10: after a save that succeeded, loading the id of the new session
    brings back exactly the transcript that was saved and the name it was
    stored under, whatever the transcript and the requested name have
    become in between. *)
Theorem save_then_load_restores (env : Env) (r r2 : AppState) :
  error (after (handleSaveSession env) r) = None ->
  savedSessions r2 = savedSessions (after (handleSaveSession env) r) ->
  outcome (fun r0 => handleLoadSession env r0 (Date_now env)) r2 = Ok tt /\
  transcribedText (after (fun r0 => handleLoadSession env r0 (Date_now env)) r2)
    = transcribedText r /\
  sessionName (after (fun r0 => handleLoadSession env r0 (Date_now env)) r2)
    = (if truthy (trim (sessionName r)) then trim (sessionName r)
       else "Session " +:+ toLocaleString env) /\
  savedSessions (after (fun r0 => handleLoadSession env r0 (Date_now env)) r2)
    = savedSessions r2.
Proof.
  intros Hok Hsaved. destruct (save_success_inv env r Hok) as (_ & _ & Hnew).
  assert (Hfind : List.find (fun s => String.eqb (id s) (Date_now env)) (savedSessions r2)
                  = Some (newSession env r (trim (sessionName r)))).
  { rewrite Hsaved, Hnew. simpl. now rewrite String.eqb_refl. }
  destruct (load_present env r2 (Date_now env) _ Hfind)
    as (Hret & Hkept & Htext & Hname & _).
  split; [exact Hret|]. split; [exact Htext|]. split; [exact Hname|]. exact Hkept.
Qed.

Lemma save_then_load_restores_witness :
  outcome (fun r0 => handleLoadSession online r0 (Date_now online))
    (editing "something else" "other"
       (savedSessions (after (handleSaveSession online) (editing " hello " " C " [sessionA]))))
    = Ok tt /\
  transcribedText
    (after (fun r0 => handleLoadSession online r0 (Date_now online))
       (editing "something else" "other"
          (savedSessions (after (handleSaveSession online) (editing " hello " " C " [sessionA])))))
    = " hello " /\
  sessionName
    (after (fun r0 => handleLoadSession online r0 (Date_now online))
       (editing "something else" "other"
          (savedSessions (after (handleSaveSession online) (editing " hello " " C " [sessionA])))))
    = (if truthy (trim " C ") then trim " C " else "Session " +:+ toLocaleString online) /\
  savedSessions
    (after (fun r0 => handleLoadSession online r0 (Date_now online))
       (editing "something else" "other"
          (savedSessions (after (handleSaveSession online) (editing " hello " " C " [sessionA])))))
    = savedSessions (after (handleSaveSession online) (editing " hello " " C " [sessionA])).
Proof.
  apply (save_then_load_restores online (editing " hello " " C " [sessionA])
           (editing "something else" "other"
              (savedSessions (after (handleSaveSession online)
                                (editing " hello " " C " [sessionA]))))).
  - reflexivity.
  - reflexivity.
Defined.

(** X11: the Save Session button is disabled exactly when the handler
    would refuse with the no-text message: for the blank transcript the
    guard of the button and the guard of [handleSaveSession] agree. *)
Theorem save_button_guard_agrees_with_handler (env : Env) (r : AppState) :
  Flows.saveDisabled r = true <->
  error (after (handleSaveSession env) r) = Some noTextMessage.
Proof.
  unfold Flows.saveDisabled, after, invoke, handleSaveSession.
  destruct (truthy (trim (transcribedText r))); simpl.
  - split; [discriminate|].
    destruct (truthy (trim (sessionName r)) && existsb _ _); simpl.
    + discriminate.
    + destruct (truthy (audioUrl r)); simpl; discriminate.
  - split; reflexivity.
Qed.

(** * Further properties of the recorder *)

Lemma concat_empty_separator (piece : string) (pieces : list string) :
  String.concat EmptyString (piece :: pieces)
  = piece +:+ String.concat EmptyString pieces.
Proof.
  destruct pieces as [|next rest]; simpl; [|reflexivity].
  induction piece as [|c piece IH]; [reflexivity|].
  change (String c piece = String c (piece +:+ String.concat EmptyString [])).
  now f_equal.
Qed.

(** The chunk buffer after a run of [dataavailable] events: the chunks
    that are not empty are appended in order, and nothing else changes. *)
Lemma deliver_appends (chunks : list Blob) (w : World) :
  Flows.deliver chunks w
  = (Ok tt,
     {| app := app w; mediaRecorderRef := mediaRecorderRef w;
        audioChunksRef :=
          (audioChunksRef w
             ++ List.filter (fun chunk => Nat.ltb 0 (String.length (bytes chunk))) chunks)%list;
        console := console w; requests := requests w; revoked := revoked w |}).
Proof.
  revert w. induction chunks as [|chunk rest IH]; intros w; simpl.
  - rewrite app_nil_r. destruct w; reflexivity.
  - unfold ondataavailable.
    destruct (Nat.ltb 0 (String.length (bytes chunk))); simpl; rewrite IH; simpl.
    + rewrite <- app_assoc. reflexivity.
    + reflexivity.
Qed.

Lemma concat_skips_empty_chunks (chunks : list Blob) :
  String.concat EmptyString
    (List.map bytes
       (List.filter (fun chunk => Nat.ltb 0 (String.length (bytes chunk))) chunks))
  = String.concat EmptyString (List.map bytes chunks).
Proof.
  induction chunks as [|chunk rest IH]; [reflexivity|].
  cbn [List.filter].
  destruct (Nat.ltb 0 (String.length (bytes chunk))) eqn:Hlen; cbn [List.map].
  - rewrite !concat_empty_separator, IH. reflexivity.
  - rewrite concat_empty_separator.
    destruct (bytes chunk) as [|c tail]; [exact IH | discriminate Hlen].
Qed.

Lemma concat_with_buffer (buffer chunks : list Blob) :
  String.concat EmptyString
    (List.map bytes
       (buffer ++ List.filter (fun chunk => Nat.ltb 0 (String.length (bytes chunk))) chunks))
  = String.concat EmptyString (List.map bytes (buffer ++ chunks)).
Proof.
  induction buffer as [|held rest IH]; cbn [Datatypes.app List.map].
  - apply concat_skips_empty_chunks.
  - rewrite !concat_empty_separator. now rewrite IH.
Qed.

#[local] Arguments Flows.deliver : simpl never.

(** X12: one recording on a platform that grants the microphone, from the
    click on Record to the recorder's [stop] event, ends with a blob that
    holds the bytes of what was left in the chunk buffer followed by the
    bytes of the chunks in arrival order; its type is the recorder's MIME
    type (or [audio/webm] when the recorder reports none) as the [Blob]
    constructor takes it: in ASCII lower case, or empty when it holds a
    character outside U+0020..U+007E.  The URL of that blob is kept for
    playback, the recording flag is down and the chunk buffer is empty. *)
Theorem recording_yields_chunks_in_order (env : Env) (chunks : list Blob)
    (mime : string) (w : World) :
  getUserMedia env = Ok tt ->
  MediaRecorder_new env = Ok mime ->
  fst (Flows.recordOnce env chunks w) = Ok tt /\
  audioBlob (app (snd (Flows.recordOnce env chunks w)))
    = Some {| bytes :=
                String.concat EmptyString (List.map bytes (audioChunksRef w ++ chunks));
              type := blobType (if truthy mime then mime else "audio/webm") |} /\
  audioUrl (app (snd (Flows.recordOnce env chunks w)))
    = createObjectURL env
        {| bytes :=
             String.concat EmptyString (List.map bytes (audioChunksRef w ++ chunks));
           type := blobType (if truthy mime then mime else "audio/webm") |} /\
  isRecording (app (snd (Flows.recordOnce env chunks w))) = false /\
  audioChunksRef (snd (Flows.recordOnce env chunks w)) = [].
Proof.
  intros Hmic Hrec.
  unfold Flows.recordOnce, dispatch, handleStartRecording. simpl.
  destruct (truthy (audioUrl (app w))); simpl;
    rewrite Hmic; simpl; rewrite Hrec; simpl;
    rewrite deliver_appends; simpl;
    unfold handleStopRecording, onstop; simpl;
    rewrite concat_with_buffer;
    repeat split.
Qed.

Lemma recording_yields_chunks_in_order_witness :
  fst (Flows.recordOnce mixedCase [clip; emptyChunk; clip2] (world_of (app transcribed)))
    = Ok tt /\
  audioBlob (app (snd (Flows.recordOnce mixedCase [clip; emptyChunk; clip2]
                         (world_of (app transcribed)))))
    = Some {| bytes := "QUJDREVG"; type := "audio/webm;codecs=opus" |} /\
  audioUrl (app (snd (Flows.recordOnce mixedCase [clip; emptyChunk; clip2]
                        (world_of (app transcribed)))))
    = createObjectURL mixedCase {| bytes := "QUJDREVG"; type := "audio/webm;codecs=opus" |} /\
  isRecording (app (snd (Flows.recordOnce mixedCase [clip; emptyChunk; clip2]
                           (world_of (app transcribed))))) = false /\
  audioChunksRef (snd (Flows.recordOnce mixedCase [clip; emptyChunk; clip2]
                         (world_of (app transcribed)))) = [].
Proof.
  apply (recording_yields_chunks_in_order mixedCase [clip; emptyChunk; clip2]
           "Audio/WebM;codecs=Opus" (world_of (app transcribed))); reflexivity.
Defined.

(** X13: when the microphone is refused or the recorder cannot be created,
    [handleStartRecording] returns with the recording flag unchanged and the
    permission message shown; the transcript, the requested name, the
    metrics and the previous recording have been discarded all the same. *)
Theorem failed_start_still_discards (env : Env) (r : AppState) :
  (exists e, getUserMedia env = Throw e) \/
  (exists e, MediaRecorder_new env = Throw e) ->
  outcome (handleStartRecording env) r = Ok tt /\
  isRecording (after (handleStartRecording env) r) = isRecording r /\
  error (after (handleStartRecording env) r)
    = Some "Could not start recording. Please grant microphone permissions." /\
  transcribedText (after (handleStartRecording env) r) = EmptyString /\
  sessionName (after (handleStartRecording env) r) = EmptyString /\
  metrics (after (handleStartRecording env) r) = None /\
  audioBlob (after (handleStartRecording env) r) = None /\
  audioUrl (after (handleStartRecording env) r) = EmptyString /\
  savedSessions (after (handleStartRecording env) r) = savedSessions r.
Proof.
  intros Hfail. unfold outcome, after, invoke, handleStartRecording.
  destruct (truthy (audioUrl r)); simpl;
    destruct Hfail as [[e Hfail] | [e Hfail]]; rewrite Hfail; simpl;
    try (destruct (getUserMedia env) as [[]|e0]; simpl; try rewrite Hfail; simpl);
    repeat split.
Qed.

Lemma failed_start_still_discards_witness :
  outcome (handleStartRecording micDenied) (app transcribed) = Ok tt /\
  isRecording (after (handleStartRecording micDenied) (app transcribed)) = false /\
  error (after (handleStartRecording micDenied) (app transcribed))
    = Some "Could not start recording. Please grant microphone permissions." /\
  transcribedText (after (handleStartRecording micDenied) (app transcribed)) = EmptyString /\
  sessionName (after (handleStartRecording micDenied) (app transcribed)) = EmptyString /\
  metrics (after (handleStartRecording micDenied) (app transcribed)) = None /\
  audioBlob (after (handleStartRecording micDenied) (app transcribed)) = None /\
  audioUrl (after (handleStartRecording micDenied) (app transcribed)) = EmptyString /\
  savedSessions (after (handleStartRecording micDenied) (app transcribed)) = [].
Proof.
  apply (failed_start_still_discards micDenied (app transcribed)).
  left. eexists. reflexivity.
Defined.

(** X14: the playback URL is released exactly when it is dropped:
    [handleStartRecording] and a [handleLoadSession] that finds the session
    release the URL of the render, once, and clear it; a
    [handleLoadSession] that finds no session keeps the URL and releases
    nothing. *)
Theorem playback_url_released_when_dropped (env : Env) (r : AppState) (id0 : string) :
  audioUrl r <> EmptyString ->
  (revoked (snd (invoke (handleStartRecording env) r)) = [audioUrl r] /\
   audioUrl (after (handleStartRecording env) r) = EmptyString) /\
  ((exists s, In s (savedSessions r) /\ id s = id0) ->
   revoked (snd (invoke (fun r0 => handleLoadSession env r0 id0) r)) = [audioUrl r] /\
   audioUrl (after (fun r0 => handleLoadSession env r0 id0) r) = EmptyString) /\
  ((forall s, In s (savedSessions r) -> id s <> id0) ->
   revoked (snd (invoke (fun r0 => handleLoadSession env r0 id0) r)) = [] /\
   audioUrl (after (fun r0 => handleLoadSession env r0 id0) r) = audioUrl r).
Proof.
  intros Hurl. apply truthy_true in Hurl. split; [|split].
  - unfold after, invoke, handleStartRecording. rewrite Hurl. simpl.
    destruct (getUserMedia env) as [[]|e]; simpl;
      try destruct (MediaRecorder_new env) as [mime|e']; simpl; split; reflexivity.
  - intros (s & Hin & Hid).
    destruct (List.find (fun s0 => String.eqb (id s0) id0) (savedSessions r))
      as [s0|] eqn:Hfind.
    + unfold after, invoke, handleLoadSession. rewrite Hfind, Hurl. simpl.
      unfold runMetricsAnalysis, analyzeTextMetrics, ai_generateContent.
      destruct (truthy (trim (text s0))); simpl; [|split; reflexivity].
      destruct API_KEY_missing; simpl; [split; reflexivity|].
      destruct (generateContent env (analysisRequest (text s0)))
        as [response | [message | value]]; simpl; [|split; reflexivity|split; reflexivity].
      destruct (JSON_parse env (trim response)) as [parsed | [message | value]];
        simpl; split; reflexivity.
    + exfalso. apply (find_none _ _ Hfind) in Hin.
      apply String.eqb_neq in Hin. contradiction.
  - intros Habsent.
    assert (Hfind : List.find (fun s0 => String.eqb (id s0) id0) (savedSessions r) = None).
    { destruct (List.find _ _) as [s0|] eqn:Hfind; [|reflexivity].
      apply find_some in Hfind. destruct Hfind as [Hin Heq].
      apply String.eqb_eq in Heq. exfalso. exact (Habsent s0 Hin Heq). }
    unfold after. rewrite (load_absent env r id0 Hfind). simpl. split; reflexivity.
Qed.

Lemma playback_url_released_when_dropped_witness :
  (revoked (snd (invoke (handleStartRecording online) (app transcribed))) = ["blob:recording"] /\
   audioUrl (after (handleStartRecording online) (app transcribed)) = EmptyString) /\
  ((exists s, In s (savedSessions (app transcribed)) /\ id s = "1") ->
   revoked (snd (invoke (fun r0 => handleLoadSession online r0 "1") (app transcribed)))
     = ["blob:recording"] /\
   audioUrl (after (fun r0 => handleLoadSession online r0 "1") (app transcribed)) = EmptyString) /\
  ((forall s, In s (savedSessions (app transcribed)) -> id s <> "1") ->
   revoked (snd (invoke (fun r0 => handleLoadSession online r0 "1") (app transcribed))) = [] /\
   audioUrl (after (fun r0 => handleLoadSession online r0 "1") (app transcribed))
     = "blob:recording").
Proof.
  apply (playback_url_released_when_dropped online (app transcribed) "1").
  vm_compute. discriminate.
Defined.

(** * Further properties of the transcription pipeline *)

Section Pipeline.
Variable env : Env.

#[local] Arguments nth_error : simpl never.
#[local] Arguments transcriptionRequest : simpl never.
#[local] Arguments analysisRequest : simpl never.

(** [runMetricsAnalysis] leaves the recording and the two busy flags of
    recording and transcription alone. *)
Lemma runMetricsAnalysis_keeps_recording (text0 : string) (w : World) :
  audioBlob (app (snd (runMetricsAnalysis env text0 w))) = audioBlob (app w) /\
  audioUrl (app (snd (runMetricsAnalysis env text0 w))) = audioUrl (app w) /\
  isRecording (app (snd (runMetricsAnalysis env text0 w))) = isRecording (app w) /\
  isTranscribing (app (snd (runMetricsAnalysis env text0 w))) = isTranscribing (app w) /\
  revoked (snd (runMetricsAnalysis env text0 w)) = revoked w.
Proof.
  unfold runMetricsAnalysis, analyzeTextMetrics, ai_generateContent.
  destruct (truthy (trim text0)); simpl; [|tauto].
  destruct API_KEY_missing; simpl; [tauto|].
  destruct (generateContent env (analysisRequest text0)) as [response | [message | value]];
    simpl; [|tauto|tauto].
  destruct (JSON_parse env (trim response)) as [parsed | [message | value]];
    simpl; tauto.
Qed.

(** What [runMetricsAnalysis] does on a text that is not blank. *)
Lemma runMetricsAnalysis_outcomes (text0 : string) (w : World) :
  trim text0 <> EmptyString ->
  fst (runMetricsAnalysis env text0 w) = Ok tt /\
  isAnalyzingMetrics (app (snd (runMetricsAnalysis env text0 w))) = false /\
  ((exists (response : string) (parsed : WordMetrics),
      API_KEY_missing env = false /\
      generateContent env (analysisRequest text0) = Ok response /\
      JSON_parse env (trim response) = Ok parsed /\
      metrics (app (snd (runMetricsAnalysis env text0 w))) = Some parsed /\
      showMetrics (app (snd (runMetricsAnalysis env text0 w))) = true /\
      error (app (snd (runMetricsAnalysis env text0 w))) = error (app w))
   \/
   (metrics (app (snd (runMetricsAnalysis env text0 w))) = metrics (app w) /\
    showMetrics (app (snd (runMetricsAnalysis env text0 w))) = false /\
    error (app (snd (runMetricsAnalysis env text0 w))) = Some metricsFailedMessage /\
    (API_KEY_missing env = true \/
     (exists e, generateContent env (analysisRequest text0) = Throw e) \/
     (exists response e,
        generateContent env (analysisRequest text0) = Ok response /\
        JSON_parse env (trim response) = Throw e)))).
Proof.
  intros Htext. apply truthy_true in Htext.
  unfold runMetricsAnalysis, analyzeTextMetrics, ai_generateContent.
  rewrite Htext. simpl.
  destruct (API_KEY_missing env) eqn:Hkey; simpl.
  - split; [reflexivity|]. split; [reflexivity|]. right. tauto.
  - destruct (generateContent env (analysisRequest text0)) as [response | e] eqn:Hgen; simpl.
    + destruct (JSON_parse env (trim response)) as [parsed | e] eqn:Hparse; simpl.
      * split; [reflexivity|]. split; [reflexivity|]. left.
        exists response, parsed. tauto.
      * destruct e; simpl; (split; [reflexivity|]); (split; [reflexivity|]); right;
          (split; [reflexivity|]); (split; [reflexivity|]); (split; [reflexivity|]);
          right; right; eauto.
    + destruct e; simpl; (split; [reflexivity|]); (split; [reflexivity|]); right;
        (split; [reflexivity|]); (split; [reflexivity|]); (split; [reflexivity|]);
        right; left; eauto.
Qed.

(** The paths of [handleTranscribe] with a recording, one by one. *)
Lemma handleTranscribe_reader_fails (r : AppState) (blob : Blob) (e : exn) :
  audioBlob r = Some blob ->
  readAsDataURL env blob = Throw e ->
  invoke (handleTranscribe env) r
  = (Ok tt,
     {| app :=
          {| isRecording := isRecording r; audioBlob := audioBlob r;
             audioUrl := audioUrl r; transcribedText := EmptyString;
             isTranscribing := false; targetLanguage := targetLanguage r;
             sessionName := sessionName r; savedSessions := savedSessions r;
             editingSessionId := editingSessionId r;
             editingSessionName := editingSessionName r; metrics := None;
             isAnalyzingMetrics := isAnalyzingMetrics r; showMetrics := false;
             error := Some transcribeFailedMessage; copySuccess := EmptyString |};
        mediaRecorderRef := None; audioChunksRef := [];
        console := ["Transcription error:"]; requests := []; revoked := [] |}).
Proof.
  intros Hblob Hread. unfold invoke, handleTranscribe. rewrite Hblob.
  unfold handleTranscribe_begin, handleTranscribe_resume, blobToBase64. simpl.
  rewrite Hread. simpl. rewrite ?Hblob. reflexivity.
Qed.

Lemma handleTranscribe_no_key (r : AppState) (blob : Blob) (dataUrl : string) :
  audioBlob r = Some blob ->
  readAsDataURL env blob = Ok dataUrl ->
  API_KEY_missing env = true ->
  invoke (handleTranscribe env) r
  = (Ok tt,
     {| app :=
          {| isRecording := isRecording r; audioBlob := audioBlob r;
             audioUrl := audioUrl r; transcribedText := EmptyString;
             isTranscribing := false; targetLanguage := targetLanguage r;
             sessionName := sessionName r; savedSessions := savedSessions r;
             editingSessionId := editingSessionId r;
             editingSessionName := editingSessionName r; metrics := None;
             isAnalyzingMetrics := isAnalyzingMetrics r; showMetrics := false;
             error := Some transcribeFailedMessage; copySuccess := EmptyString |};
        mediaRecorderRef := None; audioChunksRef := [];
        console := ["Transcription error:"]; requests := []; revoked := [] |}).
Proof.
  intros Hblob Hread Hkey. unfold invoke, handleTranscribe. rewrite Hblob.
  unfold handleTranscribe_begin, handleTranscribe_resume, blobToBase64, transcribeAudio.
  rewrite Hkey. simpl. rewrite Hread. simpl. rewrite ?Hblob. reflexivity.
Qed.

Lemma handleTranscribe_keeps_recording (r : AppState) :
  outcome (handleTranscribe env) r = Ok tt /\
  audioBlob (after (handleTranscribe env) r) = audioBlob r /\
  audioUrl (after (handleTranscribe env) r) = audioUrl r /\
  savedSessions (after (handleTranscribe env) r) = savedSessions r /\
  sessionName (after (handleTranscribe env) r) = sessionName r /\
  revoked (snd (invoke (handleTranscribe env) r)) = [] /\
  (audioBlob r <> None -> isTranscribing (after (handleTranscribe env) r) = false).
Proof.
  destruct (audioBlob r) as [blob|] eqn:Hblob.
  - destruct (readAsDataURL env blob) as [dataUrl | e] eqn:Hread.
    + destruct (API_KEY_missing env) eqn:Hkey.
      * unfold outcome, after.
        rewrite (handleTranscribe_no_key r blob dataUrl Hblob Hread Hkey). simpl.
        rewrite Hblob. repeat split.
      * unfold outcome, after, invoke, handleTranscribe. rewrite Hblob.
        unfold handleTranscribe_begin, handleTranscribe_resume, blobToBase64,
          transcribeAudio, ai_generateContent.
        rewrite Hkey. simpl. rewrite Hread. simpl.
        destruct (generateContent env _) as [response | e]; simpl;
          match goal with
          | |- context [runMetricsAnalysis env ?t ?w] =>
              pose proof (runMetricsAnalysis_frame env t w) as Hframe;
              pose proof (runMetricsAnalysis_keeps_recording t w) as Hrec;
              destruct (runMetricsAnalysis env t w) as [res w']
          end;
          simpl in Hframe, Hrec;
          destruct Hframe as (-> & _ & Hsaved & _ & Hname & _);
          destruct Hrec as (Hb & Hu & _ & _ & Hrev);
          simpl; rewrite Hb, Hu, Hsaved, Hname, Hrev, ?Hblob; repeat split.
    + unfold outcome, after.
      rewrite (handleTranscribe_reader_fails r blob e Hblob Hread). simpl.
      rewrite Hblob. repeat split.
  - unfold outcome, after, invoke, handleTranscribe. rewrite Hblob. simpl.
    rewrite Hblob. repeat split. intros H; contradiction.
Qed.

End Pipeline.

(** X15: whatever the platform and the remote model do, [handleTranscribe]
    returns; it keeps the recording, its URL, the sessions and the
    requested name and releases nothing; and when there was a recording the
    transcribing flag is down at the end. *)
Theorem transcribe_always_returns_and_resets (env : Env) (r : AppState) :
  outcome (handleTranscribe env) r = Ok tt /\
  audioBlob (after (handleTranscribe env) r) = audioBlob r /\
  audioUrl (after (handleTranscribe env) r) = audioUrl r /\
  savedSessions (after (handleTranscribe env) r) = savedSessions r /\
  sessionName (after (handleTranscribe env) r) = sessionName r /\
  revoked (snd (invoke (handleTranscribe env) r)) = [] /\
  (audioBlob r <> None -> isTranscribing (after (handleTranscribe env) r) = false).
Proof. apply handleTranscribe_keeps_recording. Qed.

Lemma transcribe_always_returns_and_resets_witness :
  isTranscribing (after (handleTranscribe offline) inFlight) = false.
Proof.
  apply (proj2 (proj2 (proj2 (proj2 (proj2 (proj2
           (transcribe_always_returns_and_resets offline inFlight))))))).
  vm_compute. discriminate.
Defined.

(** X16: when the recording cannot be read or no API key is set,
    [handleTranscribe] sends nothing to the remote model, leaves the
    transcript empty and the metrics cleared, lowers the transcribing flag
    and shows the generic transcription failure message. *)
Theorem transcribe_local_failure_shows_message (env : Env) (r : AppState) (blob : Blob) :
  audioBlob r = Some blob ->
  API_KEY_missing env = true \/ (exists e, readAsDataURL env blob = Throw e) ->
  outcome (handleTranscribe env) r = Ok tt /\
  sent (handleTranscribe env) r = [] /\
  transcribedText (after (handleTranscribe env) r) = EmptyString /\
  metrics (after (handleTranscribe env) r) = None /\
  isTranscribing (after (handleTranscribe env) r) = false /\
  error (after (handleTranscribe env) r) = Some transcribeFailedMessage.
Proof.
  intros Hblob Hfail.
  destruct (readAsDataURL env blob) as [dataUrl | e] eqn:Hread.
  - destruct Hfail as [Hkey | [e He]]; [|discriminate].
    unfold outcome, sent, after.
    rewrite (handleTranscribe_no_key env r blob dataUrl Hblob Hread Hkey).
    repeat split.
  - unfold outcome, sent, after.
    rewrite (handleTranscribe_reader_fails env r blob e Hblob Hread).
    repeat split.
Qed.

Lemma transcribe_local_failure_shows_message_witness :
  outcome (handleTranscribe noKey) (app recorded) = Ok tt /\
  sent (handleTranscribe noKey) (app recorded) = [] /\
  transcribedText (after (handleTranscribe noKey) (app recorded)) = EmptyString /\
  metrics (after (handleTranscribe noKey) (app recorded)) = None /\
  isTranscribing (after (handleTranscribe noKey) (app recorded)) = false /\
  error (after (handleTranscribe noKey) (app recorded)) = Some transcribeFailedMessage.
Proof.
  apply (transcribe_local_failure_shows_message noKey (app recorded) clip).
  - reflexivity.
  - left. reflexivity.
Defined.

(** X17: [transcribeAudio] rejects only when no API key is set, and then
    before anything is sent; with a key it sends exactly one request and
    resolves whatever the remote model does, to the model's text or to the
    failure text. *)
Theorem transcribeAudio_rejects_only_without_key (env : Env)
    (base64Audio : option string) (mimeType language : string) (w : World) :
  (API_KEY_missing env = true ->
   transcribeAudio env base64Audio mimeType language w
   = (Throw (ErrorObj "API_KEY environment variable not set"), w)) /\
  (API_KEY_missing env = false ->
   fst (transcribeAudio env base64Audio mimeType language w)
   = Ok (match generateContent env (transcriptionRequest base64Audio mimeType language) with
         | Ok response => response
         | Throw e => transcriptionFailureText e
         end) /\
   requests (snd (transcribeAudio env base64Audio mimeType language w))
   = (requests w ++ [transcriptionRequest base64Audio mimeType language])%list /\
   app (snd (transcribeAudio env base64Audio mimeType language w)) = app w).
Proof.
  unfold transcribeAudio, ai_generateContent. split; intros Hkey; rewrite Hkey.
  - reflexivity.
  - simpl.
    destruct (generateContent env (transcriptionRequest base64Audio mimeType language))
      as [response | e]; simpl; repeat split.
Qed.

Lemma transcribeAudio_rejects_only_without_key_witness :
  transcribeAudio noKey (Some "QUJD") "audio/webm" "English" recorded
  = (Throw (ErrorObj "API_KEY environment variable not set"), recorded) /\
  (fst (transcribeAudio offline (Some "QUJD") "audio/webm" "English" recorded)
   = Ok (match generateContent offline
                 (transcriptionRequest (Some "QUJD") "audio/webm" "English") with
         | Ok response => response
         | Throw e => transcriptionFailureText e
         end) /\
   requests (snd (transcribeAudio offline (Some "QUJD") "audio/webm" "English" recorded))
   = (requests recorded ++ [transcriptionRequest (Some "QUJD") "audio/webm" "English"])%list /\
   app (snd (transcribeAudio offline (Some "QUJD") "audio/webm" "English" recorded))
   = app recorded).
Proof.
  split.
  - apply (proj1 (transcribeAudio_rejects_only_without_key noKey (Some "QUJD")
                    "audio/webm" "English" recorded)).
    reflexivity.
  - apply (proj2 (transcribeAudio_rejects_only_without_key offline (Some "QUJD")
                    "audio/webm" "English" recorded)).
    reflexivity.
Defined.

(** X18: whatever [analyzeTextMetrics] throws is an [Error]; it resolves
    only to what [JSON.parse] makes of the trimmed answer of the remote
    model; without an API key it sends nothing; and it never touches the
    state of the component. *)
Theorem analyzeTextMetrics_throws_errors_only (env : Env) (text0 : string) (w : World) :
  (forall e : exn,
     fst (analyzeTextMetrics env text0 w) = Throw e -> exists message, e = ErrorObj message) /\
  (forall parsed : WordMetrics,
     fst (analyzeTextMetrics env text0 w) = Ok parsed ->
     API_KEY_missing env = false /\
     exists response,
       generateContent env (analysisRequest text0) = Ok response /\
       JSON_parse env (trim response) = Ok parsed) /\
  (API_KEY_missing env = true ->
   requests (snd (analyzeTextMetrics env text0 w)) = requests w) /\
  app (snd (analyzeTextMetrics env text0 w)) = app w.
Proof.
  unfold analyzeTextMetrics, ai_generateContent.
  destruct (API_KEY_missing env) eqn:Hkey; simpl.
  - split; [|split; [|split]]; try reflexivity.
    + intros e He. injection He as <-. eauto.
    + intros parsed He. discriminate.
  - destruct (generateContent env (analysisRequest text0)) as [response | e0] eqn:Hgen; simpl.
    + destruct (JSON_parse env (trim response)) as [parsed0 | e0] eqn:Hparse; simpl.
      * split; [|split; [|split]]; try reflexivity; try discriminate.
        intros parsed He. injection He as <-. eauto.
      * destruct e0; simpl; (split; [|split; [|split]]); try reflexivity;
          try discriminate; intros e He; injection He as <-; eauto.
    + destruct e0; simpl; (split; [|split; [|split]]); try reflexivity;
        try discriminate; intros e He; injection He as <-; eauto.
Qed.

(** X19: on a text that is not blank, [runMetricsAnalysis] returns with
    the analyzing flag down, and either the analysis succeeded, and its
    result is the metrics shown, or it failed (no API key, a rejected call,
    an answer that does not parse), and then the metrics panel is hidden,
    the metrics held before are kept, and the analysis message is shown. *)
Theorem metrics_shown_or_failure_reported (env : Env) (text0 : string) (w : World) :
  trim text0 <> EmptyString ->
  fst (runMetricsAnalysis env text0 w) = Ok tt /\
  isAnalyzingMetrics (app (snd (runMetricsAnalysis env text0 w))) = false /\
  ((exists (response : string) (parsed : WordMetrics),
      API_KEY_missing env = false /\
      generateContent env (analysisRequest text0) = Ok response /\
      JSON_parse env (trim response) = Ok parsed /\
      metrics (app (snd (runMetricsAnalysis env text0 w))) = Some parsed /\
      showMetrics (app (snd (runMetricsAnalysis env text0 w))) = true /\
      error (app (snd (runMetricsAnalysis env text0 w))) = error (app w))
   \/
   (metrics (app (snd (runMetricsAnalysis env text0 w))) = metrics (app w) /\
    showMetrics (app (snd (runMetricsAnalysis env text0 w))) = false /\
    error (app (snd (runMetricsAnalysis env text0 w))) = Some metricsFailedMessage /\
    (API_KEY_missing env = true \/
     (exists e, generateContent env (analysisRequest text0) = Throw e) \/
     (exists response e,
        generateContent env (analysisRequest text0) = Ok response /\
        JSON_parse env (trim response) = Throw e)))).
Proof. apply runMetricsAnalysis_outcomes. Qed.

Lemma metrics_shown_or_failure_reported_witness :
  fst (runMetricsAnalysis badJson "hello" transcribed) = Ok tt /\
  isAnalyzingMetrics (app (snd (runMetricsAnalysis badJson "hello" transcribed))) = false /\
  ((exists (response : string) (parsed : WordMetrics),
      API_KEY_missing badJson = false /\
      generateContent badJson (analysisRequest "hello") = Ok response /\
      JSON_parse badJson (trim response) = Ok parsed /\
      metrics (app (snd (runMetricsAnalysis badJson "hello" transcribed))) = Some parsed /\
      showMetrics (app (snd (runMetricsAnalysis badJson "hello" transcribed))) = true /\
      error (app (snd (runMetricsAnalysis badJson "hello" transcribed)))
        = error (app transcribed))
   \/
   (metrics (app (snd (runMetricsAnalysis badJson "hello" transcribed)))
      = metrics (app transcribed) /\
    showMetrics (app (snd (runMetricsAnalysis badJson "hello" transcribed))) = false /\
    error (app (snd (runMetricsAnalysis badJson "hello" transcribed)))
      = Some metricsFailedMessage /\
    (API_KEY_missing badJson = true \/
     (exists e, generateContent badJson (analysisRequest "hello") = Throw e) \/
     (exists response e,
        generateContent badJson (analysisRequest "hello") = Ok response /\
        JSON_parse badJson (trim response) = Throw e)))).
Proof.
  apply (metrics_shown_or_failure_reported badJson "hello" transcribed).
  vm_compute. discriminate.
Defined.

#[local] Arguments nth_error : simpl never.
#[local] Arguments transcriptionRequest : simpl never.
#[local] Arguments analysisRequest : simpl never.

(** X20: when the recording is read, an API key is set, the remote model
    answers the transcription with a text that is not blank and the
    analysis with a text that parses, [handleTranscribe] ends with that
    text as the transcript, the parsed metrics shown, no error message,
    the transcribing and analyzing flags down, and exactly two requests
    sent: the transcription, then the analysis of the transcript. *)
Theorem transcribe_success_end_to_end (env : Env) (r : AppState) (blob : Blob)
    (dataUrl transcript response : string) (parsed : WordMetrics) :
  audioBlob r = Some blob ->
  API_KEY_missing env = false ->
  readAsDataURL env blob = Ok dataUrl ->
  generateContent env
    (transcriptionRequest (nth_error (split_comma dataUrl) 1)
       (type blob) (targetLanguage r)) = Ok transcript ->
  trim transcript <> EmptyString ->
  generateContent env (analysisRequest transcript) = Ok response ->
  JSON_parse env (trim response) = Ok parsed ->
  outcome (handleTranscribe env) r = Ok tt /\
  transcribedText (after (handleTranscribe env) r) = transcript /\
  metrics (after (handleTranscribe env) r) = Some parsed /\
  showMetrics (after (handleTranscribe env) r) = true /\
  error (after (handleTranscribe env) r) = None /\
  isTranscribing (after (handleTranscribe env) r) = false /\
  isAnalyzingMetrics (after (handleTranscribe env) r) = false /\
  sent (handleTranscribe env) r
  = [transcriptionRequest (nth_error (split_comma dataUrl) 1)
       (type blob) (targetLanguage r);
     analysisRequest transcript].
Proof.
  intros Hblob Hkey Hread Hgen Htext Hana Hparse.
  unfold outcome, after, sent, invoke, handleTranscribe. rewrite Hblob.
  unfold handleTranscribe_begin, handleTranscribe_resume, blobToBase64,
    transcribeAudio, ai_generateContent.
  rewrite Hkey. simpl. rewrite Hread. simpl. rewrite Hgen. simpl.
  unfold runMetricsAnalysis, analyzeTextMetrics, ai_generateContent.
  apply truthy_true in Htext. rewrite Htext, Hkey. simpl.
  rewrite Hana. simpl. rewrite Hparse. simpl. repeat split.
Qed.

Lemma transcribe_success_end_to_end_witness :
  outcome (handleTranscribe online) (app recorded) = Ok tt /\
  transcribedText (after (handleTranscribe online) (app recorded)) = "hello world" /\
  metrics (after (handleTranscribe online) (app recorded)) = Some someMetrics /\
  showMetrics (after (handleTranscribe online) (app recorded)) = true /\
  error (after (handleTranscribe online) (app recorded)) = None /\
  isTranscribing (after (handleTranscribe online) (app recorded)) = false /\
  isAnalyzingMetrics (after (handleTranscribe online) (app recorded)) = false /\
  sent (handleTranscribe online) (app recorded)
  = [transcriptionRequest (nth_error (split_comma "data:audio/webm;base64,QUJD") 1)
       (type clip) (targetLanguage (app recorded));
     analysisRequest "hello world"].
Proof.
  apply (transcribe_success_end_to_end online (app recorded) clip
           "data:audio/webm;base64,QUJD" "hello world" "{...}" someMetrics);
    try reflexivity.
  vm_compute. discriminate.
Defined.

(** X21: when the remote model answers the transcription with a blank
    text, [handleTranscribe] shows that text without any error message,
    sends no analysis request, shows no metrics, and the Save Session
    button is disabled in the render that follows. *)
Theorem transcribe_blank_answer_is_silent (env : Env) (r : AppState) (blob : Blob)
    (dataUrl transcript : string) :
  audioBlob r = Some blob ->
  API_KEY_missing env = false ->
  readAsDataURL env blob = Ok dataUrl ->
  generateContent env
    (transcriptionRequest (nth_error (split_comma dataUrl) 1)
       (type blob) (targetLanguage r)) = Ok transcript ->
  trim transcript = EmptyString ->
  transcribedText (after (handleTranscribe env) r) = transcript /\
  error (after (handleTranscribe env) r) = None /\
  metrics (after (handleTranscribe env) r) = None /\
  showMetrics (after (handleTranscribe env) r) = false /\
  sent (handleTranscribe env) r
  = [transcriptionRequest (nth_error (split_comma dataUrl) 1)
       (type blob) (targetLanguage r)] /\
  Flows.saveDisabled (after (handleTranscribe env) r) = true.
Proof.
  intros Hblob Hkey Hread Hgen Hblank.
  unfold Flows.saveDisabled, after, sent, invoke, handleTranscribe. rewrite Hblob.
  unfold handleTranscribe_begin, handleTranscribe_resume, blobToBase64,
    transcribeAudio, ai_generateContent.
  rewrite Hkey. simpl. rewrite Hread. simpl. rewrite Hgen. simpl.
  unfold runMetricsAnalysis. rewrite Hblank. simpl. rewrite Hblank. repeat split.
Qed.

Lemma transcribe_blank_answer_is_silent_witness :
  transcribedText (after (handleTranscribe silence) (app recorded)) = "  " /\
  error (after (handleTranscribe silence) (app recorded)) = None /\
  metrics (after (handleTranscribe silence) (app recorded)) = None /\
  showMetrics (after (handleTranscribe silence) (app recorded)) = false /\
  sent (handleTranscribe silence) (app recorded)
  = [transcriptionRequest (nth_error (split_comma "data:audio/webm;base64,QUJD") 1)
       (type clip) (targetLanguage (app recorded))] /\
  Flows.saveDisabled (after (handleTranscribe silence) (app recorded)) = true.
Proof.
  apply (transcribe_blank_answer_is_silent silence (app recorded) clip
           "data:audio/webm;base64,QUJD" "  "); reflexivity.
Defined.

(** * Further properties of the store, the theme and the display *)

Section StoreMore.
Import LocalStorage.
Context {T : Type}.
Variable JSON_parse : string -> result T.
Variable JSON_stringify : T -> result string.
Variable key : string.

Lemma writeStored_stores (v : T) (encoded : string) (b : Browser) :
  JSON_stringify v = Ok encoded ->
  setItem_raises (localStorage b) key encoded = None ->
  writeStored JSON_stringify key v b
  = (Ok tt,
     {| localStorage :=
          {| items := <[key := encoded]> (items (localStorage b));
             getItem_raises := getItem_raises (localStorage b);
             setItem_raises := setItem_raises (localStorage b) |};
        console := console b;
        producerCalls := producerCalls b |}).
Proof.
  intros Henc Hset. unfold writeStored, setItem, try_catch, bind.
  rewrite Henc. simpl. rewrite Hset. reflexivity.
Qed.

End StoreMore.

(** X22: a value that serializes and is accepted by the store is read back
    by the next initialisation of the hook, without the default being
    produced or anything being logged, provided [JSON.parse] undoes
    [JSON.stringify] on it; and the write changes no other key. *)
Theorem stored_value_is_read_back {T : Type}
    (JSON_parse : string -> result T) (JSON_stringify : T -> result string)
    (key : string) (v : T) (encoded : string) (b : LocalStorage.Browser)
    (initialValue : LocalStorage.InitialValue) :
  JSON_stringify v = Ok encoded ->
  JSON_parse encoded = Ok v ->
  truthy encoded = true ->
  LocalStorage.getItem_raises (LocalStorage.localStorage b) = None ->
  LocalStorage.setItem_raises (LocalStorage.localStorage b) key encoded = None ->
  LocalStorage.readStored JSON_parse key initialValue
    (snd (LocalStorage.writeStored JSON_stringify key v b))
  = (Ok v, snd (LocalStorage.writeStored JSON_stringify key v b)) /\
  LocalStorage.producerCalls (snd (LocalStorage.writeStored JSON_stringify key v b))
  = LocalStorage.producerCalls b /\
  LocalStorage.console (snd (LocalStorage.writeStored JSON_stringify key v b))
  = LocalStorage.console b /\
  (forall other : string,
     other <> key ->
     LocalStorage.items
       (LocalStorage.localStorage (snd (LocalStorage.writeStored JSON_stringify key v b)))
       !! other
     = LocalStorage.items (LocalStorage.localStorage b) !! other).
Proof.
  intros Henc Hdec Htruthy Hget Hset.
  rewrite (writeStored_stores JSON_stringify key v encoded b Henc Hset). simpl.
  split; [|split; [reflexivity|split; [reflexivity|]]].
  - apply readStored_stored with (stored := encoded); simpl; auto.
    apply lookup_insert_eq.
  - intros other Hne. apply lookup_insert_ne. congruence.
Qed.

Lemma stored_value_is_read_back_witness :
  LocalStorage.readStored parseTheme "robo-ai-theme"
    (LocalStorage.Producer ambientTheme)
    (snd (LocalStorage.writeStored stringifyTheme "robo-ai-theme" "dark" freshBrowser))
  = (Ok "dark", snd (LocalStorage.writeStored stringifyTheme "robo-ai-theme" "dark" freshBrowser)) /\
  LocalStorage.producerCalls
    (snd (LocalStorage.writeStored stringifyTheme "robo-ai-theme" "dark" freshBrowser))
  = LocalStorage.producerCalls freshBrowser /\
  LocalStorage.console
    (snd (LocalStorage.writeStored stringifyTheme "robo-ai-theme" "dark" freshBrowser))
  = LocalStorage.console freshBrowser /\
  (forall other : string,
     other <> "robo-ai-theme" ->
     LocalStorage.items
       (LocalStorage.localStorage
          (snd (LocalStorage.writeStored stringifyTheme "robo-ai-theme" "dark" freshBrowser)))
       !! other
     = LocalStorage.items (LocalStorage.localStorage freshBrowser) !! other).
Proof.
  apply (stored_value_is_read_back parseTheme stringifyTheme "robo-ai-theme" "dark"
           "dark-quoted" freshBrowser (LocalStorage.Producer ambientTheme));
    reflexivity.
Defined.

(** X23: the first render writes through: whenever the value the hook
    starts with serializes and the store accepts it, the store holds that
    serialization under the key once the hook is mounted, also when the
    value is the default of a key that was missing. *)
Theorem mount_writes_value_through {T : Type}
    (JSON_parse : string -> result T) (JSON_stringify : T -> result string)
    (key : string) (initialValue : LocalStorage.InitialValue)
    (b : LocalStorage.Browser) (v : T) (encoded : string) :
  fst (LocalStorage.readStored JSON_parse key initialValue b) = Ok v ->
  JSON_stringify v = Ok encoded ->
  (forall stored, LocalStorage.setItem_raises (LocalStorage.localStorage b) key stored = None) ->
  fst (LocalStorage.useLocalStorage_mount JSON_parse JSON_stringify key initialValue b) = Ok v /\
  LocalStorage.items
    (LocalStorage.localStorage
       (snd (LocalStorage.useLocalStorage_mount JSON_parse JSON_stringify key initialValue b)))
    !! key
  = Some encoded.
Proof.
  intros Hread Henc Hset.
  pose proof (readStored_keeps_store JSON_parse key initialValue b) as Hstore.
  destruct (LocalStorage.readStored JSON_parse key initialValue b) as [res b1] eqn:Hrun.
  simpl in Hread, Hstore. subst res.
  assert (Hset1 : LocalStorage.setItem_raises (LocalStorage.localStorage b1) key encoded = None)
    by (rewrite Hstore; apply Hset).
  unfold LocalStorage.useLocalStorage_mount. simpl. rewrite Hrun.
  rewrite (writeStored_stores JSON_stringify key v encoded b1 Henc Hset1). simpl.
  split; [reflexivity | apply lookup_insert_eq].
Qed.

Lemma mount_writes_value_through_witness :
  fst (LocalStorage.useLocalStorage_mount parseTheme stringifyTheme "robo-ai-theme"
         (LocalStorage.Producer ambientTheme) freshBrowser) = Ok "light" /\
  LocalStorage.items
    (LocalStorage.localStorage
       (snd (LocalStorage.useLocalStorage_mount parseTheme stringifyTheme "robo-ai-theme"
               (LocalStorage.Producer ambientTheme) freshBrowser)))
    !! "robo-ai-theme"
  = Some "light-quoted".
Proof.
  apply (mount_writes_value_through parseTheme stringifyTheme "robo-ai-theme"
           (LocalStorage.Producer ambientTheme) freshBrowser "light" "light-quoted");
    reflexivity.
Defined.

(** X24: [toggleTheme] always lands on one of the two themes, and it gives
    back the theme it started from after two toggles exactly when that
    theme was one of the two; the theme effect leaves the [dark] class on
    the document exactly for the dark theme and touches no other class. *)
Theorem theme_toggle_and_class (theme : string) (classList : gset string) :
  (Display.toggleTheme theme = "light" \/ Display.toggleTheme theme = "dark") /\
  (Display.toggleTheme (Display.toggleTheme theme) = theme <->
   theme = "light" \/ theme = "dark") /\
  ("dark" ∈ Display.applyTheme theme classList <-> theme = "dark") /\
  (forall class : string,
     class <> "dark" ->
     (class ∈ Display.applyTheme theme classList <-> class ∈ classList)).
Proof.
  unfold Display.toggleTheme, Display.applyTheme.
  split; [|split; [|split]].
  - destruct (String.eqb theme "light"); auto.
  - destruct (String.eqb_spec theme "light") as [-> | Hlight]; simpl.
    + split; auto.
    + split.
      * intros <-. now right.
      * intros [-> | ->]; [contradiction | reflexivity].
  - destruct (String.eqb_spec theme "dark") as [-> | Hdark].
    + split; [reflexivity | intros _].
      apply elem_of_union. right. now apply elem_of_singleton.
    + rewrite elem_of_difference, elem_of_singleton. split; [|contradiction].
      intros [_ Hnot]. now contradiction Hnot.
  - intros class Hclass. destruct (String.eqb theme "dark").
    + rewrite elem_of_union, elem_of_singleton. tauto.
    + rewrite elem_of_difference, elem_of_singleton. tauto.
Qed.

(** X25: the pie of the metrics panel holds only the part-of-speech counts
    that are positive; it is rendered exactly when one of the four counts
    is positive; and its cells get a colour each, all of them defined and
    no two the same. *)
Theorem pie_slices_positive_and_coloured (m : WordMetrics) :
  (forall slice : Display.Slice,
     In slice (Display.posData m) -> (0 < Display.value slice)%Z) /\
  (Display.pieShown m = true <->
   (0 < verbCount m \/ 0 < nounCount m \/ 0 < adjectiveCount m \/ 0 < conjunctionCount m)%Z) /\
  length (Display.cellFills m) = length (Display.posData m) /\
  (forall fill : option string, In fill (Display.cellFills m) -> fill <> None) /\
  NoDup (Display.cellFills m).
Proof.
  split.
  { intros slice Hin. unfold Display.posData in Hin.
    apply filter_In in Hin. destruct Hin as [_ Hpos]. now apply Z.ltb_lt. }
  unfold Display.pieShown, Display.cellFills, Display.posData. simpl.
  destruct (Z.ltb_spec 0 (verbCount m)), (Z.ltb_spec 0 (nounCount m)),
    (Z.ltb_spec 0 (adjectiveCount m)), (Z.ltb_spec 0 (conjunctionCount m));
    simpl;
    (split; [split; [intros Hshown; first [discriminate Hshown | lia]
                    | intros Hsome; first [reflexivity | lia]]|]);
    (split; [reflexivity|]);
    (split; [intros fill Hin; simpl in Hin; intuition (subst; discriminate)|]);
    repeat (apply NoDup_cons_2;
            [rewrite ?elem_of_cons, elem_of_nil; intuition discriminate|]);
    apply NoDup_nil_2.
Qed.

(** * Further properties of the data URL *)

Lemma split_comma_not_nil (s : string) : split_comma s <> [].
Proof.
  induction s as [|c rest IH]; simpl; [discriminate|].
  destruct (Ascii.eqb c ","%char); [discriminate|].
  destruct (split_comma rest); discriminate.
Qed.

(** A string without a comma is one piece. *)
Lemma split_comma_no_comma (s : string) :
  (forall n, String.get n s <> Some ","%char) -> split_comma s = [s].
Proof.
  induction s as [|c rest IH]; intros Hfree; [reflexivity|].
  simpl. destruct (Ascii.eqb_spec c ","%char) as [-> | Hc].
  - exfalso. apply (Hfree 0). reflexivity.
  - rewrite IH; [reflexivity|]. intros n. apply (Hfree (S n)).
Qed.

(** The pieces of [prefix,rest], for a prefix without a comma. *)
Lemma split_comma_prefix (prefix rest : string) :
  (forall n, String.get n prefix <> Some ","%char) ->
  split_comma (prefix +:+ "," +:+ rest) = prefix :: split_comma rest.
Proof.
  induction prefix as [|c prefix IH]; intros Hfree.
  - reflexivity.
  - change (String c prefix +:+ "," +:+ rest) with (String c (prefix +:+ "," +:+ rest)).
    simpl. destruct (Ascii.eqb_spec c ","%char) as [-> | Hc].
    + exfalso. apply (Hfree 0). reflexivity.
    + rewrite IH; [reflexivity|]. intros n. apply (Hfree (S n)).
Qed.

(** X26: [blobToBase64] resolves to the payload of the data URL the reader
    delivers, that is to what follows the first comma, when neither the
    part before the comma nor the payload holds a comma; on a data URL
    without any comma it resolves to [undefined]; and it rejects exactly
    when the reader fails.  It changes nothing in the world. *)
Theorem blobToBase64_extracts_payload (env : Env) (blob : Blob) (w : World) :
  (forall prefix payload : string,
     readAsDataURL env blob = Ok (prefix +:+ "," +:+ payload) ->
     (forall n, String.get n prefix <> Some ","%char) ->
     (forall n, String.get n payload <> Some ","%char) ->
     blobToBase64 env blob w = (Ok (Some payload), w)) /\
  (forall dataUrl : string,
     readAsDataURL env blob = Ok dataUrl ->
     (forall n, String.get n dataUrl <> Some ","%char) ->
     blobToBase64 env blob w = (Ok None, w)) /\
  (forall e : exn,
     readAsDataURL env blob = Throw e <-> blobToBase64 env blob w = (Throw e, w)).
Proof.
  unfold blobToBase64. split; [|split].
  - intros prefix payload Hread Hprefix Hpayload. simpl. rewrite Hread. simpl.
    rewrite (split_comma_prefix prefix payload Hprefix).
    rewrite (split_comma_no_comma payload Hpayload). reflexivity.
  - intros dataUrl Hread Hfree. simpl. rewrite Hread. simpl.
    rewrite (split_comma_no_comma dataUrl Hfree). reflexivity.
  - intros e. simpl. destruct (readAsDataURL env blob) as [dataUrl | e0]; simpl.
    + split; discriminate.
    + split; intros H; inversion H; reflexivity.
Qed.

Lemma blobToBase64_extracts_payload_witness :
  blobToBase64 online clip recorded = (Ok (Some "QUJD"), recorded).
Proof.
  apply (proj1 (blobToBase64_extracts_payload online clip recorded)
           "data:audio/webm;base64" "QUJD").
  - reflexivity.
  - intros n. do 23 (destruct n as [|n]; [discriminate|]). destruct n; discriminate.
  - intros n. do 4 (destruct n as [|n]; [discriminate|]). destruct n; discriminate.
Defined.

(** * Properties of sharing and copying *)

Arguments Share.setError v w /.
Arguments Share.setCopySuccess v w /.
Arguments Share.console_error what w /.
Arguments Share.setTimeout callback delay w /.
Arguments Share.anchor_click download href w /.
Arguments Share.URL_revokeObjectURL url w /.
Arguments Share.URL_createObjectURL nav blob w /.
Arguments Share.navigator_share present data w /.
Arguments Share.navigator_clipboard_writeText nav data w /.

Section Sharing.
Variable nav : Share.Navigator.
Variable r : AppState.

(** The fallback with a recording: the message, one object URL created
    and released, the download, and the scheduled clear. *)
Lemma downloadAudioFallback_runs (blob : Blob) (message : option string) (w : Share.World) :
  audioBlob r = Some blob ->
  exists shown : string,
    Share.downloadAudioFallback nav r message w
    = (Ok tt,
       {| Share.error := Some shown;
          Share.copySuccess := Share.copySuccess w;
          Share.console := Share.console w;
          Share.timers := (Share.timers w ++ [(5000, Share.ClearError)])%list;
          Share.shared := Share.shared w;
          Share.clipboard := Share.clipboard w;
          Share.downloads :=
            (Share.downloads w
               ++ [(Share.recordingFileName nav, Share.createObjectURL nav blob)])%list;
          Share.created := (Share.created w ++ [Share.createObjectURL nav blob])%list;
          Share.revoked := (Share.revoked w ++ [Share.createObjectURL nav blob])%list |}).
Proof.
  intros Hblob. unfold Share.downloadAudioFallback. rewrite Hblob. simpl.
  eexists. reflexivity.
Qed.

Lemma handleShare_downloads (type : Share.ShareType) (w : Share.World) :
  fst (Share.handleShare nav r type w) = Ok tt /\
  Share.copySuccess (snd (Share.handleShare nav r type w)) = Share.copySuccess w /\
  Share.clipboard (snd (Share.handleShare nav r type w)) = Share.clipboard w /\
  ((Share.downloads (snd (Share.handleShare nav r type w)) = Share.downloads w /\
    Share.created (snd (Share.handleShare nav r type w)) = Share.created w /\
    Share.revoked (snd (Share.handleShare nav r type w)) = Share.revoked w)
   \/
   (exists blob : Blob,
      type = Share.Audio /\ audioBlob r = Some blob /\
      Share.created (snd (Share.handleShare nav r type w))
      = (Share.created w ++ [Share.createObjectURL nav blob])%list /\
      Share.revoked (snd (Share.handleShare nav r type w))
      = (Share.revoked w ++ [Share.createObjectURL nav blob])%list /\
      Share.downloads (snd (Share.handleShare nav r type w))
      = (Share.downloads w
           ++ [(Share.recordingFileName nav, Share.createObjectURL nav blob)])%list /\
      Share.error (snd (Share.handleShare nav r type w)) <> None /\
      Share.timers (snd (Share.handleShare nav r type w))
      = (Share.timers w ++ [(5000, Share.ClearError)])%list)).
Proof.
  unfold Share.handleShare.
  destruct (Share.share nav) as [present|]; [|simpl; tauto].
  destruct type.
  - destruct (audioBlob r) as [blob|] eqn:Hblob; [|simpl; tauto].
    destruct (Share.canShareFile nav _).
    + simpl. destruct (present _) as [|[name|]]; simpl; [tauto| |tauto].
      destruct (String.eqb name "AbortError"); simpl; [tauto|].
      destruct (String.eqb name "NotAllowedError");
        match goal with
        | |- context [Share.downloadAudioFallback nav r ?m ?w0] =>
            destruct (downloadAudioFallback_runs blob m w0 Hblob) as [shown ->]
        end; simpl; (do 3 (split; [reflexivity|])); right; exists blob;
        repeat split; discriminate.
    + destruct (downloadAudioFallback_runs blob None w Hblob) as [shown ->]. simpl.
      do 3 (split; [reflexivity|]). right. exists blob. repeat split. discriminate.
  - destruct (truthy (transcribedText r)); simpl; [|tauto].
    destruct (present _) as [|[name|]]; simpl; [tauto| |tauto].
    destruct (String.eqb name "AbortError"); simpl; [tauto|].
    destruct (String.eqb name "NotAllowedError"); simpl; tauto.
Qed.

Lemma handleShare_messages (type : Share.ShareType) (w : Share.World) :
  (Share.error (snd (Share.handleShare nav r type w)) = Share.error w /\
   Share.timers (snd (Share.handleShare nav r type w)) = Share.timers w)
  \/
  (exists (shown : string) (delay : nat),
     Share.error (snd (Share.handleShare nav r type w)) = Some shown /\
     Share.timers (snd (Share.handleShare nav r type w))
     = (Share.timers w ++ [(delay, Share.ClearError)])%list).
Proof.
  unfold Share.handleShare.
  destruct (Share.share nav) as [present|]; [|simpl; right; eauto].
  destruct type.
  - destruct (audioBlob r) as [blob|] eqn:Hblob; [|simpl; tauto].
    destruct (Share.canShareFile nav _).
    + simpl. destruct (present _) as [|[name|]]; simpl; [tauto| |tauto].
      destruct (String.eqb name "AbortError"); simpl; [tauto|].
      destruct (String.eqb name "NotAllowedError");
        match goal with
        | |- context [Share.downloadAudioFallback nav r ?m ?w0] =>
            destruct (downloadAudioFallback_runs blob m w0 Hblob) as [shown ->]
        end; simpl; right; eauto.
    + destruct (downloadAudioFallback_runs blob None w Hblob) as [shown ->]. simpl.
      right. eauto.
  - destruct (truthy (transcribedText r)); simpl; [|tauto].
    destruct (present _) as [|[name|]]; simpl; [tauto| |tauto].
    destruct (String.eqb name "AbortError"); simpl; [tauto|].
    destruct (String.eqb name "NotAllowedError"); simpl; right; eauto.
Qed.

End Sharing.

(** X27: [handleShare] returns whatever the platform does, and it never
    leaks an object URL: either it creates none and downloads nothing, or
    it was asked for the audio of an existing recording, and it creates one
    URL, downloads the recording file from it, releases that same URL,
    shows a message and schedules the clearing of the message after five
    seconds.  It never touches the clipboard or the copy feedback. *)
Theorem share_download_releases_its_url (nav : Share.Navigator) (r : AppState)
    (type : Share.ShareType) (w : Share.World) :
  fst (Share.handleShare nav r type w) = Ok tt /\
  Share.copySuccess (snd (Share.handleShare nav r type w)) = Share.copySuccess w /\
  Share.clipboard (snd (Share.handleShare nav r type w)) = Share.clipboard w /\
  ((Share.downloads (snd (Share.handleShare nav r type w)) = Share.downloads w /\
    Share.created (snd (Share.handleShare nav r type w)) = Share.created w /\
    Share.revoked (snd (Share.handleShare nav r type w)) = Share.revoked w)
   \/
   (exists blob : Blob,
      type = Share.Audio /\ audioBlob r = Some blob /\
      Share.created (snd (Share.handleShare nav r type w))
      = (Share.created w ++ [Share.createObjectURL nav blob])%list /\
      Share.revoked (snd (Share.handleShare nav r type w))
      = (Share.revoked w ++ [Share.createObjectURL nav blob])%list /\
      Share.downloads (snd (Share.handleShare nav r type w))
      = (Share.downloads w
           ++ [(Share.recordingFileName nav, Share.createObjectURL nav blob)])%list /\
      Share.error (snd (Share.handleShare nav r type w)) <> None /\
      Share.timers (snd (Share.handleShare nav r type w))
      = (Share.timers w ++ [(5000, Share.ClearError)])%list)).
Proof. apply handleShare_downloads. Qed.

(** X28: every message [handleShare] shows comes with its clearing: either
    the handler leaves the message and the timers as they were, or it shows
    a message and schedules one [setError(null)]. *)
Theorem share_message_is_always_cleared (nav : Share.Navigator) (r : AppState)
    (type : Share.ShareType) (w : Share.World) :
  (Share.error (snd (Share.handleShare nav r type w)) = Share.error w /\
   Share.timers (snd (Share.handleShare nav r type w)) = Share.timers w)
  \/
  (exists (shown : string) (delay : nat),
     Share.error (snd (Share.handleShare nav r type w)) = Some shown /\
     Share.timers (snd (Share.handleShare nav r type w))
     = (Share.timers w ++ [(delay, Share.ClearError)])%list /\
     Share.error (snd (Share.fire Share.ClearError (snd (Share.handleShare nav r type w))))
     = None).
Proof.
  destruct (handleShare_messages nav r type w) as [Hsame | (shown & delay & Herr & Htimers)].
  - left. exact Hsame.
  - right. exists shown, delay. repeat split; assumption.
Qed.

(** X29: a share the user cancels, or one that is rejected with a value
    that is not an [Error], is silent: on a platform whose share sheet takes
    files, [handleShare] then shows no message, logs nothing, schedules
    nothing and downloads nothing, for the audio as for the text. *)
Theorem cancelled_share_is_silent (nav : Share.Navigator) (r : AppState)
    (type : Share.ShareType) (w : Share.World)
    (present : Share.ShareData -> Share.Settled) (can : Share.ShareData -> bool) :
  Share.share nav = Some present ->
  Share.canShare nav = Some can ->
  (forall data, can data = true) ->
  (forall data,
     present data = Share.Rejected (Share.NamedError "AbortError") \/
     present data = Share.Rejected Share.NotAnError) ->
  Share.error (snd (Share.handleShare nav r type w)) = Share.error w /\
  Share.console (snd (Share.handleShare nav r type w)) = Share.console w /\
  Share.timers (snd (Share.handleShare nav r type w)) = Share.timers w /\
  Share.downloads (snd (Share.handleShare nav r type w)) = Share.downloads w /\
  Share.created (snd (Share.handleShare nav r type w)) = Share.created w.
Proof.
  intros Hshare Hcan Hfiles Hcancel. unfold Share.handleShare, Share.canShareFile.
  rewrite Hshare, Hcan. destruct type.
  - destruct (audioBlob r) as [blob|]; [|simpl; tauto].
    rewrite Hfiles. simpl.
    destruct (Hcancel {| Share.files :=
                           [{| Share.fileName := Share.recordingFileName nav;
                               Share.fileType := type blob;
                               Share.content := blob |}];
                         Share.title := Some "Audio Recording";
                         Share.text := Some "Listen to my audio recording." |})
      as [-> | ->]; simpl; tauto.
  - destruct (truthy (transcribedText r)); simpl; [|tauto].
    destruct (Hcancel {| Share.files := []; Share.title := Some "Transcription";
                         Share.text := Some (transcribedText r) |})
      as [-> | ->]; simpl; tauto.
Qed.

Lemma cancelled_share_is_silent_witness :
  Share.error (snd (Share.handleShare cancelling (app transcribed) Share.Audio
                      (Share.world_of (app transcribed))))
  = Share.error (Share.world_of (app transcribed)) /\
  Share.console (snd (Share.handleShare cancelling (app transcribed) Share.Audio
                        (Share.world_of (app transcribed))))
  = Share.console (Share.world_of (app transcribed)) /\
  Share.timers (snd (Share.handleShare cancelling (app transcribed) Share.Audio
                       (Share.world_of (app transcribed))))
  = Share.timers (Share.world_of (app transcribed)) /\
  Share.downloads (snd (Share.handleShare cancelling (app transcribed) Share.Audio
                          (Share.world_of (app transcribed))))
  = Share.downloads (Share.world_of (app transcribed)) /\
  Share.created (snd (Share.handleShare cancelling (app transcribed) Share.Audio
                        (Share.world_of (app transcribed))))
  = Share.created (Share.world_of (app transcribed)).
Proof.
  apply (cancelled_share_is_silent cancelling (app transcribed) Share.Audio
           (Share.world_of (app transcribed))
           (fun _ => Share.Rejected (Share.NamedError "AbortError"))
           (fun _ => true)).
  - reflexivity.
  - reflexivity.
  - reflexivity.
  - intros data. left. reflexivity.
Defined.

(** X30: [handleCopyText] touches the clipboard only for a transcript that
    is not empty, and then writes exactly the transcript, shows [Copied!]
    when the write succeeded and [Failed] (with a log) when it was rejected,
    and in both cases schedules the reset of that feedback after two
    seconds; it never sets the error message. *)
Theorem copy_writes_transcript_and_resets (nav : Share.Navigator) (r : AppState)
    (w : Share.World) :
  (transcribedText r = EmptyString -> Share.handleCopyText nav r w = (Ok tt, w)) /\
  (transcribedText r <> EmptyString ->
   fst (Share.handleCopyText nav r w) = Ok tt /\
   Share.clipboard (snd (Share.handleCopyText nav r w))
   = (Share.clipboard w ++ [transcribedText r])%list /\
   Share.timers (snd (Share.handleCopyText nav r w))
   = (Share.timers w ++ [(2000, Share.ClearCopySuccess)])%list /\
   Share.error (snd (Share.handleCopyText nav r w)) = Share.error w /\
   Share.copySuccess
     (snd (Share.fire Share.ClearCopySuccess (snd (Share.handleCopyText nav r w))))
   = EmptyString /\
   ((Share.clipboard_writeText nav (transcribedText r) = Share.Fulfilled /\
     Share.copySuccess (snd (Share.handleCopyText nav r w)) = "Copied!" /\
     Share.console (snd (Share.handleCopyText nav r w)) = Share.console w)
    \/
    ((exists err, Share.clipboard_writeText nav (transcribedText r) = Share.Rejected err) /\
     Share.copySuccess (snd (Share.handleCopyText nav r w)) = "Failed" /\
     Share.console (snd (Share.handleCopyText nav r w))
     = (Share.console w ++ ["Failed to copy text: "])%list))).
Proof.
  unfold Share.handleCopyText. split.
  - intros ->. reflexivity.
  - intros Htext. apply truthy_true in Htext. rewrite Htext. simpl.
    destruct (Share.clipboard_writeText nav (transcribedText r)) as [|err] eqn:Hwrite;
      simpl; (do 5 (split; [reflexivity|])).
    + left. tauto.
    + right. split; [eauto | tauto].
Qed.

Lemma copy_writes_transcript_and_resets_witness :
  Share.handleCopyText refusing (editing EmptyString "A" [])
    (Share.world_of (editing EmptyString "A" []))
  = (Ok tt, Share.world_of (editing EmptyString "A" [])) /\
  Share.copySuccess
    (snd (Share.handleCopyText refusing (app transcribed) (Share.world_of (app transcribed))))
  = "Failed".
Proof.
  split.
  - apply (proj1 (copy_writes_transcript_and_resets refusing (editing EmptyString "A" [])
                    (Share.world_of (editing EmptyString "A" [])))).
    reflexivity.
  - destruct (proj2 (copy_writes_transcript_and_resets refusing (app transcribed)
                       (Share.world_of (app transcribed))))
      as (_ & _ & _ & _ & _ & [(Hok & _) | (_ & Hfailed & _)]).
    + vm_compute. discriminate.
    + vm_compute in Hok. discriminate Hok.
    + exact Hfailed.
Defined.
